(** * Legal-AI RAG pipeline: text cleaning, retrieval, index adapter, engine

    A shallow embedding of the Python sources

      - [ingestion/text_cleaner.py]       (class [TextCleaner])
      - [ingestion/file_loader.py]        (class [FileLoader])
      - [vector_store/vector_db_manager.py] (class [VectorDBManager])
      - [vector_store/retriever.py]       (class [LegalRetriever])
      - [app/engine.py]                   (class [LegalAIEngine])
      - [app/config.py]

    Python [str] values are sequences of Unicode code points and are
    modelled as [list N]; [dict]s with string keys are [gmap]s; [set]s are
    [gset]s; values of type [float] are IEEE 754 binary64 numbers, with
    the operations of the Standard Library's [SpecFloat]; exceptions are
    an explicit [Raise] result threaded through a state-and-exception
    monad. *)

From Stdlib Require Import ZArith NArith SpecFloat List Ascii String Lia Bool.
From stdpp Require Import base option list gmap sets countable.

Local Open Scope N_scope.

(** ** Python strings *)

Module Py.

Abbreviation str := (list N).

(** Byte-wise UTF-8 decoding, so that the Thai literals of the sources
    can be written as they appear there. *)
Fixpoint utf8_go (acc : N) (need : nat) (bs : list N) : str :=
  match bs with
  | [] => []
  | b :: bs' =>
      match need with
      | O =>
          if b <? 128 then b :: utf8_go 0 O bs'
          else if b <? 224 then utf8_go (b - 192) 1%nat bs'
          else if b <? 240 then utf8_go (b - 224) 2%nat bs'
          else utf8_go (b - 240) 3%nat bs'
      | S O => (acc * 64 + (b - 128)) :: utf8_go 0 O bs'
      | S n => utf8_go (acc * 64 + (b - 128)) n bs'
      end
  end.

Fixpoint bytes_of (s : string) : list N :=
  match s with
  | EmptyString => []
  | String a s' => N_of_ascii a :: bytes_of s'
  end.

Definition lit (s : string) : str := utf8_go 0 O (bytes_of s).

Definition LF : N := 10.

(** [str.isspace] on one character, which is also the class [\s] of
    [re] on [str] patterns. *)
Definition isspace (c : N) : bool :=
  ((9 <=? c) && (c <=? 13)) || ((28 <=? c) && (c <=? 32))
  || (c =? 133) || (c =? 160) || (c =? 5760)
  || ((8192 <=? c) && (c <=? 8202))
  || (c =? 8232) || (c =? 8233) || (c =? 8239) || (c =? 8287)
  || (c =? 12288).

(** First code points of the runs of ten decimal digits (Unicode
    category Nd); the mathematical digits U+1D7CE..U+1D7FF form one run
    of fifty. This is the class [\d] of [re] on [str] patterns. *)
Definition digit_runs : list N :=
  [ 0x30; 0x660; 0x6f0; 0x7c0; 0x966; 0x9e6; 0xa66; 0xae6; 0xb66; 0xbe6;
    0xc66; 0xce6; 0xd66; 0xde6; 0xe50; 0xed0; 0xf20; 0x1040; 0x1090;
    0x17e0; 0x1810; 0x1946; 0x19d0; 0x1a80; 0x1a90; 0x1b50; 0x1bb0;
    0x1c40; 0x1c50; 0xa620; 0xa8d0; 0xa900; 0xa9d0; 0xa9f0; 0xaa50;
    0xabf0; 0xff10; 0x104a0; 0x10d30; 0x11066; 0x110f0; 0x11136;
    0x111d0; 0x112f0; 0x11450; 0x114d0; 0x11650; 0x116c0; 0x11730;
    0x118e0; 0x11950; 0x11c50; 0x11d50; 0x11da0; 0x16a60; 0x16ac0;
    0x16b50; 0x1e140; 0x1e2f0; 0x1e950; 0x1fbf0 ].

Definition isdecimal (c : N) : bool :=
  existsb (fun lo => (lo <=? c) && (c <? lo + 10)) digit_runs
  || ((0x1d7ce <=? c) && (c <=? 0x1d7ff)).

(** [str.lstrip()], [str.rstrip()], [str.strip()] *)
Fixpoint lstrip (s : str) : str :=
  match s with
  | c :: s' => if isspace c then lstrip s' else s
  | [] => []
  end.

Definition rstrip (s : str) : str := rev (lstrip (rev s)).

Definition strip (s : str) : str := rstrip (lstrip s).

(** [s.split('\n')]: never the empty list *)
Fixpoint split_lines (s : str) : list str :=
  match s with
  | [] => [[]]
  | c :: s' =>
      if c =? LF then [] :: split_lines s'
      else match split_lines s' with
           | l :: ls => (c :: l) :: ls
           | [] => [[c]]
           end
  end.

(** [sep.join(parts)] *)
Fixpoint join (sep : str) (parts : list str) : str :=
  match parts with
  | [] => []
  | [p] => p
  | p :: ps => p ++ sep ++ join sep ps
  end.

(** [c * n] for a one-character string [c] *)
Definition times (c : N) (n : nat) : str := repeat c n.

(** Decimal rendering of an [int], as [str(n)] and [f"{n}"] give it. *)
Fixpoint pos_digits (fuel : nat) (n : N) (acc : str) : str :=
  match fuel with
  | O => acc
  | S f =>
      let acc' := (48 + n mod 10) :: acc in
      if n <? 10 then acc' else pos_digits f (n / 10) acc'
  end.

Definition str_of_N (n : N) : str := pos_digits (S (N.to_nat (N.log2 n))) n [].

Definition str_of_Z (z : Z) : str :=
  match z with
  | Z0 => [48]
  | Zpos p => str_of_N (Npos p)
  | Zneg p => 45 :: str_of_N (Npos p)
  end.

End Py.

(** ** Python floats

    A [float] is an IEEE 754 binary64 number: 53 bits of precision,
    round to nearest, ties to even. *)

Module PyFloat.

Abbreviation t := spec_float.

Definition prec : Z := 53.
Definition emax : Z := 1024.

(** [float(z)] for an [int] *)
Definition of_int (z : Z) : t := binary_normalize prec emax z 0 false.

(** [a - b], [a / b], [a < b], [a <= b] *)
Definition sub (a b : t) : t := SFsub prec emax a b.
Definition div (a b : t) : t := SFdiv prec emax a b.
Definition ltb (a b : t) : bool := SFltb a b.
Definition leb (a b : t) : bool := SFleb a b.

(** The literal with the decimal value [n / d], for a power of ten
    [d]: the binary64 number nearest to it, which is also what the
    correctly rounded division of the two integers gives. *)
Definition decimal (n d : Z) : t := div (of_int n) (of_int d).

(** [bool(x)]: zero of either sign is falsy, every other float (a NaN
    too) is truthy. *)
Definition truthy (x : t) : bool :=
  match x with
  | S754_zero _ => false
  | _ => true
  end.

End PyFloat.

(** ** The subset of [re] used by the cleaner

    Every pattern of [text_cleaner.py] is a sequence of character classes,
    each under a greedy bounded repetition, optionally anchored by [^] and
    [$] in [re.MULTILINE] mode. *)

Module Re.

Record item := Rep { cls : N -> bool; lo : nat; hi : option nat }.

Record pattern := Pat { bol : bool; items : list item; eol : bool }.

Definition chr (c : N) : item := Rep (N.eqb c) 1 (Some 1%nat).
Definition star (p : N -> bool) : item := Rep p 0 None.
Definition plus (p : N -> bool) : item := Rep p 1 None.
Definition at_least (n : nat) (p : N -> bool) : item := Rep p n None.

Definition may_continue (h : option nat) : bool :=
  match h with Some O => false | _ => true end.

Definition dec (h : option nat) : option nat := Nat.pred <$> h.

(** Greedy repetition with backtracking: take one more character when
    allowed, fall back to the continuation [k] when that fails. The
    result is the number of characters consumed. *)
Fixpoint m_rep (p : N -> bool) (l : nat) (h : option nat)
         (k : Py.str -> option nat) (s : Py.str) : option nat :=
  let stop := if Nat.eqb l 0 then k s else None in
  match s with
  | [] => stop
  | c :: s' =>
      if p c && may_continue h then
        match m_rep p (Nat.pred l) (dec h) k s' with
        | Some n => Some (S n)
        | None => stop
        end
      else stop
  end.

Fixpoint m_items (its : list item) (k : Py.str -> option nat) : Py.str -> option nat :=
  match its with
  | [] => k
  | it :: rest => m_rep (cls it) (lo it) (hi it) (m_items rest k)
  end.

(** [$] under [re.MULTILINE]: end of text, or just before a newline. *)
Definition at_eol (s : Py.str) : bool :=
  match s with
  | [] => true
  | c :: _ => c =? Py.LF
  end.

Definition m_end (e : bool) (s : Py.str) : option nat :=
  if e then (if at_eol s then Some O else None) else Some O.

(** A match of [pat] starting exactly here; [sol] tells whether this
    position is the start of the text or follows a newline. *)
Definition match_here (pat : pattern) (sol : bool) (s : Py.str) : option nat :=
  if bol pat && negb sol then None
  else m_items (items pat) (m_end (eol pat)) s.

(** [re.sub(pat, repl, s)] for patterns that consume at least one
    character: leftmost matches, not overlapping. [skip] counts the
    characters of the current match still to be dropped. *)
Fixpoint sub_from (pat : pattern) (repl : Py.str) (skip : nat) (sol : bool)
         (s : Py.str) : Py.str :=
  match s with
  | [] => []
  | c :: s' =>
      let sol' := c =? Py.LF in
      match skip with
      | S n => sub_from pat repl n sol' s'
      | O =>
          match match_here pat sol s with
          | Some (S n) => repl ++ sub_from pat repl n sol' s'
          | _ => c :: sub_from pat repl O sol' s'
          end
      end
  end.

Definition sub (pat : pattern) (repl : Py.str) (s : Py.str) : Py.str :=
  sub_from pat repl O true s.

End Re.

(** ** ingestion/text_cleaner.py *)

Module TextCleaner.

Import Re.

Definition only (c : N) : N -> bool := N.eqb c.
Definition one_of (cs : list N) (c : N) : bool := existsb (N.eqb c) cs.

(** [self.patterns_to_remove] *)
Definition patterns_to_remove : list pattern :=
  [ Pat false [chr 0] false;      (* \x00 *)
    Pat false [chr 12] false;     (* \x0c *)
    Pat false [chr 13] false ].   (* \r   *)

(** [self.patterns_to_replace] *)
Definition patterns_to_replace : list (pattern * Py.str) :=
  [ (Pat false [plus (one_of [32; 9])] false, Py.lit " ");
    (Pat false [at_least 3 (only Py.LF)] false, [Py.LF; Py.LF]);
    (Pat false [at_least 4 (only 46)] false, Py.lit "...");
    (Pat false [at_least 3 (only 45)] false, Py.lit "---") ].

Definition remove_special_chars (text : Py.str) : Py.str :=
  fold_left (fun t pat => sub pat [] t) patterns_to_remove text.

Definition normalize_whitespace (text : Py.str) : Py.str :=
  let text := fold_left (fun t pr => sub (fst pr) (snd pr) t) patterns_to_replace text in
  let lines := Py.split_lines text in
  let lines := map Py.strip lines in
  Py.join [Py.LF] lines.

Definition ocr_fixes : list (pattern * Py.str) :=
  [ (Pat false [chr 0xe4d; chr 0xe32] false, [0xe33]);
    (Pat false [chr 0xe40; chr 0xe40] false, [0xe41]) ].

Definition fix_common_ocr_errors (text : Py.str) : Py.str :=
  fold_left (fun t pr => sub (fst pr) (snd pr) t) ocr_fixes text.

Definition sp : item := star Py.isspace.
Definition ds : item := plus Py.isdecimal.

(** [^\d{1,3}\s*$], [^\s*หน้า\s*\d+\s*$], [^\s*Page\s*\d+\s*$] (the last
    one under [re.IGNORECASE]) *)
Definition page_patterns : list pattern :=
  [ Pat true [Rep Py.isdecimal 1 (Some 3%nat); sp] true;
    Pat true [sp; chr 0xe2b; chr 0xe19; chr 0xe49; chr 0xe32; sp; ds; sp] true;
    Pat true [sp; Rep (one_of [80; 112]) 1 (Some 1%nat);
                  Rep (one_of [65; 97]) 1 (Some 1%nat);
                  Rep (one_of [71; 103]) 1 (Some 1%nat);
                  Rep (one_of [69; 101]) 1 (Some 1%nat); sp; ds; sp] true ].

Definition remove_page_numbers (text : Py.str) : Py.str :=
  fold_left (fun t pat => sub pat [] t) page_patterns text.

(** [^\s*-\s*\d+\s*-\s*$] and [^\s*\[\s*\d+\s*\]\s*$] *)
Definition footer_patterns : list pattern :=
  [ Pat true [sp; chr 45; sp; ds; sp; chr 45; sp] true;
    Pat true [sp; chr 91; sp; ds; sp; chr 93; sp] true ].

Definition remove_headers_footers (text : Py.str) : Py.str :=
  fold_left (fun t pat => sub pat [] t) footer_patterns text.

Definition clean_with (text : Py.str) (remove_page_numbers_flag fix_ocr : bool) : Py.str :=
  match text with
  | [] => []
  | _ =>
      let text := remove_special_chars text in
      let text := if fix_ocr then fix_common_ocr_errors text else text in
      let text :=
        if remove_page_numbers_flag
        then remove_headers_footers (remove_page_numbers text)
        else text in
      let text := normalize_whitespace text in
      Py.strip text
  end.

(** [clean(text)] with the default flags *)
Definition clean (text : Py.str) : Py.str := clean_with text true true.

End TextCleaner.

(** ** Python values, results and effects *)

(** Metadata values of a chunk: strings and integers. *)
Inductive pyval := VStr (s : Py.str) | VInt (z : Z).

#[global] Instance pyval_eq_dec : EqDecision pyval.
Proof. solve_decision. Defined.

#[global] Instance pyval_countable : Countable pyval.
Proof.
  refine (inj_countable'
            (fun v => match v with VStr s => inl s | VInt z => inr z end)
            (fun x => match x with inl s => VStr s | inr z => VInt z end) _).
  intros []; reflexivity.
Defined.

(** [f"{v}"] *)
Definition py_format (v : pyval) : Py.str :=
  match v with
  | VStr s => s
  | VInt z => Py.str_of_Z z
  end.

(** [langchain_core.documents.Document] *)
Record Document := mkDocument {
  page_content : Py.str;
  metadata : gmap Py.str pyval
}.

#[global] Instance Document_eq_dec : EqDecision Document.
Proof. solve_decision. Defined.

(** The outcome of a Python call: a value, or an exception [e] of class
    [Exception], kept as its message [str(e)]. *)
Inductive result (A : Type) := Ok (a : A) | Raise (e : Py.str).
Arguments Ok {A} a.
Arguments Raise {A} e.

(** The document loaders of [langchain_community]. *)
Inductive Loader := PDFPlumberLoader | TextLoader | Docx2txtLoader.

#[global] Instance Loader_eq_dec : EqDecision Loader.
Proof. solve_decision. Defined.

(** Calls that reach an external collaborator; the trace keeps their
    order. *)
Inductive Event :=
| EvAddDocuments (docs : list Document)
| EvSimilaritySearch (query : Py.str) (k : Z)
| EvSimilaritySearchWithScore (query : Py.str) (k : Z)
| EvCount
| EvGetMetadatas
| EvGetWhereSource (source_name : Py.str)
| EvDelete (ids : list N)
| EvInvoke (template : Py.str) (inputs : list (Py.str * Py.str))
| EvSleep (seconds : Z)
| EvCopy (source target : Py.str)
| EvLoad (loader : Loader) (path : Py.str)
| EvSplit (documents : list Document).

#[global] Instance Event_eq_dec : EqDecision Event.
Proof. solve_decision. Defined.

(** The world: the state [E] of the external collaborators and the trace
    of the calls made to them so far. *)
Record World (E : Type) := mkWorld { env : E; trace : list Event }.
Arguments mkWorld {E} env trace.
Arguments env {E} w.
Arguments trace {E} w.

Definition M (E A : Type) : Type := World E -> result A * World E.

Definition ret {E A} (a : A) : M E A := fun w => (Ok a, w).

Definition raise {E A} (e : Py.str) : M E A := fun w => (Raise e, w).

Definition bind {E A B} (m : M E A) (f : A -> M E B) : M E B :=
  fun w =>
    match m w with
    | (Ok a, w') => f a w'
    | (Raise e, w') => (Raise e, w')
    end.

(** [try: body / except Exception as e: handler e] *)
Definition try_except {E A} (body : M E A) (handler : Py.str -> M E A) : M E A :=
  fun w =>
    match body w with
    | (Ok a, w') => (Ok a, w')
    | (Raise e, w') => handler e w'
    end.

(** A call to an external operation [op], recorded as [ev]. *)
Definition call {E A} (ev : Event) (op : E -> result A * E) : M E A :=
  fun w =>
    let (r, e') := op (env w) in
    (r, mkWorld e' (trace w ++ [ev])).

(** A pure computation that may raise. *)
Definition lift {E A} (r : result A) : M E A := fun w => (r, w).

Declare Scope py_scope.
Delimit Scope py_scope with py.
Notation "'let!' x ':=' c1 'in' c2" := (bind c1 (fun x => c2))
  (at level 10, x name, c1 at level 100, c2 at level 200) : py_scope.
Notation "'run' c1 'in' c2" := (bind c1 (fun _ => c2))
  (at level 10, c1 at level 100, c2 at level 200) : py_scope.

(** [x or d] for an optional [int]: [None] and [0] are falsy. *)
Definition or_int (x : option Z) (d : Z) : Z :=
  match x with
  | Some z => if (z =? 0)%Z then d else z
  | None => d
  end.

(** [x or d] for an optional [float]: [None] and [0.0] are falsy. *)
Definition or_float (x : option PyFloat.t) (d : PyFloat.t) : PyFloat.t :=
  match x with
  | Some q => if PyFloat.truthy q then q else d
  | None => d
  end.

(** [a < b] on floats, as a boolean *)
Definition ltb_float (a b : PyFloat.t) : bool := PyFloat.ltb a b.

(** [len(xs)] *)
Definition len {A} (xs : list A) : Z := Z.of_nat (length xs).

(** ** The external collaborators *)

(** The Chroma vector store behind [VectorDBManager.db]. *)
Class VectorStore (E : Type) := {
  db_add_documents : list Document -> E -> result unit * E;
  db_similarity_search : Py.str -> Z -> E -> result (list Document) * E;
  db_similarity_search_with_score :
    Py.str -> Z -> E -> result (list (Document * PyFloat.t)) * E;
  (** [db._collection.count()] *)
  collection_count : E -> result Z * E;
  (** [db._collection.get(include=["metadatas"])["metadatas"]] *)
  collection_get_metadatas : E -> result (list (option (gmap Py.str pyval))) * E;
  (** [db._collection.get(where={"source": s}, ...)["ids"]] *)
  collection_get_where_source : Py.str -> E -> result (list N) * E;
  (** [db._collection.delete(ids=ids)] *)
  collection_delete : list N -> E -> result unit * E
}.

(** The chain [prompt | llm | StrOutputParser()] and [time.sleep]. *)
Class ChatModel (E : Type) := {
  from_template : Py.str -> result Py.str;
  chain_invoke : Py.str -> list (Py.str * Py.str) -> E -> result Py.str * E;
  time_sleep : Z -> E -> E
}.

(** [pathlib], [shutil], the document loaders and the text splitter. *)
Class FileSystem (E : Type) := {
  (** [Path(p).suffix.lower()] and [Path(p).name] *)
  path_suffix_lower : Py.str -> Py.str;
  path_name : Py.str -> Py.str;
  (** [self.data_dir / name] *)
  data_dir_join : Py.str -> Py.str;
  path_exists : Py.str -> E -> bool;
  shutil_copy2 : Py.str -> Py.str -> E -> result unit * E;
  (** [loader.load()] for the loader built on a path *)
  loader_load : Loader -> Py.str -> E -> result (list Document) * E;
  (** [self.text_splitter.split_documents] *)
  splitter_split_documents : list Document -> E -> result (list Document) * E
}.

(** [llm/prompt_templates.py] is kept abstract: its constants and helpers
    are the fields of this class, so that every statement about the
    engine holds for all of their values. *)
Class PromptTemplates := {
  NO_CONTEXT_PROMPT : Py.str;
  (** [LOW_RELEVANCE_PROMPT.format(question=q)] *)
  LOW_RELEVANCE_PROMPT_format : Py.str -> result Py.str;
  LEGAL_SUMMARY_PROMPT : Py.str;
  get_prompt_template : Py.str -> result Py.str;
  format_response_with_disclaimer : Py.str -> result Py.str
}.

(** ** app/config.py *)

Definition NUM_RELEVANT_DOCS : Z := 4.
(** [RETRIEVAL_THRESHOLD = 0.3] *)
Definition RETRIEVAL_THRESHOLD : PyFloat.t := PyFloat.decimal 3 10.
Definition SUPPORTED_EXTENSIONS : list Py.str :=
  [Py.lit ".pdf"; Py.lit ".txt"; Py.lit ".docx"].

Local Open Scope py_scope.
Local Open Scope Z_scope.

(** ** vector_store/vector_db_manager.py

    The [print] calls of the sources write to the console only and are
    left out. *)

Module VectorDBManager.
Section Methods.
Context {E : Type} `{!VectorStore E}.

Definition get_document_count : M E Z :=
  try_except (call EvCount collection_count) (fun _ => ret 0).

Definition add_documents (documents : list Document) : M E Z :=
  match documents with
  | [] => ret 0
  | _ =>
      try_except
        (run call (EvAddDocuments documents) (db_add_documents documents) in
         run get_document_count in
         ret (len documents))
        (fun _ => ret 0)
  end.

Definition similarity_search (query : Py.str) (k : option Z) : M E (list Document) :=
  let k := or_int k NUM_RELEVANT_DOCS in
  run get_document_count in
  try_except
    (call (EvSimilaritySearch query k) (db_similarity_search query k))
    (fun _ => ret []).

Definition similarity_search_with_score (query : Py.str) (k : option Z)
  : M E (list (Document * PyFloat.t)) :=
  let k := or_int k NUM_RELEVANT_DOCS in
  try_except
    (call (EvSimilaritySearchWithScore query k)
          (db_similarity_search_with_score query k))
    (fun _ => ret []).

(** The loop that fills the [set] of sources. *)
Fixpoint collect_sources (metadatas : list (option (gmap Py.str pyval)))
         (sources : gset pyval) : gset pyval :=
  match metadatas with
  | [] => sources
  | Some md :: rest =>
      match md !! Py.lit "source" with
      | Some v => collect_sources rest (sources ∪ {[ v ]})
      | None => collect_sources rest sources
      end
  | None :: rest => collect_sources rest sources
  end.

Definition get_all_sources : M E (list pyval) :=
  try_except
    (let! metadatas := call EvGetMetadatas collection_get_metadatas in
     ret (elements (collect_sources metadatas ∅)))
    (fun _ => ret []).

Definition delete_by_source (source_name : Py.str) : M E bool :=
  try_except
    (let! ids_to_delete :=
       call (EvGetWhereSource source_name) (collection_get_where_source source_name) in
     match ids_to_delete with
     | [] => ret false
     | _ =>
         run call (EvDelete ids_to_delete) (collection_delete ids_to_delete) in
         ret true
     end)
    (fun _ => ret false).

End Methods.
End VectorDBManager.

(** ** vector_store/retriever.py *)

Module LegalRetriever.

(** The fields [default_k] and [threshold] of a retriever. *)
Record t := mk { default_k : Z; threshold : PyFloat.t }.

(** [LegalRetriever(vector_db)] *)
Definition new : t := mk NUM_RELEVANT_DOCS RETRIEVAL_THRESHOLD.

(** The filtering loop of [retrieve_relevant]. *)
Fixpoint relevant_docs (results_with_scores : list (Document * PyFloat.t))
         (threshold : PyFloat.t)
  : list Document :=
  match results_with_scores with
  | [] => []
  | (doc, score) :: rest =>
      if ltb_float score (PyFloat.sub (PyFloat.of_int 2) threshold)
      then doc :: relevant_docs rest threshold
      else relevant_docs rest threshold
  end.

Definition meta_get (doc : Document) (key : string) (dflt : string) : pyval :=
  default (VStr (Py.lit dflt)) (metadata doc !! Py.lit key).

(** One entry of [context_parts]:
    [f"[เอกสาร {i}: {source} | หน้า {page}]\n{doc.page_content}"] *)
Definition context_part (i : Z) (doc : Document) : Py.str :=
  let source := meta_get doc "source" "unknown" in
  let page := meta_get doc "page" "?" in
  (Py.lit "[เอกสาร " ++ Py.str_of_Z i ++ Py.lit ": " ++ py_format source
     ++ Py.lit " | หน้า " ++ py_format page ++ Py.lit "]" ++ [Py.LF]
     ++ page_content doc)%list.

(** [[f(i, doc) for i, doc in enumerate(docs, start)]] *)
Fixpoint enumerate_from {A B} (f : Z -> A -> B) (start : Z) (xs : list A) : list B :=
  match xs with
  | [] => []
  | x :: rest => f start x :: enumerate_from f (start + 1) rest
  end.

Definition RULE : N := 0x2500.

Definition format_context (docs : list Document) : Py.str :=
  match docs with
  | [] => []
  | _ =>
      let context_parts := enumerate_from context_part 1 docs in
      ([Py.LF; Py.LF] ++ Py.times RULE 50
         ++ Py.join [Py.LF; Py.LF] context_parts)%list
  end.

Section Methods.
Context {E : Type} `{!VectorStore E}.

Definition retrieve (self : t) (query : Py.str) (k : option Z) : M E (list Document) :=
  let k := or_int k (default_k self) in
  VectorDBManager.similarity_search query (Some k).

Definition retrieve_with_scores (self : t) (query : Py.str) (k : option Z)
  : M E (list (Document * PyFloat.t)) :=
  let k := or_int k (default_k self) in
  VectorDBManager.similarity_search_with_score query (Some k).

Definition retrieve_relevant (self : t) (query : Py.str) (k : option Z)
           (threshold_arg : option PyFloat.t) : M E (list Document) :=
  let k := or_int k (default_k self) in
  let threshold := or_float threshold_arg (threshold self) in
  let! results_with_scores := retrieve_with_scores self query (Some k) in
  ret (relevant_docs results_with_scores threshold).

Definition get_context_for_llm (self : t) (query : Py.str) (k : option Z)
  : M E (Py.str * bool) :=
  let k := or_int k (default_k self) in
  let! docs := retrieve self query (Some k) in
  match docs with
  | [] => ret ([], false)
  | _ => ret (format_context docs, true)
  end.

Definition has_documents (self : t) : M E bool :=
  let! n := VectorDBManager.get_document_count in
  ret (0 <? n).

Definition get_sources (self : t) : M E (list pyval) :=
  VectorDBManager.get_all_sources.

End Methods.
End LegalRetriever.

(** ** ingestion/file_loader.py *)

Module FileLoader.

Definition in_list (x : Py.str) (xs : list Py.str) : bool :=
  existsb (fun y => bool_decide (x = y)) xs.

(** The loop of [add_metadata]; [i] is the index of the first chunk. *)
Fixpoint add_metadata_from (i : Z) (chunks : list Document) (source_name : Py.str)
  : list Document :=
  match chunks with
  | [] => []
  | chunk :: rest =>
      let md := <[ Py.lit "source" := VStr source_name ]> (metadata chunk) in
      let md := <[ Py.lit "chunk_index" := VInt i ]> md in
      let md :=
        match md !! Py.lit "page" with
        | Some _ => md
        | None => <[ Py.lit "page" := VInt 1 ]> md
        end in
      mkDocument (page_content chunk) md
        :: add_metadata_from (i + 1) rest source_name
  end.

Definition add_metadata (chunks : list Document) (source_name : Py.str) : list Document :=
  add_metadata_from 0 chunks source_name.

Fixpoint clean_chunks (chunks : list Document) : list Document :=
  match chunks with
  | [] => []
  | chunk :: rest =>
      let cleaned_content := TextCleaner.clean (page_content chunk) in
      match Py.strip cleaned_content with
      | [] => clean_chunks rest
      | _ => mkDocument cleaned_content (metadata chunk) :: clean_chunks rest
      end
  end.

(** The result [dict] of [process_file]. *)
Record ProcessResult := mkProcessResult {
  pr_success : bool;
  pr_error : option Py.str;
  pr_file_name : option Py.str;
  pr_saved_path : option Py.str;
  pr_num_chunks : option Z;
  pr_chunks : list Document
}.

Section Methods.
Context {E : Type} `{!FileSystem E}.

Definition is_supported (file_path : Py.str) : bool :=
  in_list (path_suffix_lower file_path) SUPPORTED_EXTENSIONS.

Definition save_upload (file_path : Py.str) : M E Py.str :=
  fun w =>
    if path_exists file_path (env w) then
      (let target := data_dir_join (path_name file_path) in
       run call (EvCopy file_path target) (shutil_copy2 file_path target) in
       ret target) w
    else raise (Py.lit "ไม่พบไฟล์: " ++ file_path)%list w.

Definition load_document (file_path : Py.str) : M E (list Document) :=
  let ext := path_suffix_lower file_path in
  let load loader := call (EvLoad loader file_path) (loader_load loader file_path) in
  if bool_decide (ext = Py.lit ".pdf") then load PDFPlumberLoader
  else if bool_decide (ext = Py.lit ".txt") then load TextLoader
  else if bool_decide (ext = Py.lit ".docx") then load Docx2txtLoader
  else raise (Py.lit "ไม่รองรับไฟล์ประเภท: " ++ ext)%list.

Definition split_documents (documents : list Document) : M E (list Document) :=
  call (EvSplit documents) (splitter_split_documents documents).

Definition load_and_split (file_path : Py.str) (clean : bool) : M E (list Document) :=
  let! documents := load_document file_path in
  let! chunks := split_documents documents in
  let source_name := path_name file_path in
  let chunks := add_metadata chunks source_name in
  ret (if clean then clean_chunks chunks else chunks).

Definition process_file (file_path : Py.str) : M E ProcessResult :=
  try_except
    (if is_supported file_path then
       let! saved_path := save_upload file_path in
       let! chunks := load_and_split saved_path true in
       ret (mkProcessResult true None (Some (path_name saved_path))
              (Some saved_path) (Some (len chunks)) chunks)
     else
       ret (mkProcessResult false (Some (Py.lit "ไม่รองรับไฟล์ประเภทนี้"))
              None None None []))
    (fun e => ret (mkProcessResult false (Some e) None None None [])).

End Methods.
End FileLoader.

(** ** app/engine.py *)

Module LegalAIEngine.

(** One entry of the [sources] list of a chat answer. *)
Record SourceRef := mkSourceRef { sr_source : pyval; sr_page : pyval }.

(** The result [dict] of [chat]; a key that a branch does not set is
    [None]. *)
Record ChatResult := mkChatResult {
  success : bool;
  answer : Py.str;
  sources : list SourceRef;
  has_context : option bool;
  num_sources : option Z;
  error : option Py.str
}.

(** The result [dict] of [summarize]. *)
Record SummaryResult := mkSummaryResult {
  sm_success : bool;
  summary : Py.str;
  sm_sources : option (list pyval);
  num_chunks_used : option Z;
  sm_error : option Py.str
}.

(** The result [dict] of [ingest_file]: the one of [process_file] when
    that failed, its own otherwise. *)
Inductive IngestResult :=
| IngestNotProcessed (r : FileLoader.ProcessResult)
| IngestDone (message file_name : Py.str) (num_chunks total_documents : Z)
| IngestError (message error : Py.str).

Definition ingest_success (r : IngestResult) : bool :=
  match r with
  | IngestNotProcessed p => FileLoader.pr_success p
  | IngestDone _ _ _ _ => true
  | IngestError _ _ => false
  end.

Definition ERROR_PREFIX : Py.str := Py.lit "❌ เกิดข้อผิดพลาด: ".

Definition MAX_RETRIES : Z := 3.

(** [range(n)] *)
Definition range (n : Z) : list Z := map Z.of_nat (seq 0 (Z.to_nat n)).

(** [list(set(doc.metadata.get("source", "unknown") for doc in docs))] *)
Definition source_set (docs : list Document) : gset pyval :=
  list_to_set (map (fun doc => LegalRetriever.meta_get doc "source" "unknown") docs).

(** The query of [summarize]: [if source_name: ... else: ...] *)
Definition summary_query (source_name : option Py.str) : Py.str :=
  match source_name with
  | Some (_ :: _ as name) => (Py.lit "สรุปเนื้อหาทั้งหมดของ " ++ name)%list
  | _ => Py.lit "สรุปเนื้อหาทั้งหมดของเอกสาร"
  end.

(** The inputs of the chain in [chat] and in [summarize]. *)
Definition chat_inputs (context question : Py.str) : list (Py.str * Py.str) :=
  [(Py.lit "context", context); (Py.lit "question", question)].

Definition summary_inputs (context : Py.str) : list (Py.str * Py.str) :=
  [(Py.lit "context", context)].

Section Methods.
Context {E : Type} `{!VectorStore E} `{!ChatModel E} `{!FileSystem E}
        `{!PromptTemplates}.

Variable retriever : LegalRetriever.t.

Definition ingest_file (file_path : Py.str) : M E IngestResult :=
  try_except
    (let! result := FileLoader.process_file file_path in
     if FileLoader.pr_success result then
       let chunks := FileLoader.pr_chunks result in
       let! num_added := VectorDBManager.add_documents chunks in
       let! total := VectorDBManager.get_document_count in
       let file_name := default [] (FileLoader.pr_file_name result) in
       ret (IngestDone (Py.lit "✅ ประมวลผลสำเร็จ: " ++ file_name)%list
              file_name num_added total)
     else ret (IngestNotProcessed result))
    (fun e => ret (IngestError (ERROR_PREFIX ++ e)%list e)).

Definition sleep (seconds : Z) : M E unit :=
  call (EvSleep seconds) (fun e => (Ok tt, time_sleep seconds e)).

Definition invoke (template : Py.str) (inputs : list (Py.str * Py.str)) : M E Py.str :=
  call (EvInvoke template inputs) (chain_invoke template inputs).

(** The loop [for attempt in range(max_retries)] of [chat]; the result is
    the final value of [response], [None] when the loop never assigned
    it. *)
Fixpoint retry_loop (attempts : list Z) (max_retries : Z)
         (template : Py.str) (inputs : list (Py.str * Py.str))
  : M E (option Py.str) :=
  match attempts with
  | [] => ret None
  | attempt :: rest =>
      try_except
        (let! response := invoke template inputs in
         ret (Some response))
        (fun e =>
           if attempt <? max_retries - 1
           then run sleep 3 in retry_loop rest max_retries template inputs
           else raise e)
  end.

Definition chat_sources (docs : list Document) : list SourceRef :=
  map (fun doc => mkSourceRef (LegalRetriever.meta_get doc "source" "unknown")
                              (LegalRetriever.meta_get doc "page" "?")) docs.

Definition chat (question : Py.str) (prompt_type : Py.str) : M E ChatResult :=
  try_except
    (let! has := LegalRetriever.has_documents retriever in
     if negb has then
       ret (mkChatResult false NO_CONTEXT_PROMPT [] (Some false) None None)
     else
       let! docs := LegalRetriever.retrieve retriever question (Some NUM_RELEVANT_DOCS) in
       match docs with
       | [] =>
           let! msg := lift (LOW_RELEVANCE_PROMPT_format question) in
           ret (mkChatResult false msg [] (Some false) None None)
       | _ =>
           let context := LegalRetriever.format_context docs in
           let sources := chat_sources docs in
           let! prompt_template := lift (get_prompt_template prompt_type) in
           let! prompt := lift (from_template prompt_template) in
           let max_retries := MAX_RETRIES in
           let! response :=
             retry_loop (range max_retries) max_retries prompt
               (chat_inputs context question) in
           match response with
           | None => raise (Py.lit "object of type 'NoneType' has no len()")
           | Some response =>
               let! final_response := lift (format_response_with_disclaimer response) in
               ret (mkChatResult true final_response sources (Some true)
                      (Some (len sources)) None)
           end
       end)
    (fun e => ret (mkChatResult false (ERROR_PREFIX ++ e)%list [] None None (Some e))).

Definition summarize (source_name : option Py.str) : M E SummaryResult :=
  try_except
    (let query := summary_query source_name in
     let! docs := LegalRetriever.retrieve retriever query (Some 10) in
     match docs with
     | [] =>
         ret (mkSummaryResult false (Py.lit "⚠️ ไม่พบเอกสารที่จะสรุป") (Some []) None None)
     | _ =>
         let context := LegalRetriever.format_context docs in
         let! prompt := lift (from_template LEGAL_SUMMARY_PROMPT) in
         let! summary := invoke prompt (summary_inputs context) in
         let sources := elements (source_set docs) in
         ret (mkSummaryResult true summary (Some sources) (Some (len docs)) None)
     end)
    (fun e => ret (mkSummaryResult false (ERROR_PREFIX ++ e)%list None None (Some e))).

Definition delete_source (source_name : Py.str) : M E (bool * Py.str) :=
  try_except
    (let! ok := VectorDBManager.delete_by_source source_name in
     ret (ok, if ok : bool
              then (Py.lit "✅ ลบ " ++ source_name ++ Py.lit " สำเร็จ")%list
              else (Py.lit "⚠️ ไม่พบ " ++ source_name)%list))
    (fun e => ret (false, (ERROR_PREFIX ++ e)%list)).

End Methods.
End LegalAIEngine.

(** ** A simulated environment

    An in-memory stand-in for the external collaborators: the collection is
    a list of chunks with their ids, similarity search ranks by a given
    distance, the model answers by a given function, and any external call
    can be made to fail by number. *)

Module Sim.

Record t := mk {
  docs : list (N * Document);
  next_id : N;
  ticks : nat;
  fault : nat -> option Py.str;
  distance : Py.str -> Document -> PyFloat.t;
  reply : Py.str -> list (Py.str * Py.str) -> Py.str;
  files : list (Py.str * list Document)
}.

Definition advance (e : t) : t :=
  mk (docs e) (next_id e) (S (ticks e)) (fault e) (distance e) (reply e) (files e).

Definition with_docs (ds : list (N * Document)) (n : N) (e : t) : t :=
  mk ds n (ticks e) (fault e) (distance e) (reply e) (files e).

(** An external call: it fails when its number is marked faulty, and
    leaves the collection as it was in that case. *)
Definition external {A} (op : t -> A * t) (e : t) : result A * t :=
  match fault e (ticks e) with
  | Some msg => (Raise msg, advance e)
  | None => let (a, e') := op (advance e) in (Ok a, e')
  end.

Definition has_source (source_name : Py.str) (entry : N * Document) : bool :=
  bool_decide (metadata (snd entry) !! Py.lit "source" = Some (VStr source_name)).

Fixpoint add_all (ds : list Document) (n : N) : list (N * Document) :=
  match ds with
  | [] => []
  | d :: rest => (n, d) :: add_all rest (n + 1)%N
  end.

Fixpoint insert_by (x : Document * PyFloat.t) (xs : list (Document * PyFloat.t))
  : list (Document * PyFloat.t) :=
  match xs with
  | [] => [x]
  | y :: ys => if PyFloat.leb (snd x) (snd y) then x :: xs else y :: insert_by x ys
  end.

(** The chunks with their distance to [query], nearest first. *)
Definition ranked (query : Py.str) (e : t) : list (Document * PyFloat.t) :=
  fold_right (fun entry acc =>
                let d := snd entry in
                insert_by (d, distance e query d) acc)
             [] (docs e).

Definition ascii_lower (c : N) : N :=
  if ((65 <=? c) && (c <=? 90))%N then (c + 32)%N else c.

Fixpoint after_last (sep : N) (s acc : Py.str) : Py.str :=
  match s with
  | [] => acc
  | c :: s' => if (c =? sep)%N then after_last sep s' s' else after_last sep s' acc
  end.

Definition name_of (path : Py.str) : Py.str := after_last 47 path path.

Fixpoint suffix_from (s : Py.str) (acc : Py.str) : Py.str :=
  match s with
  | [] => acc
  | c :: s' => if (c =? 46)%N then suffix_from s' s else suffix_from s' acc
  end.

Definition suffix_lower_of (path : Py.str) : Py.str :=
  map ascii_lower (suffix_from (name_of path) []).

Definition lookup_file (path : Py.str) (e : t) : option (list Document) :=
  snd <$> find (fun f => bool_decide (fst f = path)) (files e).

#[global] Instance vector_store : VectorStore t := {
  db_add_documents ds :=
    external (fun e =>
      (tt, with_docs (docs e ++ add_all ds (next_id e))
                     (next_id e + N.of_nat (length ds))%N e));
  db_similarity_search q k :=
    external (fun e => (map fst (take (Z.to_nat k) (ranked q e)), e));
  db_similarity_search_with_score q k :=
    external (fun e => (take (Z.to_nat k) (ranked q e), e));
  collection_count := external (fun e => (len (docs e), e));
  collection_get_metadatas :=
    external (fun e => (map (fun entry => Some (metadata (snd entry))) (docs e), e));
  collection_get_where_source s :=
    external (fun e => (map fst (List.filter (has_source s) (docs e)), e));
  collection_delete ids :=
    external (fun e =>
      (tt, with_docs (List.filter (fun entry => negb (bool_decide (fst entry ∈ ids))) (docs e))
                     (next_id e) e))
}.

#[global] Instance chat_model : ChatModel t := {
  from_template template := Ok template;
  chain_invoke template inputs := external (fun e => (reply e template inputs, e));
  time_sleep _ e := e
}.

#[global] Instance file_system : FileSystem t := {
  path_suffix_lower := suffix_lower_of;
  path_name := name_of;
  data_dir_join name := (Py.lit "storage/data/" ++ name)%list;
  path_exists path e := bool_decide (is_Some (lookup_file path e));
  shutil_copy2 source target :=
    external (fun e =>
      (tt, mk (docs e) (next_id e) (ticks e) (fault e) (distance e) (reply e)
              ((target, default [] (lookup_file source e)) :: files e)));
  loader_load _ path :=
    fun e => match lookup_file path e with
             | Some pages => external (fun e => (pages, e)) e
             | None => (Raise (Py.lit "cannot open file"), advance e)
             end;
  splitter_split_documents documents := fun e => (Ok documents, e)
}.

#[global] Instance prompt_templates : PromptTemplates := {
  NO_CONTEXT_PROMPT := Py.lit "no documents";
  LOW_RELEVANCE_PROMPT_format q := Ok (Py.lit "nothing relevant for: " ++ q)%list;
  LEGAL_SUMMARY_PROMPT := Py.lit "summarize: {context}";
  get_prompt_template _ := Ok (Py.lit "{context} {question}");
  format_response_with_disclaimer r := Ok (r ++ Py.lit " (disclaimer)")%list
}.

Definition doc (content source : string) (page : Z) : Document :=
  mkDocument (Py.lit content)
    (<[ Py.lit "source" := VStr (Py.lit source) ]>
       (<[ Py.lit "page" := VInt page ]> ∅)).

(** No fault ever; every chunk at distance 0.5; the model echoes. *)
Definition healthy (ds : list Document) : t :=
  mk (add_all ds 0) (N.of_nat (length ds)) 0 (fun _ => None)
     (fun _ _ => PyFloat.decimal 5 10) (fun _ _ => Py.lit "answer") [].

(** Every external call fails. *)
Definition broken (ds : list Document) : t :=
  mk (add_all ds 0) (N.of_nat (length ds)) 0 (fun _ => Some (Py.lit "backend down"))
     (fun _ _ => PyFloat.decimal 5 10) (fun _ _ => Py.lit "answer") [].

Definition start (e : t) : World t := mkWorld e [].

End Sim.

(** ** Reading the outcome of a call *)

(** [m] run in [w] returns [a]. *)
Definition returns {E A} (m : M E A) (w : World E) (a : A) : Prop :=
  fst (m w) = Ok a.

(** The chunks that pass the threshold test, for results [rs] and the
    distance bound [2 - t]. *)
Definition kept (rs : list (Document * PyFloat.t)) (t : PyFloat.t) : list Document :=
  map fst (List.filter (fun r => ltb_float (snd r) (PyFloat.sub (PyFloat.of_int 2) t)) rs).

(** The content of a chunk is not made of whitespace only. *)
Definition nonblank (d : Document) : Prop := Py.strip (page_content d) <> [].

(** The event is not an addition to the index. *)
Definition not_an_addition (ev : Event) : Prop :=
  match ev with
  | EvAddDocuments _ => False
  | _ => True
  end.

(** The chunks of the simulated index whose source is [source_name]. *)
Definition with_source (source_name : Py.str) (e : Sim.t) : list (N * Document) :=
  List.filter (Sim.has_source source_name) (Sim.docs e).

(** The chunks of the simulated index whose source is not [source_name]. *)
Definition without_source (source_name : Py.str) (e : Sim.t) : list (N * Document) :=
  List.filter (fun entry => negb (Sim.has_source source_name entry)) (Sim.docs e).

(** No call to the simulated backend fails. *)
Definition faultless (e : Sim.t) : Prop := forall n, Sim.fault e n = None.

Section ModelDown.
Context {E : Type} `{!ChatModel E}.

(** The language model is down and stays down: in every state that
    satisfies [down] an invocation fails, and neither the failure nor a
    pause leaves [down]. *)
Definition stays_down (down : E -> Prop) : Prop :=
  (forall template inputs e, down e ->
     exists msg e', chain_invoke template inputs e = (Raise msg, e') /\ down e')
  /\ (forall seconds e, down e -> down (time_sleep seconds e)).

End ModelDown.

(** ** Example data *)

Module Ex.

Definition alpha : Document := Sim.doc "alpha" "a.pdf" 1.
Definition beta : Document := Sim.doc "beta" "b.pdf" 2.
Definition gamma : Document := Sim.doc "gamma" "a.pdf" 3.

Definition query : Py.str := Py.lit "q".

(** A healthy index holding [alpha] alone, at distance 1.8 of every
    query. *)
Definition far : World Sim.t :=
  Sim.start (Sim.mk [(0%N, alpha)] 1 0 (fun _ => None) (fun _ _ => PyFloat.decimal 18 10)
                    (fun _ _ => Py.lit "answer") []).

Definition two : World Sim.t := Sim.start (Sim.healthy [alpha; beta]).
Definition three : World Sim.t := Sim.start (Sim.healthy [alpha; beta; gamma]).
Definition empty : World Sim.t := Sim.start (Sim.healthy []).
Definition down : World Sim.t := Sim.start (Sim.broken [alpha; beta]).

(** A healthy index whose language model is unreachable: the index
    answers (calls 0 to 2 of a chat), every later call fails. *)
Definition model_down : World Sim.t :=
  Sim.start (Sim.mk (Sim.add_all [alpha; beta] 0) 2 0
                    (fun n => if (n <? 3)%nat then None else Some (Py.lit "connection refused"))
                    (fun _ _ => PyFloat.decimal 5 10) (fun _ _ => Py.lit "answer") []).

End Ex.

(** ** Notions used to reason about [re.sub] *)

Module ReSpec.

Import Re.

(** Whether the position after the text [m] starts a line, when the
    position before it did so according to [sol]. *)
Fixpoint sol_after (sol : bool) (m : Py.str) : bool :=
  match m with
  | [] => sol
  | c :: m' => sol_after (c =? Py.LF)%N m'
  end.

(** [Subst pat repl sol s out]: a left-to-right pass of [pat] over [s]
    that copies a character where no match starts and writes [repl] for
    every match gives [out]. *)
Inductive Subst (pat : pattern) (repl : Py.str) : bool -> Py.str -> Py.str -> Prop :=
| Subst_nil sol : Subst pat repl sol [] []
| Subst_keep sol c s out :
    (forall n, match_here pat sol (c :: s) <> Some (S n)) ->
    Subst pat repl (c =? Py.LF)%N s out ->
    Subst pat repl sol (c :: s) (c :: out)
| Subst_match sol m rest out :
    m <> [] ->
    match_here pat sol (m ++ rest) = Some (length m) ->
    Subst pat repl (sol_after sol m) rest out ->
    Subst pat repl sol (m ++ rest) (repl ++ out).

(** No word of [F] starts at any position of [s]. *)
Fixpoint avoids (F : Py.str -> Prop) (s : Py.str) : Prop :=
  (forall t, t `prefix_of` s -> ~ F t)
  /\ match s with
     | [] => True
     | _ :: s' => avoids F s'
     end.

(** The length of the longest prefix of [s] made of characters of class
    [p]. *)
Fixpoint run_len (p : N -> bool) (s : Py.str) : nat :=
  match s with
  | c :: s' => if p c then S (run_len p s') else O
  | [] => O
  end.

(** A run of [n] characters of class [p]. *)
Definition run_of (p : N -> bool) (n : nat) (t : Py.str) : Prop :=
  length t = n /\ Forall (fun c => p c = true) t.

(** The word [w] itself. *)
Definition word (w : Py.str) (t : Py.str) : Prop := t = w.

(** The pattern [c{lo,}] for a class [p]. *)
Definition run_pattern (p : N -> bool) (lo : nat) : pattern :=
  Pat false [at_least lo p] false.

(** Some item of the pattern must consume a character of class [q]. *)
Definition requires (q : N -> bool) (pat : pattern) : Prop :=
  Exists (fun it => (1 <= lo it)%nat /\ forall c, cls it c = true -> q c = true) (items pat).

End ReSpec.

(** The input of the cleaner is one line without any decimal digit. *)
Definition one_line_no_digit (x : Py.str) : Prop :=
  Forall (fun c => c <> Py.LF) x /\ Forall (fun c => Py.isdecimal c = false) x.

(** No match of [pat] starts at any position of [s]. *)
Definition never_matches (pat : Re.pattern) (s : Py.str) : Prop :=
  forall sol a b n, s = (a ++ b)%list -> Re.match_here pat sol b <> Some (S n).

(** The text that [clean] has built when it splits it into lines: all
    substitutions done, no line stripped yet. *)
Definition before_strip (text : Py.str) : Py.str :=
  fold_left (fun t pr => Re.sub (fst pr) (snd pr) t) TextCleaner.patterns_to_replace
    (TextCleaner.remove_headers_footers
       (TextCleaner.remove_page_numbers
          (TextCleaner.fix_common_ocr_errors
             (TextCleaner.remove_special_chars text)))).

(** The characters that are left of one line without digits once the
    control characters are removed. *)
Definition kept_char (c : N) : Prop :=
  c <> 0%N /\ c <> 12%N /\ c <> 13%N /\ c <> Py.LF /\ Py.isdecimal c = false.

(** The characters a cleaned line is made of: among the blanks that the
    cleaner collapses only the space is left. *)
Definition plain_char (c : N) : Prop := kept_char c /\ c <> 9%N.

(** A line on which no substitution of [clean] has anything left to
    do. *)
Definition tidy (y : Py.str) : Prop :=
  Forall plain_char y
  /\ ReSpec.avoids (ReSpec.word [0xe4d; 0xe32]%N) y
  /\ ReSpec.avoids (ReSpec.word [0xe40; 0xe40]%N) y
  /\ ReSpec.avoids (ReSpec.run_of (TextCleaner.one_of [32; 9]%N) 2) y
  /\ ReSpec.avoids (ReSpec.run_of (TextCleaner.only 46%N) 4) y
  /\ ReSpec.avoids (ReSpec.run_of (TextCleaner.only 45%N) 4) y.

(** ** More of Python's [str] *)

Module PyStr.

(** The word that starts at the head of [s] (empty when [s] starts with
    whitespace or is empty) and the words after it. *)
Fixpoint split_scan (s : Py.str) : Py.str * list Py.str :=
  match s with
  | [] => ([], [])
  | c :: s' =>
      let (w, ws) := split_scan s' in
      if Py.isspace c
      then ([], match w with [] => ws | _ => w :: ws end)
      else (c :: w, ws)
  end.

(** [s.split()]: the maximal runs of characters that are not whitespace *)
Definition split (s : Py.str) : list Py.str :=
  let (w, ws) := split_scan s in
  match w with [] => ws | _ => w :: ws end.

(** [s.count(c)] for a one-character string [c] *)
Fixpoint count (c : N) (s : Py.str) : Z :=
  match s with
  | [] => 0
  | x :: s' => (if (x =? c)%N then 1 else 0) + count c s'
  end.

(** [s.count(c + c)]: occurrences that do not overlap, from the left *)
Fixpoint count_pair (c : N) (s : Py.str) : Z :=
  match s with
  | x :: s' =>
      match s' with
      | y :: s'' => if ((x =? c) && (y =? c))%N then 1 + count_pair c s'' else count_pair c s'
      | [] => 0
      end
  | [] => 0
  end.

End PyStr.

(** ** ingestion/text_cleaner.py: statistics *)

Module TextStats.

(** The result [dict] of [get_text_stats]. *)
Record t := mk {
  char_count : Z;
  word_count : Z;
  line_count : Z;
  paragraph_count : Z
}.

Definition get_text_stats (text : Py.str) : t :=
  match text with
  | [] => mk 0 0 0 0
  | _ =>
      mk (len text)
         (len (PyStr.split text))
         (PyStr.count Py.LF text + 1)
         (PyStr.count_pair Py.LF text + 1)
  end.

End TextStats.

(** The code points for which [str.isspace] holds. *)
Definition whitespace_chars : list N :=
  [9; 10; 11; 12; 13; 28; 29; 30; 31; 32; 133; 160; 5760;
   8192; 8193; 8194; 8195; 8196; 8197; 8198; 8199; 8200; 8201; 8202;
   8232; 8233; 8239; 8287; 12288]%N.

(** The characters that no output of [clean] holds. *)
Definition never_in_clean (c : N) : Prop :=
  c = 0%N \/ c = 12%N \/ c = 13%N \/ c = 9%N.

(** ** ingestion/file_loader.py: reading the chunks *)

(** [chunk.metadata.get("chunk_index")] *)
Definition chunk_index_of (d : Document) : option pyval :=
  metadata d !! Py.lit "chunk_index".

(** The indexes [0 .. n-1] as [add_metadata] writes them. *)
Definition indexes (n : nat) : list (option pyval) :=
  map (fun i => Some (VInt (Z.of_nat i))) (seq 0 n).

(** The keys that [add_metadata] sets. *)
Definition stamped_keys : list Py.str :=
  [Py.lit "source"; Py.lit "chunk_index"; Py.lit "page"].

(** The chunk carries the file name [name] and a page. *)
Definition stamped (name : Py.str) (d : Document) : Prop :=
  metadata d !! Py.lit "source" = Some (VStr name)
  /\ is_Some (metadata d !! Py.lit "page").

Module ExFiles.

(** What the loader and the splitter give for [notes.txt]: a chunk
    without metadata, a blank one, and one with a page of its own. *)
Definition pages : list Document :=
  [ mkDocument (Py.lit "first") ∅;
    mkDocument (Py.lit "  ") ∅;
    mkDocument (Py.lit "third") (<[ Py.lit "page" := VInt 7 ]> ∅) ].

Definition notes : Py.str := Py.lit "in/notes.txt".

(** A healthy, empty index and a file system that holds [notes]. *)
Definition disk : World Sim.t :=
  Sim.start (Sim.mk [] 0 0 (fun _ => None) (fun _ _ => PyFloat.decimal 5 10)
                    (fun _ _ => Py.lit "answer") [(notes, pages)]).

End ExFiles.

(** ** app/engine.py: several files *)

Module LegalAIEngineBatch.

(** The result [dict] of [ingest_multiple_files]. *)
Record t := mk {
  success : bool;
  message : Py.str;
  total_chunks : Z;
  results : list LegalAIEngine.IngestResult
}.

(** [result.get("num_chunks", 0)] *)
Definition num_chunks_of (r : LegalAIEngine.IngestResult) : Z :=
  match r with
  | LegalAIEngine.IngestNotProcessed p => default 0 (FileLoader.pr_num_chunks p)
  | LegalAIEngine.IngestDone _ _ n _ => n
  | LegalAIEngine.IngestError _ _ => 0
  end.

Section Methods.
Context {E : Type} `{!VectorStore E} `{!ChatModel E} `{!FileSystem E}
        `{!PromptTemplates}.

(** The loop over [file_paths]; [results] and [total_chunks] are the
    values of the two locals when the loop starts. *)
Fixpoint ingest_loop (file_paths : list Py.str)
         (results : list LegalAIEngine.IngestResult) (total_chunks : Z)
  : M E (list LegalAIEngine.IngestResult * Z) :=
  match file_paths with
  | [] => ret (results, total_chunks)
  | file_path :: rest =>
      let! result := LegalAIEngine.ingest_file file_path in
      let results := (results ++ [result])%list in
      let total_chunks :=
        if LegalAIEngine.ingest_success result
        then total_chunks + num_chunks_of result
        else total_chunks in
      ingest_loop rest results total_chunks
  end.

Definition ingest_multiple_files (file_paths : list Py.str) : M E t :=
  let! out := ingest_loop file_paths [] 0 in
  let results := fst out in
  let total_chunks := snd out in
  let success_count := len (List.filter LegalAIEngine.ingest_success results) in
  ret (mk (0 <? success_count)
          (Py.lit "✅ ประมวลผลสำเร็จ " ++ Py.str_of_Z success_count ++ Py.lit "/"
             ++ Py.str_of_Z (len file_paths) ++ Py.lit " ไฟล์")%list
          total_chunks results).

End Methods.
End LegalAIEngineBatch.

(** ** app/engine.py: reading the trace *)

Definition is_invoke (ev : Event) : bool :=
  match ev with EvInvoke _ _ => true | _ => false end.

Definition is_sleep (ev : Event) : bool :=
  match ev with EvSleep _ => true | _ => false end.

(** The calls that read the index or talk to the model: they change
    neither the index nor the files. *)
Definition asks_only (ev : Event) : bool :=
  match ev with
  | EvCount | EvSimilaritySearch _ _ | EvInvoke _ _ | EvSleep _ => true
  | _ => false
  end.

(** The sum of a list of [int]. *)
Definition sum_Z (xs : list Z) : Z := fold_right Z.add 0 xs.

Section Attempts.
Context {E : Type} `{!ChatModel E}.

(** The model fails [j] times in a row, with a pause of three seconds
    after each failure, and then answers. *)
Fixpoint answers_after (j : nat) (prompt : Py.str) (inputs : list (Py.str * Py.str))
         (e : E) : option (Py.str * E) :=
  match j, chain_invoke prompt inputs e with
  | O, (Ok response, e') => Some (response, e')
  | S j', (Raise _, e') => answers_after j' prompt inputs (time_sleep 3 e')
  | _, _ => None
  end.

(** The calls of [j] failed attempts and one more. *)
Fixpoint attempts (j : nat) (prompt : Py.str) (inputs : list (Py.str * Py.str))
  : list Event :=
  match j with
  | O => [EvInvoke prompt inputs]
  | S j' => EvInvoke prompt inputs :: EvSleep 3 :: attempts j' prompt inputs
  end.

End Attempts.

Module ExChat.

(** An index of two chunks where exactly the call number [n] fails. *)
Definition failing_at (n : nat) : World Sim.t :=
  Sim.start (Sim.mk (Sim.add_all [Ex.alpha; Ex.beta] 0) 2 0
                    (fun i => if (i =? n)%nat then Some (Py.lit "timeout") else None)
                    (fun _ _ => PyFloat.decimal 5 10) (fun _ _ => Py.lit "answer") []).

(** Calls 0 and 1 of a chat count the chunks, call 2 is the search and
    call 3 the first invocation of the model. *)
Definition search_fails : World Sim.t := failing_at 2.
Definition first_attempt_fails : World Sim.t := failing_at 3.

End ExChat.

(** The file system of [ExFiles.disk] with an index that fails from
    call number 2 on: the copy and the load are calls 0 and 1. *)
Definition index_down : World Sim.t :=
  Sim.start (Sim.mk [] 0 0
                    (fun i => if (2 <=? i)%nat then Some (Py.lit "backend down") else None)
                    (fun _ _ => PyFloat.decimal 5 10) (fun _ _ => Py.lit "answer")
                    [(ExFiles.notes, ExFiles.pages)]).

(** What [ingest_file] can return: the failed result of [process_file],
    or a success with a count that is not negative. *)
Definition ingest_shape (r : LegalAIEngine.IngestResult) : Prop :=
  match r with
  | LegalAIEngine.IngestNotProcessed p => FileLoader.pr_success p = false
  | LegalAIEngine.IngestDone _ _ n _ => 0 <= n
  | LegalAIEngine.IngestError _ _ => False
  end.

Section Retrieved.
Context {E : Type} `{!VectorStore E}.

(** [docs] is what [chat] retrieved for [question] in the world [w]: the
    index reported chunks, and the search for the question returned
    [docs]. *)
Definition chat_retrieved (retriever : LegalRetriever.t) (question : Py.str)
           (w : World E) (docs : list Document) : Prop :=
  exists w1 w2,
    LegalRetriever.has_documents retriever w = (Ok true, w1)
    /\ LegalRetriever.retrieve retriever question (Some NUM_RELEVANT_DOCS) w1
       = (Ok docs, w2).

(** [docs] is what [summarize] retrieved in the world [w]. *)
Definition summary_retrieved (retriever : LegalRetriever.t) (source_name : option Py.str)
           (w : World E) (docs : list Document) : Prop :=
  exists w1,
    LegalRetriever.retrieve retriever (LegalAIEngine.summary_query source_name) (Some 10) w
    = (Ok docs, w1).

End Retrieved.

(** ** A second pass of the cleaner *)

(** [re.search(pat, s) is not None], for a pattern that matches no empty
    text: a match starts at some position of [s]; [sol] tells whether
    [s] begins a line. *)
Fixpoint search_from (pat : Re.pattern) (sol : bool) (s : Py.str) : bool :=
  match s with
  | [] => false
  | c :: s' =>
      match Re.match_here pat sol s with
      | Some (S _) => true
      | _ => search_from pat (c =? Py.LF)%N s'
      end
  end.

Definition search (pat : Re.pattern) (s : Py.str) : bool := search_from pat true s.

(** Every match of the pattern of a substitution is at least as long as
    the replacement ([not_longer]), or longer than it ([shorter]). *)
Definition not_longer (st : Re.pattern * Py.str) : Prop :=
  forall sol b n,
    Re.match_here (fst st) sol b = Some (S n) -> (length (snd st) <= S n)%nat.

Definition shorter (st : Re.pattern * Py.str) : Prop :=
  forall sol b n,
    Re.match_here (fst st) sol b = Some (S n) -> (length (snd st) <= n)%nat.

(** A list of substitutions, applied in order. *)
Definition apply_all (steps : list (Re.pattern * Py.str)) (s : Py.str) : Py.str :=
  fold_left (fun t pr => Re.sub (fst pr) (snd pr) t) steps s.

(** All substitutions of [clean] with the default flags, in the order in
    which they are applied. *)
Definition substitutions : list (Re.pattern * Py.str) :=
  (map (fun pat => (pat, [])) TextCleaner.patterns_to_remove
     ++ TextCleaner.ocr_fixes
     ++ map (fun pat => (pat, [])) TextCleaner.page_patterns
     ++ map (fun pat => (pat, [])) TextCleaner.footer_patterns
     ++ TextCleaner.patterns_to_replace)%list.

(** The patterns that can still match a cleaned text: the two misspelt
    pairs, the page numbers, the footers and the run of three or more
    newlines. *)
Definition leftover_patterns : list Re.pattern :=
  (map fst TextCleaner.ocr_fixes
     ++ TextCleaner.page_patterns
     ++ TextCleaner.footer_patterns
     ++ [Re.Pat false [Re.at_least 3 (TextCleaner.only Py.LF)] false])%list.

(** None of these patterns matches anywhere in [y]. *)
Definition settled (y : Py.str) : Prop :=
  Forall (fun pat => search pat y = false) leftover_patterns.

(** A line without blanks at its ends. *)
Definition trimmed (l : Py.str) : Prop := Py.lstrip l = l /\ Py.rstrip l = l.

(** What every output of [clean] looks like: none of the characters that
    are removed or collapsed, single blanks, at most three dots and
    three dashes in a row, trimmed lines and no blank at either end. *)
Definition cleaned (y : Py.str) : Prop :=
  Forall (fun c => ~ never_in_clean c) y
  /\ ReSpec.avoids (ReSpec.run_of (TextCleaner.one_of [32; 9]%N) 2) y
  /\ ReSpec.avoids (ReSpec.run_of (TextCleaner.only 46%N) 4) y
  /\ ReSpec.avoids (ReSpec.run_of (TextCleaner.only 45%N) 4) y
  /\ Forall trimmed (Py.split_lines y)
  /\ Py.strip y = y.
(** * Properties *)

(** ** Basic facts about the effect layer *)

Lemma or_int_zero (d : Z) : or_int (Some 0) d = or_int None d.
Proof. reflexivity. Qed.

Lemma or_int_idem (k : option Z) (d : Z) : or_int (Some (or_int k d)) d = or_int k d.
Proof.
  destruct k as [z|]; simpl.
  - destruct (z =? 0) eqn:Hz; simpl.
    + destruct (d =? 0) eqn:Hd; reflexivity.
    + rewrite Hz. reflexivity.
  - destruct (d =? 0); reflexivity.
Qed.

Lemma or_float_truthy (t d : PyFloat.t) :
  PyFloat.truthy t = true -> or_float (Some t) d = t.
Proof. intros Ht. unfold or_float. rewrite Ht. reflexivity. Qed.

Lemma or_float_zero (sign : bool) (d : PyFloat.t) :
  or_float (Some (S754_zero sign)) d = or_float None d.
Proof. reflexivity. Qed.

Section MonadFacts.
Context {E A B : Type}.

Lemma bind_Ok (m : M E A) (f : A -> M E B) (w w' : World E) (a : A) :
  m w = (Ok a, w') -> bind m f w = f a w'.
Proof. intros H. unfold bind. rewrite H. reflexivity. Qed.

Lemma bind_Raise (m : M E A) (f : A -> M E B) (w w' : World E) (e : Py.str) :
  m w = (Raise e, w') -> bind m f w = (Raise e, w').
Proof. intros H. unfold bind. rewrite H. reflexivity. Qed.

Lemma try_except_Ok (m : M E A) (h : Py.str -> M E A) (w w' : World E) (a : A) :
  m w = (Ok a, w') -> try_except m h w = (Ok a, w').
Proof. intros H. unfold try_except. rewrite H. reflexivity. Qed.

Lemma try_except_Raise (m : M E A) (h : Py.str -> M E A) (w w' : World E) (e : Py.str) :
  m w = (Raise e, w') -> try_except m h w = h e w'.
Proof. intros H. unfold try_except. rewrite H. reflexivity. Qed.

End MonadFacts.

Section VectorStoreFacts.
Context {E : Type} `{!VectorStore E}.

Lemma get_document_count_total (w : World E) :
  exists n, VectorDBManager.get_document_count w
            = (Ok n, mkWorld (snd (collection_count (env w))) (trace w ++ [EvCount])).
Proof.
  unfold VectorDBManager.get_document_count, try_except, call, ret.
  destruct (collection_count (env w)) as [[n|e] e']; simpl; eauto.
Qed.

Lemma similarity_search_with_score_total (q : Py.str) (k : option Z) (w : World E) :
  exists rs w', VectorDBManager.similarity_search_with_score q k w = (Ok rs, w').
Proof.
  unfold VectorDBManager.similarity_search_with_score, try_except, call, ret.
  destruct (db_similarity_search_with_score _ _ _) as [[rs|e] e']; simpl; eauto.
Qed.

Lemma similarity_search_total (q : Py.str) (k : option Z) (w : World E) :
  exists ds w', VectorDBManager.similarity_search q k w = (Ok ds, w').
Proof.
  unfold VectorDBManager.similarity_search, bind.
  destruct (get_document_count_total w) as [n ->].
  unfold try_except, call, ret. simpl.
  destruct (db_similarity_search _ _ _) as [[ds|e] e']; simpl; eauto.
Qed.

End VectorStoreFacts.

(** ** The threshold filter of [retrieve_relevant] *)

Lemma relevant_docs_kept (rs : list (Document * PyFloat.t)) (t : PyFloat.t) :
  LegalRetriever.relevant_docs rs t = kept rs t.
Proof.
  unfold kept. induction rs as [|[doc score] rs IH]; cbn [LegalRetriever.relevant_docs
    List.filter map snd fst]; [reflexivity|].
  destruct (ltb_float score (PyFloat.sub (PyFloat.of_int 2) t)); cbn [map fst]; congruence.
Qed.

(** Whatever threshold is passed, the filter works with the effective
    one: the threshold passed, or the default of the retriever when that
    is falsy. *)
Lemma retrieve_relevant_effective
    {E : Type} `{!VectorStore E} (self : LegalRetriever.t) (query : Py.str)
    (k : option Z) (w : World E) :
  exists rs w',
    LegalRetriever.retrieve_with_scores self query k w = (Ok rs, w')
    /\ forall th, LegalRetriever.retrieve_relevant self query k th w
                  = (Ok (kept rs (or_float th (LegalRetriever.threshold self))), w').
Proof.
  destruct (similarity_search_with_score_total query
              (Some (or_int k (LegalRetriever.default_k self))) w) as (rs & w' & Hrs).
  exists rs, w'. split; [exact Hrs|].
  intros th. unfold LegalRetriever.retrieve_relevant, bind.
  unfold LegalRetriever.retrieve_with_scores. rewrite or_int_idem.
  unfold LegalRetriever.retrieve_with_scores in Hrs. rewrite Hrs.
  unfold ret. rewrite relevant_docs_kept. reflexivity.
Qed.

Lemma kept_In (rs : list (Document * PyFloat.t)) (t : PyFloat.t) (doc : Document) :
  In doc (kept rs t)
  <-> exists score,
        In (doc, score) rs
        /\ ltb_float score (PyFloat.sub (PyFloat.of_int 2) t) = true.
Proof.
  unfold kept. split.
  - intros Hin. apply in_map_iff in Hin as ([d s] & <- & Hin).
    apply filter_In in Hin as [Hin Hlt]. exists s. split; [exact Hin | exact Hlt].
  - intros (score & Hin & Hlt). apply in_map_iff.
    exists (doc, score). split; [reflexivity|]. apply filter_In.
    split; [exact Hin | exact Hlt].
Qed.

(** A threshold that is not zero is used as it is: a chunk is kept iff
    its distance is below the rounded difference [2 - t]. With the
    threshold 1.0 the difference is exactly 1.0. An absent threshold
    stands for the default of the retriever. *)
Lemma retrieve_relevant_keeps
    {E : Type} `{!VectorStore E} (self : LegalRetriever.t) (query : Py.str)
    (k : option Z) (t : PyFloat.t) (w : World E) :
  PyFloat.truthy t = true ->
  exists rs w',
    LegalRetriever.retrieve_with_scores self query k w = (Ok rs, w')
    /\ LegalRetriever.retrieve_relevant self query k (Some t) w = (Ok (kept rs t), w')
    /\ LegalRetriever.retrieve_relevant self query k None w
       = (Ok (kept rs (LegalRetriever.threshold self)), w')
    /\ (forall doc, In doc (kept rs t)
                    <-> exists score,
                          In (doc, score) rs
                          /\ ltb_float score (PyFloat.sub (PyFloat.of_int 2) t) = true)
    /\ (forall doc, In doc (kept rs (PyFloat.of_int 1))
                    <-> exists score,
                          In (doc, score) rs /\ ltb_float score (PyFloat.of_int 1) = true).
Proof.
  intros Ht.
  destruct (retrieve_relevant_effective self query k w) as (rs & w' & Hrs & Hrel).
  exists rs, w'.
  split; [exact Hrs|].
  split; [rewrite Hrel, (or_float_truthy _ _ Ht); reflexivity|].
  split; [rewrite Hrel; reflexivity|].
  split; [intros doc; apply kept_In|].
  intros doc. exact (kept_In rs (PyFloat.of_int 1) doc).
Qed.

(** The comparison is the one of binary64 numbers: with the default
    threshold 0.3 the bound [2 - 0.3] is the float 1.7, so a chunk at
    distance 1.7 is dropped and one at distance 1.6 is kept. *)
Example default_threshold_bound :
  PyFloat.sub (PyFloat.of_int 2) RETRIEVAL_THRESHOLD = PyFloat.decimal 17 10
  /\ RETRIEVAL_THRESHOLD = S754_finite false 5404319552844595 (-54)
  /\ ltb_float (PyFloat.decimal 17 10) (PyFloat.sub (PyFloat.of_int 2) RETRIEVAL_THRESHOLD)
     = false
  /\ ltb_float (PyFloat.decimal 16 10) (PyFloat.sub (PyFloat.of_int 2) RETRIEVAL_THRESHOLD)
     = true.
Proof. repeat split; vm_compute; reflexivity. Qed.

(** C1: at [similarity_threshold=0.0] the code does not keep the chunks
    at distance below 2.0. The falsy 0.0 (of either sign) is replaced by
    the default threshold of the retriever, so the call is the call
    without a threshold: with the default 0.3 a chunk at distance 1.8,
    which is below [2 - 0.0], is dropped. Raising the threshold from 0.0
    to 0.1 then makes the filtered list grow from no chunk to one. *)
Theorem retrieve_relevant_zero_threshold :
  (forall (E : Type) (VS : VectorStore E) (self : LegalRetriever.t) (query : Py.str)
          (k : option Z) (sign : bool) (w : World E),
      LegalRetriever.retrieve_relevant self query k (Some (S754_zero sign)) w
      = LegalRetriever.retrieve_relevant self query k None w)
  /\ returns (LegalRetriever.retrieve_with_scores LegalRetriever.new Ex.query None)
             Ex.far [(Ex.alpha, PyFloat.decimal 18 10)]
  /\ ltb_float (PyFloat.decimal 18 10) (PyFloat.sub (PyFloat.of_int 2) (S754_zero false))
     = true
  /\ returns (LegalRetriever.retrieve_relevant LegalRetriever.new Ex.query None
                (Some (S754_zero false)))
             Ex.far []
  /\ returns (LegalRetriever.retrieve_relevant LegalRetriever.new Ex.query None
                (Some (PyFloat.decimal 1 10)))
             Ex.far [Ex.alpha].
Proof.
  split; [intros E VS self query k sign w; reflexivity|].
  repeat split; vm_compute; reflexivity.
Qed.

(** C10: a falsy [k] (0, like an absent one) is replaced by the default
    [k] of 4 in [retrieve] and [retrieve_with_scores]: the call with
    [k = 0] is the call with [k] unspecified, and the index is asked for 4
    chunks. *)
Theorem retrieve_zero_k_uses_default
    {E : Type} `{!VectorStore E} (query : Py.str) (w : World E) :
  LegalRetriever.retrieve LegalRetriever.new query (Some 0) w
    = LegalRetriever.retrieve LegalRetriever.new query None w
  /\ LegalRetriever.retrieve LegalRetriever.new query (Some 0) w
    = (let w1 := snd (VectorDBManager.get_document_count w) in
       try_except (call (EvSimilaritySearch query 4) (db_similarity_search query 4))
                  (fun _ => ret []) w1)
  /\ LegalRetriever.retrieve_with_scores LegalRetriever.new query (Some 0) w
    = LegalRetriever.retrieve_with_scores LegalRetriever.new query None w
  /\ LegalRetriever.retrieve_with_scores LegalRetriever.new query (Some 0) w
    = try_except (call (EvSimilaritySearchWithScore query 4)
                       (db_similarity_search_with_score query 4))
                 (fun _ => ret []) w.
Proof.
  repeat split; try reflexivity.
  unfold LegalRetriever.retrieve, VectorDBManager.similarity_search, bind. simpl.
  destruct (get_document_count_total w) as [n ->]. reflexivity.
Qed.

(** On an index of two chunks the call with [k = 0] returns both. *)
Example retrieve_zero_k_two_chunks :
  returns (LegalRetriever.retrieve LegalRetriever.new Ex.query (Some 0)) Ex.two
          [Ex.alpha; Ex.beta].
Proof. vm_compute. reflexivity. Qed.

(** C3: [format_context] on two chunks. The rule of fifty characters
    comes once, before the first block; between the two blocks there is a
    blank line and no rule. *)
Theorem format_context_two_chunks :
  LegalRetriever.format_context [Ex.alpha; Ex.beta]
  = ([Py.LF; Py.LF] ++ Py.times LegalRetriever.RULE 50
       ++ Py.lit "[เอกสาร 1: a.pdf | หน้า 1]" ++ [Py.LF] ++ Py.lit "alpha"
       ++ [Py.LF; Py.LF]
       ++ Py.lit "[เอกสาร 2: b.pdf | หน้า 2]" ++ [Py.LF] ++ Py.lit "beta")%list
  /\ count_occ N.eq_dec (LegalRetriever.format_context [Ex.alpha; Ex.beta])
                LegalRetriever.RULE = 50%nat.
Proof. split; vm_compute; reflexivity. Qed.

(** The shape of [format_context] on every list of chunks: empty for no
    chunk; otherwise a blank line, one rule, and the blocks in the order
    of the input, joined by a blank line. *)
Lemma format_context_shape (docs : list Document) :
  LegalRetriever.format_context docs
  = match docs with
    | [] => []
    | _ => ([Py.LF; Py.LF] ++ Py.times LegalRetriever.RULE 50
              ++ Py.join [Py.LF; Py.LF]
                   (LegalRetriever.enumerate_from LegalRetriever.context_part 1 docs))%list
    end.
Proof. destruct docs; reflexivity. Qed.

(** ** The chat flow *)

Section EngineFacts.
Context {E : Type} `{!VectorStore E} `{!ChatModel E} `{!FileSystem E}
        `{!PromptTemplates}.

Lemma invoke_fails (down : E -> Prop) (template : Py.str)
      (inputs : list (Py.str * Py.str)) (w : World E) :
  stays_down down -> down (env w) ->
  exists msg e',
    chain_invoke template inputs (env w) = (Raise msg, e')
    /\ down e'
    /\ LegalAIEngine.invoke template inputs w
       = (Raise msg, mkWorld e' (trace w ++ [EvInvoke template inputs])).
Proof.
  intros [Hfail _] Hdown.
  destruct (Hfail template inputs (env w) Hdown) as (msg & e' & Hc & Hd).
  exists msg, e'. repeat split; [exact Hc | exact Hd |].
  unfold LegalAIEngine.invoke, call. rewrite Hc. reflexivity.
Qed.

(** Three failures in a row: three invocations, a pause of three seconds
    after the first and after the second, and the third failure is the
    one that leaves the loop. *)
Lemma retry_loop_exhausted (down : E -> Prop) (template : Py.str)
      (inputs : list (Py.str * Py.str)) (w : World E) :
  stays_down down -> down (env w) ->
  exists msg w' e,
    LegalAIEngine.retry_loop (LegalAIEngine.range LegalAIEngine.MAX_RETRIES)
      LegalAIEngine.MAX_RETRIES template inputs w = (Raise msg, w')
    /\ fst (chain_invoke template inputs e) = Raise msg
    /\ trace w' = (trace w ++ [EvInvoke template inputs; EvSleep 3;
                               EvInvoke template inputs; EvSleep 3;
                               EvInvoke template inputs])%list.
Proof.
  intros Hsd Hdown.
  change (LegalAIEngine.range LegalAIEngine.MAX_RETRIES) with [0; 1; 2].
  unfold LegalAIEngine.MAX_RETRIES. simpl.
  unfold try_except at 1, bind at 1.
  destruct (invoke_fails down template inputs w Hsd Hdown) as (m1 & e1 & _ & Hd1 & ->).
  simpl. unfold bind at 1, LegalAIEngine.sleep at 1, call at 1. simpl.
  set (w1 := mkWorld _ _).
  assert (Hdown1 : down (env w1)) by (apply Hsd; exact Hd1).
  unfold try_except at 1, bind at 1.
  destruct (invoke_fails down template inputs w1 Hsd Hdown1) as (m2 & e2 & _ & Hd2 & ->).
  simpl. unfold bind at 1, LegalAIEngine.sleep at 1, call at 1. simpl.
  set (w2 := mkWorld _ _).
  assert (Hdown2 : down (env w2)) by (apply Hsd; exact Hd2).
  unfold try_except at 1, bind at 1.
  destruct (invoke_fails down template inputs w2 Hsd Hdown2) as (m3 & e3 & Hc3 & _ & ->).
  simpl. unfold raise.
  exists m3, (mkWorld e3 (trace w2 ++ [EvInvoke template inputs])), (env w2).
  split; [reflexivity|]. split; [rewrite Hc3; reflexivity|].
  subst w2 w1. simpl. rewrite <- !app_assoc. reflexivity.
Qed.

End EngineFacts.

(** C4: on an index that holds no document, [chat] returns the fixed
    no-context result whatever the question and the prompt type: not
    successful, no context, no sources, the fixed message; two questions
    get the same result. *)
Theorem chat_no_context
    {E : Type} `{!VectorStore E} `{!ChatModel E} `{!FileSystem E} `{!PromptTemplates}
    (retriever : LegalRetriever.t) (question question' prompt_type prompt_type' : Py.str)
    (w : World E) :
  fst (collection_count (env w)) = Ok 0 ->
  LegalAIEngine.chat retriever question prompt_type w
  = (Ok (LegalAIEngine.mkChatResult false NO_CONTEXT_PROMPT [] (Some false) None None),
     mkWorld (snd (collection_count (env w))) (trace w ++ [EvCount]))
  /\ LegalAIEngine.chat retriever question prompt_type w
     = LegalAIEngine.chat retriever question' prompt_type' w.
Proof.
  intros Hzero.
  assert (Hchat : forall q pt,
    LegalAIEngine.chat retriever q pt w
    = (Ok (LegalAIEngine.mkChatResult false NO_CONTEXT_PROMPT [] (Some false) None None),
       mkWorld (snd (collection_count (env w))) (trace w ++ [EvCount]))).
  { intros q pt.
    unfold LegalAIEngine.chat, try_except, bind, LegalRetriever.has_documents, bind,
      VectorDBManager.get_document_count, try_except, call, ret.
    destruct (collection_count (env w)) as [r e'] eqn:Hc.
    simpl in Hzero. subst r. reflexivity. }
  split; [apply Hchat|]. rewrite !Hchat. reflexivity.
Qed.

(** Witness for C4: the simulated empty index. *)
Lemma chat_no_context_witness :
  LegalAIEngine.chat LegalRetriever.new (Py.lit "what is a lease?") (Py.lit "qa") Ex.empty
  = LegalAIEngine.chat LegalRetriever.new (Py.lit "who signs?") (Py.lit "thai") Ex.empty.
Proof.
  apply (chat_no_context (E := Sim.t) LegalRetriever.new
           (Py.lit "what is a lease?") (Py.lit "who signs?") (Py.lit "qa") (Py.lit "thai")
           Ex.empty).
  reflexivity.
Defined.

(** C7: when chunks were retrieved and every invocation of the language
    model fails, [chat] invokes it three times, pauses three seconds
    between consecutive attempts, and returns the error result that
    carries the message of the last failure. *)
Theorem chat_retry_exhaustion
    {E : Type} `{!VectorStore E} `{!ChatModel E} `{!FileSystem E} `{!PromptTemplates}
    (retriever : LegalRetriever.t) (question prompt_type template prompt : Py.str)
    (w w1 w2 : World E) (doc : Document) (docs : list Document) (down : E -> Prop) :
  LegalRetriever.has_documents retriever w = (Ok true, w1) ->
  LegalRetriever.retrieve retriever question (Some NUM_RELEVANT_DOCS) w1
    = (Ok (doc :: docs), w2) ->
  get_prompt_template prompt_type = Ok template ->
  from_template template = Ok prompt ->
  stays_down down ->
  down (env w2) ->
  let inputs :=
    LegalAIEngine.chat_inputs (LegalRetriever.format_context (doc :: docs)) question in
  exists msg w' e,
    LegalAIEngine.chat retriever question prompt_type w
    = (Ok (LegalAIEngine.mkChatResult false (LegalAIEngine.ERROR_PREFIX ++ msg) []
             None None (Some msg)), w')
    /\ fst (chain_invoke prompt inputs e) = Raise msg
    /\ trace w' = (trace w2 ++ [EvInvoke prompt inputs; EvSleep 3;
                                EvInvoke prompt inputs; EvSleep 3;
                                EvInvoke prompt inputs])%list.
Proof.
  intros Hhas Hret Htpl Hprompt Hsd Hdown inputs.
  destruct (retry_loop_exhausted down prompt inputs w2 Hsd Hdown)
    as (msg & w' & e & Hloop & Hmsg & Htr).
  exists msg, w', e. split; [|split; assumption].
  unfold LegalAIEngine.chat.
  erewrite try_except_Raise; [reflexivity|].
  erewrite bind_Ok by exact Hhas. change (negb true) with false. cbv iota.
  erewrite bind_Ok by exact Hret. cbv iota zeta.
  erewrite bind_Ok by (unfold lift; rewrite Htpl; reflexivity).
  erewrite bind_Ok by (unfold lift; rewrite Hprompt; reflexivity).
  erewrite bind_Raise by exact Hloop. reflexivity.
Qed.

(** Witness for C7: a simulated index of two chunks whose language model
    refuses every connection. *)
Lemma chat_retry_exhaustion_witness :
  exists msg w' e,
    LegalAIEngine.chat LegalRetriever.new Ex.query (Py.lit "qa") Ex.model_down
    = (Ok (LegalAIEngine.mkChatResult false (LegalAIEngine.ERROR_PREFIX ++ msg) []
             None None (Some msg)), w')
    /\ fst (chain_invoke (Py.lit "{context} {question}")
              (LegalAIEngine.chat_inputs
                 (LegalRetriever.format_context [Ex.alpha; Ex.beta]) Ex.query) e)
       = Raise msg
    /\ length (trace w') = 8%nat.
Proof.
  destruct (chat_retry_exhaustion (E := Sim.t) LegalRetriever.new Ex.query (Py.lit "qa")
              (Py.lit "{context} {question}") (Py.lit "{context} {question}")
              Ex.model_down
              (snd (LegalRetriever.has_documents LegalRetriever.new Ex.model_down))
              (snd (LegalRetriever.retrieve LegalRetriever.new Ex.query (Some 4)
                      (snd (LegalRetriever.has_documents LegalRetriever.new Ex.model_down))))
              Ex.alpha [Ex.beta]
              (fun e => (3 <= Sim.ticks e)%nat
                        /\ forall n, (3 <= n)%nat -> Sim.fault e n = Some (Py.lit "connection refused")))
    as (msg & w' & e & Hchat & Hmsg & Htr).
  - vm_compute. reflexivity.
  - vm_compute. reflexivity.
  - reflexivity.
  - reflexivity.
  - split.
    + intros template inputs e [Ht Hf].
      exists (Py.lit "connection refused"), (Sim.advance e).
      split.
      * simpl. unfold Sim.external. rewrite (Hf _ Ht). reflexivity.
      * split; [simpl; lia | exact Hf].
    + intros seconds e Hd. exact Hd.
  - split; [vm_compute; lia|].
    intros n Hn. simpl. destruct (n <? 3)%nat eqn:Hlt; [|reflexivity].
    apply Nat.ltb_lt in Hlt. lia.
  - exists msg, w', e. split; [exact Hchat|]. split; [exact Hmsg|].
    rewrite Htr. rewrite length_app. vm_compute. reflexivity.
Defined.

(** ** The index adapter *)

Section AdapterFacts.
Context {E : Type} `{!VectorStore E}.

Lemma add_documents_total (documents : list Document) (w : World E) :
  exists n w', VectorDBManager.add_documents documents w = (Ok n, w').
Proof.
  destruct documents as [|d ds]; [simpl; unfold ret; eauto|].
  unfold VectorDBManager.add_documents, try_except, bind at 1, call.
  destruct (db_add_documents (d :: ds) (env w)) as [[[]|e] e']; simpl; [|unfold ret; eauto].
  unfold bind. set (w1 := mkWorld _ _).
  destruct (get_document_count_total w1) as [n ->]. unfold ret. eauto.
Qed.

Lemma add_documents_failure (documents : list Document) (w : World E) :
  (exists e, fst (db_add_documents documents (env w)) = Raise e) ->
  returns (VectorDBManager.add_documents documents) w 0.
Proof.
  intros [e He]. unfold returns.
  destruct documents as [|d ds]; [reflexivity|].
  unfold VectorDBManager.add_documents, try_except, bind at 1, call.
  destruct (db_add_documents (d :: ds) (env w)) as [r e'].
  simpl in He. subst r. reflexivity.
Qed.

Lemma similarity_search_failure (query : Py.str) (k : option Z) (w : World E) :
  (exists e, fst (db_similarity_search query (or_int k NUM_RELEVANT_DOCS)
                    (env (snd (VectorDBManager.get_document_count w)))) = Raise e) ->
  returns (VectorDBManager.similarity_search query k) w [].
Proof.
  intros [e He]. unfold returns, VectorDBManager.similarity_search.
  destruct (get_document_count_total w) as [n Hn]. rewrite Hn in He.
  erewrite bind_Ok by exact Hn.
  unfold try_except, call. simpl in *.
  destruct (db_similarity_search _ _ _) as [r e']. simpl in He. subst r. reflexivity.
Qed.

Lemma similarity_search_with_score_failure (query : Py.str) (k : option Z) (w : World E) :
  (exists e, fst (db_similarity_search_with_score query (or_int k NUM_RELEVANT_DOCS) (env w))
             = Raise e) ->
  returns (VectorDBManager.similarity_search_with_score query k) w [].
Proof.
  intros [e He]. unfold returns, VectorDBManager.similarity_search_with_score.
  unfold try_except, call.
  destruct (db_similarity_search_with_score _ _ _) as [r e']. simpl in He. subst r.
  reflexivity.
Qed.

Lemma get_document_count_failure (w : World E) :
  (exists e, fst (collection_count (env w)) = Raise e) ->
  returns VectorDBManager.get_document_count w 0.
Proof.
  intros [e He]. unfold returns, VectorDBManager.get_document_count, try_except, call.
  destruct (collection_count (env w)) as [r e']. simpl in He. subst r. reflexivity.
Qed.

Lemma get_all_sources_total (w : World E) :
  exists srcs w', VectorDBManager.get_all_sources w = (Ok srcs, w').
Proof.
  unfold VectorDBManager.get_all_sources, try_except, bind, call, ret.
  destruct (collection_get_metadatas (env w)) as [[mds|e] e']; simpl; eauto.
Qed.

Lemma get_all_sources_failure (w : World E) :
  (exists e, fst (collection_get_metadatas (env w)) = Raise e) ->
  returns VectorDBManager.get_all_sources w [].
Proof.
  intros [e He]. unfold returns, VectorDBManager.get_all_sources, try_except, bind, call.
  destruct (collection_get_metadatas (env w)) as [r e']. simpl in He. subst r.
  reflexivity.
Qed.

Lemma delete_by_source_total (source_name : Py.str) (w : World E) :
  exists b w', VectorDBManager.delete_by_source source_name w = (Ok b, w').
Proof.
  unfold VectorDBManager.delete_by_source, try_except, bind at 1, call at 1.
  destruct (collection_get_where_source source_name (env w)) as [[ids|e] e']; simpl;
    [|unfold ret; eauto].
  destruct ids as [|i ids]; [unfold ret; eauto|].
  unfold bind, call. simpl.
  destruct (collection_delete (i :: ids) e') as [[[]|e] e'']; simpl; unfold ret; eauto.
Qed.

(** A failure of the lookup or of the deletion is reported as [False]. *)
Lemma delete_by_source_failure (source_name : Py.str) (w : World E) :
  (exists e, fst (collection_get_where_source source_name (env w)) = Raise e)
  \/ (exists ids e' e, collection_get_where_source source_name (env w) = (Ok ids, e')
                       /\ fst (collection_delete ids e') = Raise e) ->
  returns (VectorDBManager.delete_by_source source_name) w false.
Proof.
  unfold returns, VectorDBManager.delete_by_source, try_except, bind at 1, call at 1.
  intros [[e He] | (ids & e' & e & Hget & Hdel)].
  - destruct (collection_get_where_source source_name (env w)) as [r e'].
    simpl in He. subst r. reflexivity.
  - rewrite Hget. simpl. destruct ids as [|i ids]; [reflexivity|].
    unfold bind, call. simpl.
    destruct (collection_delete (i :: ids) e') as [r e'']. simpl in Hdel. subst r.
    reflexivity.
Qed.

End AdapterFacts.

(** C8: the adapter does not raise on [add_documents],
    [similarity_search], [get_document_count] and [get_all_sources]:
    adding no chunk returns 0 and calls nothing; a failure of the backend
    gives 0 for an addition, the empty list for a search, 0 for the count
    and the empty list for the sources. *)
Theorem adapter_never_raises
    {E : Type} `{!VectorStore E} (documents : list Document) (query : Py.str)
    (k : option Z) (w : World E) :
  VectorDBManager.add_documents [] w = (Ok 0, w)
  /\ (exists n w', VectorDBManager.add_documents documents w = (Ok n, w'))
  /\ ((exists e, fst (db_add_documents documents (env w)) = Raise e) ->
      returns (VectorDBManager.add_documents documents) w 0)
  /\ (exists ds w', VectorDBManager.similarity_search query k w = (Ok ds, w'))
  /\ ((exists e, fst (db_similarity_search query (or_int k NUM_RELEVANT_DOCS)
                        (env (snd (VectorDBManager.get_document_count w)))) = Raise e) ->
      returns (VectorDBManager.similarity_search query k) w [])
  /\ (exists n w', VectorDBManager.get_document_count w = (Ok n, w'))
  /\ ((exists e, fst (collection_count (env w)) = Raise e) ->
      returns VectorDBManager.get_document_count w 0)
  /\ (exists srcs w', VectorDBManager.get_all_sources w = (Ok srcs, w'))
  /\ ((exists e, fst (collection_get_metadatas (env w)) = Raise e) ->
      returns VectorDBManager.get_all_sources w []).
Proof.
  split; [reflexivity|].
  split; [apply add_documents_total|].
  split; [apply add_documents_failure|].
  split; [apply similarity_search_total|].
  split; [apply similarity_search_failure|].
  split; [destruct (get_document_count_total w) as [n Hn]; eauto|].
  split; [apply get_document_count_failure|].
  split; [apply get_all_sources_total|].
  apply get_all_sources_failure.
Qed.

(** Witness for C8: the simulated index with every backend call
    failing. *)
Lemma adapter_never_raises_witness :
  returns (VectorDBManager.add_documents [Ex.alpha]) Ex.down 0
  /\ returns (VectorDBManager.similarity_search Ex.query None) Ex.down []
  /\ returns VectorDBManager.get_document_count Ex.down 0
  /\ returns VectorDBManager.get_all_sources Ex.down [].
Proof.
  destruct (adapter_never_raises (E := Sim.t) [Ex.alpha] Ex.query None Ex.down)
    as (_ & _ & Hadd & _ & Hsearch & _ & Hcount & _ & Hsources).
  split; [apply Hadd; eexists; reflexivity|].
  split; [apply Hsearch; eexists; reflexivity|].
  split; [apply Hcount; eexists; reflexivity|].
  apply Hsources; eexists; reflexivity.
Defined.

(** ** The summarization flow *)

Lemma source_set_elements (docs : list Document) :
  NoDup (elements (LegalAIEngine.source_set docs))
  /\ forall s, s ∈ elements (LegalAIEngine.source_set docs)
               <-> exists doc, doc ∈ docs /\ LegalRetriever.meta_get doc "source" "unknown" = s.
Proof.
  split; [apply NoDup_elements|].
  intros s. rewrite elem_of_elements. unfold LegalAIEngine.source_set.
  rewrite elem_of_list_to_set, list_elem_of_fmap. split.
  - intros (doc & -> & Hin). eauto.
  - intros (doc & Hin & <-). eauto.
Qed.

(** C9: [summarize] asks the index for 10 chunks whatever the default
    fan-out of the retriever; when chunks come back it invokes the model
    once, without a pause or a second attempt, whether the invocation
    succeeds or fails; on success it returns the summary with the sources
    of the retrieved chunks, each of them once. *)
Theorem summarize_one_invocation
    {E : Type} `{!VectorStore E} `{!ChatModel E} `{!FileSystem E} `{!PromptTemplates}
    (retriever : LegalRetriever.t) (source_name : option Py.str) (prompt : Py.str)
    (w : World E) (doc : Document) (docs : list Document) (e1 : E) :
  let query := LegalAIEngine.summary_query source_name in
  let w0 := snd (VectorDBManager.get_document_count w) in
  let found := doc :: docs in
  let inputs := LegalAIEngine.summary_inputs (LegalRetriever.format_context found) in
  let sources := elements (LegalAIEngine.source_set found) in
  db_similarity_search query 10 (env w0) = (Ok found, e1) ->
  from_template LEGAL_SUMMARY_PROMPT = Ok prompt ->
  let tr := (trace w ++ [EvCount; EvSimilaritySearch query 10; EvInvoke prompt inputs])%list in
  LegalAIEngine.summarize retriever source_name w
  = match chain_invoke prompt inputs e1 with
    | (Ok text, e2) =>
        (Ok (LegalAIEngine.mkSummaryResult true text (Some sources) (Some (len found)) None),
         mkWorld e2 tr)
    | (Raise msg, e2) =>
        (Ok (LegalAIEngine.mkSummaryResult false (LegalAIEngine.ERROR_PREFIX ++ msg)
               None None (Some msg)),
         mkWorld e2 tr)
    end
  /\ NoDup sources
  /\ (forall s, s ∈ sources
                <-> exists d, d ∈ found /\ LegalRetriever.meta_get d "source" "unknown" = s).
Proof.
  intros query w0 found inputs sources Hsearch Hprompt tr. subst found.
  split; [|apply source_set_elements].
  assert (Hret : LegalRetriever.retrieve retriever query (Some 10) w
                 = (Ok (doc :: docs), mkWorld e1 (trace w ++ [EvCount; EvSimilaritySearch query 10]))).
  { unfold LegalRetriever.retrieve, VectorDBManager.similarity_search.
    change (or_int (Some (or_int (Some 10) (LegalRetriever.default_k retriever)))
              NUM_RELEVANT_DOCS) with 10.
    destruct (get_document_count_total w) as [n Hn].
    erewrite bind_Ok by exact Hn.
    subst w0. rewrite Hn in Hsearch. simpl in Hsearch.
    unfold try_except, call. simpl. rewrite Hsearch. simpl.
    rewrite <- app_assoc. reflexivity. }
  unfold LegalAIEngine.summarize. fold query.
  destruct (chain_invoke prompt inputs e1) as [[text|msg] e2] eqn:Hinv.
  - erewrite try_except_Ok; [reflexivity|].
    erewrite bind_Ok by exact Hret. cbv iota zeta.
    erewrite bind_Ok by (unfold lift; rewrite Hprompt; reflexivity).
    erewrite bind_Ok.
    2:{ unfold LegalAIEngine.invoke, call. cbn [env trace]. fold inputs.
        rewrite Hinv. reflexivity. }
    unfold ret. subst tr. rewrite <- app_assoc. reflexivity.
  - erewrite try_except_Raise; [reflexivity|].
    erewrite bind_Ok by exact Hret. cbv iota zeta.
    erewrite bind_Ok by (unfold lift; rewrite Hprompt; reflexivity).
    erewrite bind_Raise.
    2:{ unfold LegalAIEngine.invoke, call. cbn [env trace]. fold inputs.
        rewrite Hinv. reflexivity. }
    subst tr. rewrite <- app_assoc. reflexivity.
Qed.

(** Witness for C9: three chunks of two files, a retriever whose default
    fan-out is 1. *)
Lemma summarize_one_invocation_witness :
  exists tr e2 sources,
    LegalAIEngine.summarize (LegalRetriever.mk 1 RETRIEVAL_THRESHOLD) None Ex.three
    = (Ok (LegalAIEngine.mkSummaryResult true (Py.lit "answer") (Some sources) (Some 3) None),
       mkWorld e2 tr)
    /\ NoDup sources
    /\ length sources = 2%nat
    /\ length tr = 3%nat.
Proof.
  destruct (summarize_one_invocation (E := Sim.t) (LegalRetriever.mk 1 RETRIEVAL_THRESHOLD)
              None (Py.lit "summarize: {context}") Ex.three Ex.alpha [Ex.beta; Ex.gamma]
              (env (snd (LegalRetriever.retrieve LegalRetriever.new
                           (LegalAIEngine.summary_query None) (Some 10) Ex.three))))
    as (Hsum & Hnodup & _).
  - vm_compute. reflexivity.
  - reflexivity.
  - eexists _, _, _. split; [exact Hsum|].
    split; [exact Hnodup|]. split; vm_compute; reflexivity.
Defined.

(** ** Ingestion *)

Lemma clean_chunks_In (chunks : list Document) (d : Document) :
  In d (FileLoader.clean_chunks chunks)
  <-> exists c, In c chunks
                /\ d = mkDocument (TextCleaner.clean (page_content c)) (metadata c)
                /\ Py.strip (TextCleaner.clean (page_content c)) <> [].
Proof.
  induction chunks as [|c chunks IH]; simpl.
  - split; [tauto | intros (c & [] & _)].
  - destruct (Py.strip (TextCleaner.clean (page_content c))) as [|x xs] eqn:Hs.
    + rewrite IH. split.
      * intros (c' & Hin & Hd & Hne). exists c'. auto.
      * intros (c' & [<- | Hin] & Hd & Hne); [congruence|]. exists c'. auto.
    + simpl. rewrite IH. split.
      * intros [<- | (c' & Hin & Hd & Hne)].
        -- exists c. rewrite Hs. repeat split; [auto | discriminate].
        -- exists c'. auto.
      * intros (c' & [<- | Hin] & Hd & Hne); [left; congruence|].
        right. exists c'. auto.
Qed.

Lemma clean_chunks_nonblank (chunks : list Document) :
  Forall nonblank (FileLoader.clean_chunks chunks).
Proof.
  apply List.Forall_forall. intros d Hin.
  apply clean_chunks_In in Hin as (c & _ & -> & Hne). exact Hne.
Qed.

Section IngestFacts.
Context {E : Type} `{!VectorStore E} `{!ChatModel E} `{!FileSystem E}
        `{!PromptTemplates}.

(** [process_file] never raises, adds nothing to the index, and the
    chunks of a successful result went through [clean_chunks]. *)
Lemma process_file_chunks (file_path : Py.str) (w : World E) :
  exists r w' evs,
    FileLoader.process_file file_path w = (Ok r, w')
    /\ trace w' = (trace w ++ evs)%list
    /\ Forall not_an_addition evs
    /\ (FileLoader.pr_success r = true ->
        exists chunks, FileLoader.pr_chunks r = FileLoader.clean_chunks chunks).
Proof.
  unfold FileLoader.process_file, try_except.
  destruct (FileLoader.is_supported file_path).
  2:{ unfold ret. eexists _, w, []. rewrite app_nil_r.
      repeat split; [constructor | discriminate]. }
  unfold bind at 1, FileLoader.save_upload.
  destruct (path_exists file_path (env w)).
  2:{ unfold raise, ret. eexists _, w, []. rewrite app_nil_r.
      repeat split; [constructor | discriminate]. }
  unfold bind at 1, call at 1.
  destruct (shutil_copy2 _ _ _) as [[[]|e] e1]; simpl.
  2:{ unfold ret. eexists _, _, [_]. repeat split; [repeat constructor | discriminate]. }
  unfold ret at 1. unfold bind at 1, FileLoader.load_and_split, bind at 1.
  set (target := data_dir_join (path_name file_path)).
  assert (Hload : exists loader,
            FileLoader.load_document target
            = call (EvLoad loader target) (loader_load loader target)
            \/ exists msg, FileLoader.load_document target = raise msg).
  { unfold FileLoader.load_document.
    repeat (case_bool_decide; [eexists; left; reflexivity|]).
    exists TextLoader. right. eexists. reflexivity. }
  destruct Hload as [loader [-> | [msg ->]]].
  2:{ unfold raise, ret. eexists _, _, [_].
      repeat split; [repeat constructor | discriminate]. }
  unfold call at 1. simpl.
  destruct (loader_load _ _ _) as [[pages|e] e2]; simpl.
  2:{ unfold ret. eexists _, _, [_; _]. rewrite <- app_assoc.
      repeat split; [repeat constructor | discriminate]. }
  unfold bind at 1, FileLoader.split_documents, call at 1. simpl.
  destruct (splitter_split_documents _ _) as [[chunks|e] e3]; simpl.
  2:{ unfold ret. eexists _, _, [_; _; _]. rewrite <- !app_assoc.
      repeat split; [repeat constructor | discriminate]. }
  unfold ret. eexists _, _, [_; _; _]. rewrite <- !app_assoc.
  repeat split; [repeat constructor |]. simpl. eauto.
Qed.

(** What [add_documents] sends to the index is the list it was given,
    and only when that list is not empty. *)
Lemma add_documents_events (documents : list Document) (w : World E) :
  exists n w' evs,
    VectorDBManager.add_documents documents w = (Ok n, w')
    /\ trace w' = (trace w ++ evs)%list
    /\ forall ds, In (EvAddDocuments ds) evs -> ds = documents /\ documents <> [].
Proof.
  destruct documents as [|d ds].
  { eexists 0, w, []. rewrite app_nil_r.
    split; [reflexivity|]. split; [reflexivity|]. intros ds' []. }
  unfold VectorDBManager.add_documents, try_except, bind at 1, call.
  destruct (db_add_documents (d :: ds) (env w)) as [[[]|e] e']; simpl.
  - unfold bind. set (w1 := mkWorld _ _).
    destruct (get_document_count_total w1) as [n ->]. unfold ret. simpl.
    eexists _, _, [_; _]. rewrite <- app_assoc.
    split; [reflexivity|]. split; [reflexivity|].
    intros ds' [Heq | [Heq | []]]; [|discriminate].
    split; [congruence | discriminate].
  - unfold ret. eexists _, _, [_].
    split; [reflexivity|]. split; [reflexivity|].
    intros ds' [Heq | []]. split; [congruence | discriminate].
Qed.

End IngestFacts.

(** C5: a chunk whose cleaned content is empty or made of whitespace is
    dropped by [clean_chunks], and what [ingest_file] hands over to the
    vector index is a list that [clean_chunks] produced: every chunk that
    reaches the index has cleaned content that is not blank. *)
Theorem ingest_file_indexes_nonblank_chunks
    {E : Type} `{!VectorStore E} `{!ChatModel E} `{!FileSystem E} `{!PromptTemplates}
    (file_path : Py.str) (chunks : list Document) (w : World E) :
  Forall nonblank (FileLoader.clean_chunks chunks)
  /\ (forall d, In d (FileLoader.clean_chunks chunks)
                <-> exists c, In c chunks
                     /\ d = mkDocument (TextCleaner.clean (page_content c)) (metadata c)
                     /\ Py.strip (TextCleaner.clean (page_content c)) <> [])
  /\ exists r w' evs,
       LegalAIEngine.ingest_file file_path w = (Ok r, w')
       /\ trace w' = (trace w ++ evs)%list
       /\ forall documents, In (EvAddDocuments documents) evs ->
            (exists split, documents = FileLoader.clean_chunks split)
            /\ Forall nonblank documents.
Proof.
  split; [apply clean_chunks_nonblank|].
  split; [intros d; apply clean_chunks_In|].
  unfold LegalAIEngine.ingest_file.
  destruct (process_file_chunks file_path w) as (r & w1 & evs1 & Hp & Htr1 & Hno & Hchunks).
  destruct (FileLoader.pr_success r) eqn:Hs.
  - destruct (add_documents_events (FileLoader.pr_chunks r) w1)
      as (n & w2 & evs2 & Hadd & Htr2 & Hev).
    destruct (get_document_count_total w2) as [total Hcount].
    eexists _, _, (evs1 ++ evs2 ++ [EvCount])%list.
    split.
    { erewrite try_except_Ok; [reflexivity|].
      erewrite bind_Ok by exact Hp. rewrite Hs.
      erewrite bind_Ok by exact Hadd.
      erewrite bind_Ok by exact Hcount. reflexivity. }
    split.
    { simpl. rewrite Htr2, Htr1, <- !app_assoc. reflexivity. }
    intros documents Hin.
    apply in_app_or in Hin as [Hin | Hin].
    { rewrite List.Forall_forall in Hno. apply Hno in Hin. destruct Hin. }
    apply in_app_or in Hin as [Hin | [Hin | []]]; [|discriminate].
    apply Hev in Hin as [-> _].
    destruct (Hchunks eq_refl) as [split Hsplit].
    split; [eauto|]. rewrite Hsplit. apply clean_chunks_nonblank.
  - eexists _, _, evs1.
    split.
    { erewrite try_except_Ok; [reflexivity|].
      erewrite bind_Ok by exact Hp. rewrite Hs. reflexivity. }
    split; [exact Htr1|].
    intros documents Hin.
    rewrite List.Forall_forall in Hno. apply Hno in Hin. destruct Hin.
Qed.

(** A chunk of two spaces cleans to the empty text and is dropped; its
    neighbour stays, cleaned. *)
Example clean_chunks_drops_blank :
  FileLoader.clean_chunks [Sim.doc "  " "a.pdf" 1; Sim.doc " lease  terms " "a.pdf" 2]
  = [Sim.doc "lease terms" "a.pdf" 2].
Proof. vm_compute. reflexivity. Qed.

(** ** Deletion by source *)

Lemma collect_sources_spec (mds : list (option (gmap Py.str pyval))) (acc : gset pyval)
      (v : pyval) :
  v ∈ VectorDBManager.collect_sources mds acc
  <-> v ∈ acc \/ exists md, In (Some md) mds /\ md !! Py.lit "source" = Some v.
Proof.
  revert acc. induction mds as [|[md|] mds IH]; intros acc; simpl.
  - split; [auto | intros [H | (md & [] & _)]; exact H].
  - destruct (md !! Py.lit "source") as [v'|] eqn:Hsrc.
    + rewrite IH. rewrite elem_of_union, elem_of_singleton. split.
      * intros [[H | ->] | (md' & Hin & Hv)]; eauto 6.
      * intros [H | (md' & [Heq | Hin] & Hv)]; eauto 6.
        injection Heq as <-. left. right. congruence.
    + rewrite IH. split.
      * intros [H | (md' & Hin & Hv)]; eauto 6.
      * intros [H | (md' & [Heq | Hin] & Hv)]; eauto 6.
        injection Heq as <-. congruence.
  - rewrite IH. split.
    + intros [H | (md' & Hin & Hv)]; eauto 6.
    + intros [H | (md' & [Heq | Hin] & Hv)]; eauto 6. discriminate.
Qed.

Lemma has_source_spec (source_name : Py.str) (entry : N * Document) :
  Sim.has_source source_name entry = true
  <-> metadata (snd entry) !! Py.lit "source" = Some (VStr source_name).
Proof. unfold Sim.has_source. rewrite bool_decide_eq_true. reflexivity. Qed.

(** Ids are unique, so deleting the ids of the chunks of a source removes
    these chunks and no other. *)
Lemma delete_ids_of_source (source_name : Py.str) (ds : list (N * Document)) :
  NoDup (map fst ds) ->
  List.filter (fun entry =>
                 negb (bool_decide (fst entry ∈ map fst (List.filter (Sim.has_source source_name) ds))))
              ds
  = List.filter (fun entry => negb (Sim.has_source source_name entry)) ds.
Proof.
  intros Hnd. apply filter_ext_in. intros entry Hin. f_equal.
  destruct (Sim.has_source source_name entry) eqn:Hs.
  - apply bool_decide_eq_true. apply list_elem_of_fmap. exists entry.
    split; [reflexivity|]. apply list_elem_of_In. apply filter_In. auto.
  - apply bool_decide_eq_false. intros Hmem.
    apply list_elem_of_fmap in Hmem as (entry' & Hfst & Hin').
    apply list_elem_of_In, filter_In in Hin' as [Hin' Hs'].
    assert (entry' = entry); [|congruence].
    destruct entry as [i d], entry' as [i' d']. simpl in Hfst. subst i'.
    f_equal. clear Hs Hs'.
    induction ds as [|[j x] ds IH]; [destruct Hin|].
    simpl in Hnd. inversion Hnd as [|? ? Hj Hnd']; subst. clear Hnd.
    destruct Hin as [Heq | Hin], Hin' as [Heq' | Hin'].
    + congruence.
    + injection Heq as -> ->. exfalso. apply Hj.
      apply list_elem_of_fmap. exists (i, d'). split; [reflexivity|].
      apply list_elem_of_In. exact Hin'.
    + injection Heq' as -> ->. exfalso. apply Hj.
      apply list_elem_of_fmap. exists (i, d). split; [reflexivity|].
      apply list_elem_of_In. exact Hin.
    + apply IH; assumption.
Qed.

Lemma filter_split_length {A} (f : A -> bool) (l : list A) :
  (length (List.filter f l) + length (List.filter (fun x => negb (f x)) l) = length l)%nat.
Proof.
  induction l as [|x l IH]; simpl; [reflexivity|].
  destruct (f x); simpl; lia.
Qed.

Lemma filter_none_negb_all {A} (f : A -> bool) (l : list A) :
  List.filter f l = [] -> List.filter (fun x => negb (f x)) l = l.
Proof.
  induction l as [|x l IH]; simpl; [reflexivity|].
  destruct (f x); simpl; [discriminate|]. intros H. f_equal. exact (IH H).
Qed.

Lemma sim_external_ok {A} (op : Sim.t -> A * Sim.t) (e : Sim.t) :
  faultless e -> Sim.external op e = (Ok (fst (op (Sim.advance e))), snd (op (Sim.advance e))).
Proof.
  intros Hf. unfold Sim.external. rewrite Hf.
  destruct (op (Sim.advance e)); reflexivity.
Qed.

(** The simulated index after [delete_by_source] when no call fails. *)
Lemma delete_by_source_sim (e : Sim.t) (tr : list Event) (source_name : Py.str) :
  faultless e -> NoDup (map fst (Sim.docs e)) ->
  exists e' tr',
    VectorDBManager.delete_by_source source_name (mkWorld e tr)
    = (Ok (match with_source source_name e with [] => false | _ => true end),
       mkWorld e' tr')
    /\ Sim.docs e' = without_source source_name e
    /\ faultless e'.
Proof.
  intros Hf Hnd.
  unfold VectorDBManager.delete_by_source, try_except, bind at 1, call at 1.
  cbn [env trace collection_get_where_source Sim.vector_store].
  rewrite (sim_external_ok _ e Hf). cbn [fst snd].
  change (List.filter (Sim.has_source source_name) (Sim.docs (Sim.advance e)))
    with (with_source source_name e).
  destruct (with_source source_name e) as [|m ms] eqn:Hm.
  - eexists _, _. split; [reflexivity|]. split; [|exact Hf].
    symmetry. apply filter_none_negb_all. exact Hm.
  - cbn [map]. unfold bind, call.
    cbn [env trace collection_delete Sim.vector_store].
    rewrite (sim_external_ok _ (Sim.advance e) Hf). cbn [fst snd].
    eexists _, _. split; [reflexivity|]. split; [|exact Hf].
    cbn [Sim.docs Sim.with_docs Sim.advance].
    change (fst m :: map fst ms) with (map fst (m :: ms)). rewrite <- Hm.
    apply delete_ids_of_source. exact Hnd.
Qed.

Lemma get_all_sources_sim (e : Sim.t) (tr : list Event) :
  faultless e ->
  returns VectorDBManager.get_all_sources (mkWorld e tr)
    (elements (VectorDBManager.collect_sources
                 (map (fun entry => Some (metadata (snd entry))) (Sim.docs e)) ∅)).
Proof.
  intros Hf. unfold returns, VectorDBManager.get_all_sources, try_except, bind, call.
  cbn [env trace collection_get_metadatas Sim.vector_store].
  rewrite (sim_external_ok _ e Hf). reflexivity.
Qed.

Lemma get_document_count_sim (e : Sim.t) (tr : list Event) :
  faultless e ->
  returns VectorDBManager.get_document_count (mkWorld e tr) (len (Sim.docs e)).
Proof.
  intros Hf. unfold returns, VectorDBManager.get_document_count, try_except, call.
  cbn [env trace collection_count Sim.vector_store].
  rewrite (sim_external_ok _ e Hf). reflexivity.
Qed.

(** C6: on an index whose calls succeed and whose ids are unique,
    [delete_by_source] removes the chunks whose source equals the given
    name and no other, returns [False] when there was none and [True]
    otherwise; afterwards the name is not among the sources any more and
    the count has gone down by the number of chunks of that source. On
    every index, a failure of the backend is answered by [False], never
    by an exception. *)
Theorem delete_by_source_exact (e : Sim.t) (tr : list Event) (source_name : Py.str) :
  faultless e ->
  NoDup (map fst (Sim.docs e)) ->
  let w := mkWorld e tr in
  let w' := snd (VectorDBManager.delete_by_source source_name w) in
  returns (VectorDBManager.delete_by_source source_name) w
          (match with_source source_name e with [] => false | _ => true end)
  /\ Sim.docs (env w') = without_source source_name e
  /\ (forall entry, In entry (Sim.docs (env w'))
                    <-> In entry (Sim.docs e)
                        /\ metadata (snd entry) !! Py.lit "source" <> Some (VStr source_name))
  /\ (exists srcs, returns VectorDBManager.get_all_sources w' srcs
                   /\ ~ In (VStr source_name) srcs)
  /\ (exists n n', returns VectorDBManager.get_document_count w n
                   /\ returns VectorDBManager.get_document_count w' n'
                   /\ n' = n - len (with_source source_name e))
  /\ (forall (E : Type) (VS : VectorStore E) (w0 : World E),
        (exists b w1, VectorDBManager.delete_by_source source_name w0 = (Ok b, w1))
        /\ ((exists err, fst (collection_get_where_source source_name (env w0)) = Raise err)
            \/ (exists ids e1 err,
                  collection_get_where_source source_name (env w0) = (Ok ids, e1)
                  /\ fst (collection_delete ids e1) = Raise err) ->
            returns (VectorDBManager.delete_by_source source_name) w0 false)).
Proof.
  intros Hf Hnd w w'.
  destruct (delete_by_source_sim e tr source_name Hf Hnd) as (e' & tr' & Hdel & Hdocs & Hf').
  subst w w'. unfold returns. rewrite Hdel. cbn [fst snd env].
  split; [reflexivity|]. split; [exact Hdocs|].
  split.
  { intros entry. rewrite Hdocs. unfold without_source. rewrite filter_In.
    rewrite negb_true_iff, <- not_true_iff_false, has_source_spec. reflexivity. }
  split.
  { eexists. split; [apply get_all_sources_sim; exact Hf'|].
    intros Hin. apply list_elem_of_In, elem_of_elements, collect_sources_spec in Hin.
    destruct Hin as [Hin | (md & Hin & Hsrc)]; [set_solver|].
    apply in_map_iff in Hin as (entry & Heq & Hin). injection Heq as <-.
    rewrite Hdocs in Hin. unfold without_source in Hin.
    apply filter_In in Hin as [_ Hneg]. apply negb_true_iff in Hneg.
    apply has_source_spec in Hsrc. congruence. }
  split.
  { exists (len (Sim.docs e)), (len (Sim.docs e')).
    split; [apply get_document_count_sim; exact Hf|].
    split; [apply get_document_count_sim; exact Hf'|].
    rewrite Hdocs. unfold len, with_source, without_source.
    pose proof (filter_split_length (Sim.has_source source_name) (Sim.docs e)). lia. }
  intros E VS w0. split; [apply delete_by_source_total | apply delete_by_source_failure].
Qed.

(** Witness for C6: three chunks, two of them of [a.pdf]. *)
Lemma delete_by_source_exact_witness :
  returns (VectorDBManager.delete_by_source (Py.lit "a.pdf")) Ex.three true
  /\ Sim.docs (env (snd (VectorDBManager.delete_by_source (Py.lit "a.pdf") Ex.three)))
     = [(1%N, Ex.beta)]
  /\ returns (VectorDBManager.delete_by_source (Py.lit "a.pd")) Ex.three false.
Proof.
  assert (Hf : faultless (Sim.healthy [Ex.alpha; Ex.beta; Ex.gamma])) by (intros n; reflexivity).
  assert (Hnd : NoDup (map fst (Sim.docs (Sim.healthy [Ex.alpha; Ex.beta; Ex.gamma])))).
  { apply (bool_decide_unpack _). vm_compute. exact I. }
  destruct (delete_by_source_exact (Sim.healthy [Ex.alpha; Ex.beta; Ex.gamma]) []
              (Py.lit "a.pdf") Hf Hnd) as (Hret & Hdocs & _).
  destruct (delete_by_source_exact (Sim.healthy [Ex.alpha; Ex.beta; Ex.gamma]) []
              (Py.lit "a.pd") Hf Hnd) as (Hret' & _).
  split; [exact Hret|]. split; [exact Hdocs | exact Hret'].
Defined.

(** ** [re.sub] as a left-to-right pass *)

Section MatchLength.
Import Re ReSpec.

Lemma m_rep_le (p : N -> bool) (k : Py.str -> option nat) (s : Py.str) :
  (forall s' n, k s' = Some n -> (n <= length s')%nat) ->
  forall l h n, m_rep p l h k s = Some n -> (n <= length s)%nat.
Proof.
  intros Hk. induction s as [|c s IH]; intros l h n; simpl.
  - destruct (Nat.eqb l 0); [apply Hk | discriminate].
  - assert (Hstop : (if Nat.eqb l 0 then k (c :: s) else None) = Some n ->
                    (n <= S (length s))%nat).
    { destruct (Nat.eqb l 0); [apply Hk | discriminate]. }
    destruct (p c && may_continue h); [|exact Hstop].
    destruct (m_rep p (Nat.pred l) (dec h) k s) as [n'|] eqn:Hrec; [|exact Hstop].
    intros [= <-]. apply IH in Hrec. lia.
Qed.

Lemma m_items_le (its : list item) (k : Py.str -> option nat) :
  (forall s n, k s = Some n -> (n <= length s)%nat) ->
  forall s n, m_items its k s = Some n -> (n <= length s)%nat.
Proof.
  intros Hk. induction its as [|it its IH]; simpl; [exact Hk|].
  intros s n. apply m_rep_le. exact IH.
Qed.

Lemma match_here_le (pat : pattern) (sol : bool) (s : Py.str) (n : nat) :
  match_here pat sol s = Some n -> (n <= length s)%nat.
Proof.
  unfold match_here. destruct (bol pat && negb sol); [discriminate|].
  apply m_items_le. intros s' n'. unfold m_end.
  destruct (eol pat); [destruct (at_eol s')|]; intros [= <-]; lia.
Qed.

Lemma sub_from_skip (pat : pattern) (repl m rest : Py.str) (sol : bool) :
  sub_from pat repl (length m) sol (m ++ rest)
  = sub_from pat repl 0 (sol_after sol m) rest.
Proof.
  revert sol. induction m as [|c m IH]; intros sol; [reflexivity|].
  simpl. apply IH.
Qed.

Lemma sub_from_Subst (pat : pattern) (repl : Py.str) (len : nat) :
  forall s sol, (length s <= len)%nat ->
                Subst pat repl sol s (sub_from pat repl 0 sol s).
Proof.
  induction len as [|len IH]; intros [|c s] sol Hlen; try constructor; simpl in Hlen; [lia|].
  simpl. destruct (match_here pat sol (c :: s)) as [[|n]|] eqn:Hm.
  - constructor; [congruence | apply IH; lia].
  - pose proof (match_here_le _ _ _ _ Hm) as Hn. simpl in Hn.
    assert (Hsplit : s = (take n s ++ drop n s)%list) by (symmetry; apply take_drop).
    assert (Hlen_take : length (take n s) = n) by (rewrite length_take; lia).
    rewrite Hsplit at 2. rewrite <- Hlen_take at 1. rewrite sub_from_skip.
    assert (Hcs : c :: s = ((c :: take n s) ++ drop n s)%list)
      by (simpl; congruence).
    rewrite Hcs at 1.
    apply (Subst_match pat repl sol (c :: take n s)); [discriminate | |].
    + rewrite <- Hcs. simpl. rewrite Hlen_take. exact Hm.
    + simpl. apply IH. rewrite length_drop. lia.
  - constructor; [congruence | apply IH; lia].
Qed.

Lemma sub_Subst (pat : pattern) (repl s : Py.str) :
  Subst pat repl true s (sub pat repl s).
Proof. apply (sub_from_Subst pat repl (length s)). lia. Qed.

End MatchLength.

Section SubstFacts.
Import Re ReSpec.

Lemma avoids_tail (F : Py.str -> Prop) (c : N) (s : Py.str) :
  avoids F (c :: s) -> avoids F s.
Proof. intros [_ H]. exact H. Qed.

Lemma avoids_app_r (F : Py.str -> Prop) (a b : Py.str) :
  avoids F (a ++ b) -> avoids F b.
Proof.
  induction a as [|c a IH]; [auto|]. intros H. apply IH. exact (avoids_tail _ _ _ H).
Qed.

Lemma avoids_here (F : Py.str -> Prop) (s t : Py.str) :
  avoids F s -> t `prefix_of` s -> ~ F t.
Proof. destruct s; intros [Hp _]; apply Hp. Qed.

Lemma avoids_app_l (F : Py.str -> Prop) (a b : Py.str) :
  avoids F (a ++ b) -> avoids F a.
Proof.
  induction a as [|c a IH].
  - intros Hav. split; [|exact I]. intros t Hpre.
    apply prefix_nil_inv in Hpre. subst t.
    apply (avoids_here F _ [] Hav). apply prefix_nil.
  - intros [Hp Ht]. split; [|apply IH; exact Ht].
    intros t Hpre. apply Hp.
    change (t `prefix_of` (c :: a) ++ b). apply prefix_app_r. exact Hpre.
Qed.

Section OnePattern.
Variables (pat : pattern) (repl : Py.str).

Lemma Subst_Forall (P : N -> Prop) (sol : bool) (s out : Py.str) :
  Subst pat repl sol s out -> Forall P repl -> Forall P s -> Forall P out.
Proof.
  intros HS Hrepl. induction HS as [sol|sol c s out Hno HS IH|sol m rest out Hne Hm HS IH];
    intros Hs.
  - constructor.
  - apply Forall_cons_1 in Hs as [Hc Hs]. constructor; auto.
  - apply Forall_app in Hs as [_ Hrest]. apply Forall_app. auto.
Qed.

Lemma Subst_never (sol : bool) (s out : Py.str) :
  Subst pat repl sol s out -> never_matches pat s -> out = s.
Proof.
  intros HS. induction HS as [sol|sol c s out Hno HS IH|sol m rest out Hne Hm HS IH];
    intros Hnever.
  - reflexivity.
  - f_equal. apply IH. intros sol' a b n ->. apply (Hnever sol' (c :: a) b n). reflexivity.
  - exfalso. destruct m as [|c m]; [congruence|].
    apply (Hnever sol [] ((c :: m) ++ rest)%list (length m)); [reflexivity | exact Hm].
Qed.

(** A prefix of the output is a prefix of the input unless it holds a
    character of the replacement. *)
Lemma Subst_prefix (sol : bool) (s out : Py.str) :
  Subst pat repl sol s out -> repl <> [] ->
  forall t, t `prefix_of` out -> t `prefix_of` s \/ exists x, x ∈ t /\ x ∈ repl.
Proof.
  intros HS Hrepl. induction HS as [sol|sol c s out Hno HS IH|sol m rest out Hne Hm HS IH];
    intros t Hpre.
  - left. exact Hpre.
  - destruct t as [|x t]; [left; apply prefix_nil|].
    apply prefix_cons_inv_1 in Hpre as Hx. apply prefix_cons_inv_2 in Hpre as Ht. subst x.
    destruct (IH t Ht) as [Hs | (x & Hxt & Hxr)].
    + left. apply prefix_cons. exact Hs.
    + right. exists x. split; [right; exact Hxt | exact Hxr].
  - destruct t as [|x t]; [left; apply prefix_nil|].
    right. destruct repl as [|r repl']; [congruence|].
    simpl in Hpre. apply prefix_cons_inv_1 in Hpre. subst x.
    exists r. split; left.
Qed.

(** Words that share no character with a replacement that is not empty
    are not created by the pass. *)
Lemma Subst_avoids (F : Py.str -> Prop) (sol : bool) (s out : Py.str) :
  Subst pat repl sol s out -> repl <> [] ->
  (forall t, F t -> t <> [] /\ forall x, x ∈ t -> x ∉ repl) ->
  avoids F s -> avoids F out.
Proof.
  intros HS Hrepl HF.
  assert (Hstart : forall sol s out, Subst pat repl sol s out ->
            avoids F s -> forall t, t `prefix_of` out -> ~ F t).
  { intros sol' s' out' HS' Hav t Hpre Ht.
    destruct (Subst_prefix _ _ _ HS' Hrepl t Hpre) as [Hs | (x & Hxt & Hxr)].
    - exact (avoids_here F s' t Hav Hs Ht).
    - destruct (HF t Ht) as [_ Hdis]. exact (Hdis x Hxt Hxr). }
  induction HS as [sol|sol c s out Hno HS IH|sol m rest out Hne Hm HS IH]; intros Hav.
  - split; [|exact I]. apply (Hstart sol [] []); [constructor | exact Hav].
  - split.
    + apply (Hstart sol (c :: s) (c :: out)); [apply Subst_keep; assumption | exact Hav].
    + apply IH. exact (avoids_tail _ _ _ Hav).
  - assert (Hout : avoids F out) by (apply IH; exact (avoids_app_r _ _ _ Hav)).
    assert (Hgen : forall r', (forall x, x ∈ r' -> x ∈ repl) -> avoids F (r' ++ out)).
    { induction r' as [|x r' IHr]; intros Hsub; [exact Hout|].
      split.
      - intros t Hpre Ht. destruct (HF t Ht) as [Hne' Hdis].
        destruct t as [|y t]; [congruence|].
        simpl in Hpre. apply prefix_cons_inv_1 in Hpre. subst y.
        apply (Hdis x); [left | apply Hsub; left].
      - apply IHr. intros y Hy. apply Hsub. right. exact Hy. }
    apply Hgen. auto.
Qed.

(** When every match starts with a word of [F], a text that avoids [F]
    is left as it is. *)
Lemma avoids_never (F : Py.str -> Prop) (s : Py.str) :
  (forall sol b n, match_here pat sol b = Some (S n) -> exists t, t `prefix_of` b /\ F t) ->
  avoids F s -> never_matches pat s.
Proof.
  intros Hm Hav sol a b n -> Hmatch.
  destruct (Hm sol b n Hmatch) as (t & Hpre & Ht).
  exact (avoids_here F b t (avoids_app_r _ _ _ Hav) Hpre Ht).
Qed.

End OnePattern.
End SubstFacts.

(** *** Patterns that need a character of some class *)

Section Requires.
Import Re ReSpec.

Lemma m_rep_fails (p : N -> bool) (k : Py.str -> option nat) (Q : Py.str -> Prop) :
  (forall c s, Q (c :: s) -> Q s) ->
  (forall s, Q s -> k s = None) ->
  forall s l h, Q s -> m_rep p l h k s = None.
Proof.
  intros Hclosed Hk. induction s as [|c s IH]; intros l h HQ; simpl.
  - rewrite (Hk [] HQ). destruct (Nat.eqb l 0); reflexivity.
  - rewrite (Hk (c :: s) HQ). rewrite (IH _ _ (Hclosed _ _ HQ)).
    destruct (p c && may_continue h), (Nat.eqb l 0); reflexivity.
Qed.

Lemma m_rep_needs (p : N -> bool) (k : Py.str -> option nat) (s : Py.str) (l : nat)
      (h : option nat) :
  (1 <= l)%nat -> Forall (fun c => p c = false) s -> m_rep p l h k s = None.
Proof.
  intros Hl Hs. destruct l as [|l]; [lia|].
  destruct s as [|c s]; simpl; [reflexivity|].
  apply Forall_cons_1 in Hs as [Hc _]. rewrite Hc. reflexivity.
Qed.

Lemma m_items_requires (q : N -> bool) (its : list item) :
  Exists (fun it => (1 <= lo it)%nat /\ forall c, cls it c = true -> q c = true) its ->
  forall k s, Forall (fun c => q c = false) s -> m_items its k s = None.
Proof.
  induction 1 as [it its [Hlo Hcls] | it its _ IH]; intros k s Hs; simpl.
  - apply m_rep_needs; [exact Hlo|].
    eapply List.Forall_impl; [|exact Hs]. intros c Hq. simpl in Hq.
    destruct (cls it c) eqn:Hc; [|reflexivity]. apply Hcls in Hc. congruence.
  - apply (m_rep_fails _ _ (Forall (fun c => q c = false))).
    + intros c s' H. apply Forall_cons_1 in H as [_ H]. exact H.
    + intros s' H. apply IH. exact H.
    + exact Hs.
Qed.

Lemma requires_never (q : N -> bool) (pat : pattern) (s : Py.str) :
  requires q pat -> Forall (fun c => q c = false) s -> never_matches pat s.
Proof.
  intros Hreq Hs sol a b n -> Hm. apply Forall_app in Hs as [_ Hb].
  unfold match_here in Hm. destruct (bol pat && negb sol); [discriminate|].
  rewrite (m_items_requires q _ Hreq _ _ Hb) in Hm. discriminate.
Qed.

End Requires.

(** *** Literal patterns *)

Section Literals.
Import Re ReSpec.

Lemma match_chr (a c : N) (sol : bool) (s : Py.str) :
  match_here (Pat false [chr a] false) sol (c :: s) = if (a =? c)%N then Some 1%nat else None.
Proof.
  unfold match_here. simpl. destruct (a =? c)%N; simpl; [|reflexivity].
  destruct s as [|x s]; simpl; [reflexivity|]. rewrite andb_false_r. reflexivity.
Qed.

Lemma m_rep_chr (a : N) (k : Py.str -> option nat) (s : Py.str) :
  m_rep (N.eqb a) 1 (Some 1%nat) k s
  = match s with
    | c :: s' => if (a =? c)%N then S <$> k s' else None
    | [] => None
    end.
Proof.
  destruct s as [|c s]; simpl; [reflexivity|].
  destruct (a =? c)%N; simpl; [|reflexivity].
  destruct s as [|x s]; simpl.
  - destruct (k []); reflexivity.
  - rewrite andb_false_r. destruct (k (x :: s)); reflexivity.
Qed.

Lemma match_chr2 (a b : N) (sol : bool) (s : Py.str) :
  match_here (Pat false [chr a; chr b] false) sol s
  = match s with
    | x :: y :: _ => if ((a =? x) && (b =? y))%N then Some 2%nat else None
    | _ => None
    end.
Proof.
  unfold match_here, chr. cbn [bol items eol andb negb m_items cls lo hi].
  rewrite m_rep_chr.
  destruct s as [|x s]; [reflexivity|]. rewrite m_rep_chr.
  destruct (a =? x)%N; simpl; [|destruct s; reflexivity].
  destruct s as [|y s]; [reflexivity|]. destruct (b =? y)%N; reflexivity.
Qed.

End Literals.

(** *** Patterns for a run of one class *)

Section Runs.
Import Re ReSpec.
Variable p : N -> bool.

Lemma run_len_le (s : Py.str) : (run_len p s <= length s)%nat.
Proof. induction s as [|c s IH]; simpl; [lia|]. destruct (p c); simpl; lia. Qed.

Lemma run_len_app (a b : Py.str) :
  Forall (fun c => p c = true) a -> run_len p (a ++ b) = (length a + run_len p b)%nat.
Proof.
  induction a as [|c a IH]; intros Ha; [reflexivity|].
  apply Forall_cons_1 in Ha as [Hc Ha]. simpl. rewrite Hc, (IH Ha). reflexivity.
Qed.

Lemma run_len_prefix (t s : Py.str) :
  t `prefix_of` s -> Forall (fun c => p c = true) t -> (length t <= run_len p s)%nat.
Proof.
  intros [k ->] Ht. rewrite (run_len_app _ _ Ht). lia.
Qed.

Lemma run_len_take (n : nat) (s : Py.str) :
  (n <= run_len p s)%nat -> Forall (fun c => p c = true) (take n s) /\ length (take n s) = n.
Proof.
  revert n. induction s as [|c s IH]; intros n Hn; simpl in Hn.
  - assert (n = 0%nat) by lia. subst n. split; [constructor | reflexivity].
  - destruct n as [|n]; [split; [constructor | reflexivity]|].
    destruct (p c) eqn:Hc; [|lia].
    destruct (IH n ltac:(lia)) as [Hall Hlen]. simpl.
    split; [constructor; assumption | congruence].
Qed.

Lemma run_len_split (m rest : Py.str) :
  length m = run_len p (m ++ rest) ->
  Forall (fun c => p c = true) m /\ run_len p rest = 0%nat.
Proof.
  induction m as [|c m IH]; simpl; intros Hlen; [split; [constructor | congruence]|].
  destruct (p c) eqn:Hc; [|discriminate].
  injection Hlen as Hlen. destruct (IH Hlen) as [Hm Hrest].
  split; [constructor; assumption | exact Hrest].
Qed.

Lemma avoids_run_bound (n : nat) (s a b : Py.str) :
  avoids (run_of p (S n)) s -> s = (a ++ b)%list -> (run_len p b <= n)%nat.
Proof.
  intros Hav -> . apply avoids_app_r in Hav.
  destruct (le_lt_dec (run_len p b) n) as [Hle | Hlt]; [exact Hle|]. exfalso.
  destruct (run_len_take (S n) b ltac:(lia)) as [Hall Hlen].
  apply (avoids_here _ b (take (S n) b) Hav).
  - apply prefix_take.
  - split; assumption.
Qed.

Lemma m_rep_run (s : Py.str) :
  forall l, m_rep p l None (m_end false) s
            = if (l <=? run_len p s)%nat then Some (run_len p s) else None.
Proof.
  induction s as [|c s IH]; intros l; simpl.
  - destruct l; reflexivity.
  - destruct (p c); simpl.
    + rewrite IH. destruct l as [|l]; simpl.
      * reflexivity.
      * destruct (l <=? run_len p s)%nat; reflexivity.
    + destruct l; reflexivity.
Qed.

Lemma match_run (l : nat) (sol : bool) (s : Py.str) :
  match_here (run_pattern p l) sol s
  = if (l <=? run_len p s)%nat then Some (run_len p s) else None.
Proof. unfold match_here, run_pattern, at_least. simpl. apply m_rep_run. Qed.

Section OneRun.
Variables (l : nat) (repl : Py.str).
Hypothesis l_pos : (1 <= l)%nat.

Lemma no_match_short (sol : bool) (s : Py.str) :
  (forall n, match_here (run_pattern p l) sol s <> Some (S n)) -> (run_len p s < l)%nat.
Proof.
  intros Hno. rewrite match_run in Hno.
  destruct (l <=? run_len p s)%nat eqn:Hle; [|apply Nat.leb_gt; exact Hle].
  apply Nat.leb_le in Hle. destruct (run_len p s) as [|r]; [lia|].
  exfalso. exact (Hno r eq_refl).
Qed.

Lemma match_whole_run (sol : bool) (m rest : Py.str) :
  match_here (run_pattern p l) sol (m ++ rest) = Some (length m) ->
  (l <= length m)%nat /\ Forall (fun c => p c = true) m /\ run_len p rest = 0%nat.
Proof.
  rewrite match_run. destruct (l <=? run_len p (m ++ rest))%nat eqn:Hle; [|discriminate].
  intros [= Hlen]. apply Nat.leb_le in Hle.
  destruct (run_len_split m rest (eq_sym Hlen)) as [Hm Hrest].
  split; [lia | split; assumption].
Qed.

(** After the pass no run is longer than a run too short to match or
    than the replacement. *)
Lemma Subst_run_bounded (sol : bool) (s out : Py.str) :
  Subst (run_pattern p l) repl sol s out ->
  Forall (fun c => p c = true) repl ->
  avoids (run_of p (S (Nat.max (l - 1) (length repl)))) out
  /\ run_len p out = if (run_len p s <? l)%nat then run_len p s else length repl.
Proof.
  intros HS Hrepl. set (bound := Nat.max (l - 1) (length repl)).
  induction HS as [sol|sol c s out Hno HS IH|sol m rest out Hne Hm HS IH].
  - split.
    + split; [|exact I]. intros t Hpre [Hlen _].
      apply prefix_nil_inv in Hpre. subst t. discriminate.
    + simpl. destruct l; [lia | reflexivity].
  - destruct IH as [IHav IHlen]. apply no_match_short in Hno.
    assert (Hhead : run_len p (c :: out) = run_len p (c :: s)).
    { simpl in *. destruct (p c); [|reflexivity].
      rewrite IHlen. destruct (run_len p s <? l)%nat eqn:Hlt; [reflexivity|].
      apply Nat.ltb_ge in Hlt. lia. }
    split.
    + split; [|exact IHav]. intros t Hpre [Hlen Hall].
      pose proof (run_len_prefix _ _ Hpre Hall). lia.
    + rewrite Hhead. destruct (run_len p (c :: s) <? l)%nat eqn:Hlt; [reflexivity|].
      apply Nat.ltb_ge in Hlt. lia.
  - destruct IH as [IHav IHlen].
    destruct (match_whole_run _ _ _ Hm) as (Hl & Hall & Hrest).
    rewrite Hrest in IHlen.
    assert (Hout0 : run_len p out = 0%nat).
    { rewrite IHlen. destruct l; [lia | reflexivity]. }
    split.
    + assert (Hgen : forall r', Forall (fun c => p c = true) r' ->
                                (length r' <= length repl)%nat ->
                                avoids (run_of p (S bound)) (r' ++ out)).
      { induction r' as [|x r' IHr]; intros Hr Hlen; [exact IHav|].
        split.
        - intros t Hpre [Htlen Htall].
          pose proof (run_len_prefix _ _ Hpre Htall) as Hle.
          assert (Hrl : run_len p (x :: r' ++ out) = (length (x :: r') + run_len p out)%nat)
            by apply (run_len_app (x :: r') out Hr).
          rewrite Hrl, Hout0 in Hle. simpl in Hle, Hlen. lia.
        - apply Forall_cons_1 in Hr as [_ Hr]. apply IHr; [exact Hr | simpl in Hlen; lia]. }
      apply Hgen; [exact Hrepl | lia].
    + rewrite (run_len_app _ _ Hrepl), Hout0.
      rewrite (run_len_app _ _ Hall), Hrest.
      destruct (length m + 0 <? l)%nat eqn:Hlt; [apply Nat.ltb_lt in Hlt; lia | lia].
Qed.

(** A text whose runs long enough to match are the replacement itself is
    left as it is. *)
Lemma Subst_run_fixed (sol : bool) (s out : Py.str) :
  Subst (run_pattern p l) repl sol s out ->
  (forall a b, s = (a ++ b)%list -> (l <= run_len p b)%nat -> take (run_len p b) b = repl) ->
  out = s.
Proof.
  intros HS. induction HS as [sol|sol c s out Hno HS IH|sol m rest out Hne Hm HS IH];
    intros Hfix.
  - reflexivity.
  - f_equal. apply IH. intros a b -> Hle. apply (Hfix (c :: a) b); [reflexivity | exact Hle].
  - destruct (match_whole_run _ _ _ Hm) as (Hl & Hall & Hrest).
    assert (Hrun : run_len p (m ++ rest) = length m).
    { rewrite (run_len_app _ _ Hall), Hrest. lia. }
    assert (Hm_repl : m = repl).
    { rewrite <- (Hfix [] (m ++ rest)%list eq_refl) by lia.
      rewrite Hrun. rewrite take_app_length. reflexivity. }
    rewrite <- Hm_repl. f_equal. apply IH.
    intros a b -> Hle. apply (Hfix (m ++ a)%list b); [|exact Hle].
    rewrite app_assoc. reflexivity.
Qed.

End OneRun.

(** When one character is enough for a match, the characters of the class
    that are left are those of the replacement. *)
Lemma Subst_run_all (repl : Py.str) (sol : bool) (s out : Py.str) :
  Subst (run_pattern p 1) repl sol s out ->
  Forall (fun c => p c = true -> c ∈ repl) out.
Proof.
  intros HS. induction HS as [sol|sol c s out Hno HS IH|sol m rest out Hne Hm HS IH].
  - constructor.
  - constructor; [|exact IH].
    apply (no_match_short 1) in Hno; [|lia]. simpl in Hno.
    destruct (p c); [lia | discriminate].
  - apply Forall_app. split; [|exact IH].
    apply List.Forall_forall. intros x Hx _. apply list_elem_of_In. exact Hx.
Qed.

End Runs.

(** *** What one pass establishes *)

Section Establish.
Import Re ReSpec.

(** When a match starts wherever a word of [F] does, and the replacement
    shares no character with these words, the output avoids [F]. *)
Lemma Subst_establishes (F : Py.str -> Prop) (pat : pattern) (repl : Py.str)
      (sol : bool) (s out : Py.str) :
  Subst pat repl sol s out -> repl <> [] ->
  (forall t, F t -> t <> [] /\ forall x, x ∈ t -> x ∉ repl) ->
  (forall sol b t, F t -> t `prefix_of` b -> exists n, match_here pat sol b = Some (S n)) ->
  avoids F out.
Proof.
  intros HS Hrepl HF Hhit.
  induction HS as [sol|sol c s out Hno HS IH|sol m rest out Hne Hm HS IH].
  - split; [|exact I]. intros t Hpre Ht. apply prefix_nil_inv in Hpre. subst t.
    destruct (HF [] Ht) as [Hne _]. congruence.
  - split; [|exact IH]. intros t Hpre Ht.
    destruct (Subst_prefix pat repl sol (c :: s) (c :: out)
                (Subst_keep _ _ _ _ _ _ Hno HS) Hrepl t Hpre) as [Hs | (x & Hxt & Hxr)].
    + destruct (Hhit sol (c :: s) t Ht Hs) as [n Hn]. exact (Hno n Hn).
    + destruct (HF t Ht) as [_ Hdis]. exact (Hdis x Hxt Hxr).
  - assert (Hgen : forall r', (forall x, x ∈ r' -> x ∈ repl) -> avoids F (r' ++ out)).
    { induction r' as [|x r' IHr]; intros Hsub; [exact IH|].
      split.
      - intros t Hpre Ht. destruct (HF t Ht) as [Hne' Hdis].
        destruct t as [|y t]; [congruence|].
        simpl in Hpre. apply prefix_cons_inv_1 in Hpre. subst y.
        apply (Hdis x); [left | apply Hsub; left].
      - apply IHr. intros y Hy. apply Hsub. right. exact Hy. }
    apply Hgen. auto.
Qed.

(** Removing one character leaves none of it. *)
Lemma Subst_removes (c0 : N) (sol : bool) (s out : Py.str) :
  Subst (Pat false [chr c0] false) [] sol s out -> Forall (fun c => c <> c0) out.
Proof.
  intros HS. induction HS as [sol|sol c s out Hno HS IH|sol m rest out Hne Hm HS IH].
  - constructor.
  - constructor; [|exact IH]. intros ->.
    apply (Hno 0%nat). rewrite match_chr, N.eqb_refl. reflexivity.
  - exact IH.
Qed.

End Establish.

(** ** [strip] and [split] *)

Lemma lstrip_suffix (s : Py.str) : exists a, s = (a ++ Py.lstrip s)%list.
Proof.
  induction s as [|c s [a IH]]; [exists []; reflexivity|].
  simpl. destruct (Py.isspace c).
  - exists (c :: a). simpl. congruence.
  - exists []. reflexivity.
Qed.

Lemma rstrip_prefix (s : Py.str) : exists b, s = (Py.rstrip s ++ b)%list.
Proof.
  unfold Py.rstrip. destruct (lstrip_suffix (rev s)) as [a Ha].
  exists (rev a). rewrite <- rev_app_distr, <- Ha, rev_involutive. reflexivity.
Qed.

Lemma strip_factor (s : Py.str) : exists a b, s = (a ++ Py.strip s ++ b)%list.
Proof.
  destruct (lstrip_suffix s) as [a Ha]. destruct (rstrip_prefix (Py.lstrip s)) as [b Hb].
  exists a, b. unfold Py.strip. rewrite <- Hb. exact Ha.
Qed.

Lemma strip_Forall (P : N -> Prop) (s : Py.str) : Forall P s -> Forall P (Py.strip s).
Proof.
  destruct (strip_factor s) as (a & b & Hs). intros H. rewrite Hs in H.
  apply Forall_app in H as [_ H]. apply Forall_app in H as [H _]. exact H.
Qed.

Lemma strip_avoids (F : Py.str -> Prop) (s : Py.str) :
  ReSpec.avoids F s -> ReSpec.avoids F (Py.strip s).
Proof.
  destruct (strip_factor s) as (a & b & Hs). intros H. rewrite Hs in H.
  apply avoids_app_r in H. apply avoids_app_l in H. exact H.
Qed.

Lemma lstrip_app_nonspace (a b : Py.str) (x : N) :
  Py.isspace x = false -> Py.lstrip (a ++ x :: b) = (Py.lstrip a ++ x :: b)%list.
Proof.
  intros Hx. induction a as [|c a IH]; simpl.
  - rewrite Hx. reflexivity.
  - destruct (Py.isspace c); [exact IH | reflexivity].
Qed.

Lemma rstrip_cons_nonspace (x : N) (s : Py.str) :
  Py.isspace x = false -> Py.rstrip (x :: s) = x :: Py.rstrip s.
Proof.
  intros Hx. unfold Py.rstrip. simpl.
  rewrite (lstrip_app_nonspace (rev s) [] x Hx), rev_app_distr. reflexivity.
Qed.

Lemma lstrip_idem (s : Py.str) : Py.lstrip (Py.lstrip s) = Py.lstrip s.
Proof.
  induction s as [|c s IH]; [reflexivity|]. simpl.
  destruct (Py.isspace c) eqn:Hc; [exact IH|]. simpl. rewrite Hc. reflexivity.
Qed.

Lemma rstrip_idem (s : Py.str) : Py.rstrip (Py.rstrip s) = Py.rstrip s.
Proof. unfold Py.rstrip. rewrite rev_involutive, lstrip_idem. reflexivity. Qed.

Lemma lstrip_head (s : Py.str) :
  match Py.lstrip s with
  | [] => True
  | x :: _ => Py.isspace x = false
  end.
Proof.
  induction s as [|c s IH]; [exact I|]. simpl.
  destruct (Py.isspace c) eqn:Hc; [exact IH | exact Hc].
Qed.

Lemma strip_idem (s : Py.str) : Py.strip (Py.strip s) = Py.strip s.
Proof.
  unfold Py.strip. pose proof (lstrip_head s) as Hhead.
  destruct (Py.lstrip s) as [|x u]; [reflexivity|].
  rewrite (rstrip_cons_nonspace x u Hhead). simpl. rewrite Hhead.
  rewrite <- (rstrip_cons_nonspace x u Hhead). apply rstrip_idem.
Qed.

Lemma split_lines_one (s : Py.str) :
  Forall (fun c => c <> Py.LF) s -> Py.split_lines s = [s].
Proof.
  induction s as [|c s IH]; intros Hs; [reflexivity|].
  apply Forall_cons_1 in Hs as [Hc Hs]. simpl.
  destruct (c =? Py.LF)%N eqn:Heq; [apply N.eqb_eq in Heq; contradiction|].
  rewrite (IH Hs). reflexivity.
Qed.

(** ** The cleaner on one line without digits *)

Section CleanOneLine.
Import Re ReSpec TextCleaner.

Lemma clean_before_strip (text : Py.str) :
  Forall (fun c => c <> Py.LF) (before_strip text) ->
  clean text = Py.strip (before_strip text).
Proof.
  intros Hone. destruct text as [|c text]; [reflexivity|].
  unfold clean, clean_with, normalize_whitespace.
  fold (before_strip (c :: text)).
  rewrite (split_lines_one _ Hone). simpl. apply strip_idem.
Qed.

Ltac find_required :=
  unfold requires; simpl;
  repeat first
    [ apply Exists_cons_hd; split; [simpl; lia | simpl; intros ? Hc; exact Hc]
    | apply Exists_cons_tl ].

(** The substitutions that need a digit or a newline do nothing. *)
Lemma sub_needs (q : N -> bool) (pat : pattern) (repl s : Py.str) :
  requires q pat -> Forall (fun c => q c = false) s -> sub pat repl s = s.
Proof.
  intros Hreq Hs. apply (Subst_never pat repl true); [apply sub_Subst|].
  exact (requires_never q pat s Hreq Hs).
Qed.

Lemma remove_page_numbers_no_digit (s : Py.str) :
  Forall (fun c => Py.isdecimal c = false) s -> remove_page_numbers s = s.
Proof.
  intros Hs. unfold remove_page_numbers, page_patterns. simpl.
  repeat match goal with
         | |- context [sub ?pat ?r s] =>
             rewrite (sub_needs Py.isdecimal pat r s) by (first [exact Hs | find_required])
         end.
  reflexivity.
Qed.

Lemma remove_headers_footers_no_digit (s : Py.str) :
  Forall (fun c => Py.isdecimal c = false) s -> remove_headers_footers s = s.
Proof.
  intros Hs. unfold remove_headers_footers, footer_patterns. simpl.
  repeat match goal with
         | |- context [sub ?pat ?r s] =>
             rewrite (sub_needs Py.isdecimal pat r s) by (first [exact Hs | find_required])
         end.
  reflexivity.
Qed.


Lemma sub_Forall (P : N -> Prop) (pat : pattern) (repl s : Py.str) :
  Forall P repl -> Forall P s -> Forall P (sub pat repl s).
Proof. intros Hr Hs. exact (Subst_Forall pat repl P true s _ (sub_Subst pat repl s) Hr Hs). Qed.

Lemma sub_removes (c0 : N) (s : Py.str) :
  Forall (fun c => c <> c0) (sub (Pat false [chr c0] false) [] s).
Proof. exact (Subst_removes c0 true s _ (sub_Subst _ _ s)). Qed.

Lemma sub_avoids (F : Py.str -> Prop) (pat : pattern) (repl s : Py.str) :
  repl <> [] ->
  (forall t, F t -> t <> [] /\ forall x, x ∈ t -> x ∉ repl) ->
  avoids F s -> avoids F (sub pat repl s).
Proof. intros Hr HF. exact (Subst_avoids pat repl F true s _ (sub_Subst pat repl s) Hr HF). Qed.

(** A word of two given characters and a replacement of one other
    character. *)
Lemma word2_apart (a b : N) (repl t : Py.str) :
  Forall (fun r => r <> a /\ r <> b) repl ->
  word [a; b] t -> t <> [] /\ forall x, x ∈ t -> x ∉ repl.
Proof.
  intros Hrepl ->. split; [discriminate|].
  intros x Hx Hr. apply list_elem_of_In in Hx, Hr.
  rewrite List.Forall_forall in Hrepl. destruct (Hrepl x Hr) as [Ha Hb].
  destruct Hx as [<- | [<- | []]]; congruence.
Qed.

(** A run of a class and a replacement outside of that class. *)
Lemma run_apart (p : N -> bool) (n : nat) (repl t : Py.str) :
  Forall (fun c => p c = false) repl ->
  run_of p (S n) t -> t <> [] /\ forall x, x ∈ t -> x ∉ repl.
Proof.
  intros Hrepl [Hlen Hall]. split; [intros ->; discriminate|].
  intros x Hx Hr. apply list_elem_of_In in Hx, Hr.
  rewrite List.Forall_forall in Hrepl, Hall.
  specialize (Hrepl x Hr). specialize (Hall x Hx). simpl in *. congruence.
Qed.

Lemma sub_word2 (a b r : N) (s : Py.str) :
  r <> a -> r <> b -> avoids (word [a; b]) (sub (Pat false [chr a; chr b] false) [r] s).
Proof.
  intros Ha Hb.
  apply (Subst_establishes _ _ [r] true s _ (sub_Subst _ _ s)); [discriminate | |].
  - intros t. apply word2_apart. repeat constructor; assumption.
  - intros sol u t -> [k ->]. exists 1%nat. rewrite match_chr2. simpl.
    rewrite !N.eqb_refl. reflexivity.
Qed.

Lemma sub_word2_fixed (a b : N) (repl s : Py.str) :
  avoids (word [a; b]) s -> sub (Pat false [chr a; chr b] false) repl s = s.
Proof.
  intros Hav. eapply Subst_never; [apply sub_Subst|].
  apply (avoids_never _ (word [a; b])); [|exact Hav].
  intros sol u n. rewrite match_chr2.
  destruct u as [|x [|y u]]; try discriminate.
  destruct (a =? x)%N eqn:Hx; [|discriminate]. destruct (b =? y)%N eqn:Hy; [|discriminate].
  apply N.eqb_eq in Hx, Hy. subst x y. intros _.
  exists [a; b]. split; [exists u; reflexivity | reflexivity].
Qed.

Lemma sub_run_bounded (p : N -> bool) (l : nat) (repl s : Py.str) :
  (1 <= l)%nat -> Forall (fun c => p c = true) repl ->
  avoids (run_of p (S (Nat.max (l - 1) (length repl)))) (sub (run_pattern p l) repl s).
Proof.
  intros Hl Hrepl.
  exact (proj1 (Subst_run_bounded p l repl Hl true s _ (sub_Subst _ _ s) Hrepl)).
Qed.

Lemma Forall_and_intro {A} (P Q : A -> Prop) (l : list A) :
  Forall P l -> Forall Q l -> Forall (fun a => P a /\ Q a) l.
Proof.
  rewrite !List.Forall_forall. intros HP HQ a Ha. split; [apply HP | apply HQ]; exact Ha.
Qed.

Lemma kept_char_not (c0 : N) (s : Py.str) :
  c0 = 0%N \/ c0 = 12%N \/ c0 = 13%N \/ c0 = Py.LF ->
  Forall kept_char s -> Forall (fun c => (c0 =? c)%N = false) s.
Proof.
  intros Hc0. apply List.Forall_impl. intros c (H0 & H12 & H13 & Hlf & _).
  apply N.eqb_neq. destruct Hc0 as [-> | [-> | [-> | ->]]]; congruence.
Qed.

Lemma kept_char_no_digit (s : Py.str) :
  Forall kept_char s -> Forall (fun c => Py.isdecimal c = false) s.
Proof. apply List.Forall_impl. intros c (_ & _ & _ & _ & H). exact H. Qed.

Ltac kept_literal :=
  repeat constructor; try discriminate; try (vm_compute; reflexivity).

(** After the removal of the control characters. *)
Lemma remove_special_chars_kept (x : Py.str) :
  one_line_no_digit x -> Forall kept_char (remove_special_chars x).
Proof.
  intros [Hlf Hdig].
  unfold remove_special_chars, patterns_to_remove. cbn [fold_left].
  set (s1 := sub (Pat false [chr 0] false) [] x).
  set (s2 := sub (Pat false [chr 12] false) [] s1).
  set (s3 := sub (Pat false [chr 13] false) [] s2).
  assert (H0 : Forall (fun c => c <> 0%N) s3).
  { do 2 (apply sub_Forall; [constructor|]). apply sub_removes. }
  assert (H12 : Forall (fun c => c <> 12%N) s3).
  { apply sub_Forall; [constructor|]. apply sub_removes. }
  assert (H13 : Forall (fun c => c <> 13%N) s3) by apply sub_removes.
  assert (Hlf3 : Forall (fun c => c <> Py.LF) s3).
  { do 3 (apply sub_Forall; [constructor|]). exact Hlf. }
  assert (Hdig3 : Forall (fun c => Py.isdecimal c = false) s3).
  { do 3 (apply sub_Forall; [constructor|]). exact Hdig. }
  repeat (apply Forall_and_intro; [assumption|]). assumption.
Qed.

(** The line before the strip is tidy. *)
Lemma before_strip_tidy (x : Py.str) : one_line_no_digit x -> tidy (before_strip x).
Proof.
  intros Hx. pose proof (remove_special_chars_kept x Hx) as H3.
  unfold before_strip, fix_common_ocr_errors, ocr_fixes, patterns_to_replace.
  set (s3 := remove_special_chars x) in *.
  cbn [fold_left fst snd].
  set (s4 := sub (Pat false [chr 3661; chr 3634] false) [3635%N] s3).
  set (s5 := sub (Pat false [chr 3648; chr 3648] false) [3649%N] s4).
  assert (H4 : Forall kept_char s4) by (apply sub_Forall; [kept_literal | exact H3]).
  assert (H5 : Forall kept_char s5) by (apply sub_Forall; [kept_literal | exact H4]).
  assert (A5 : avoids (word [3661; 3634]%N) s5).
  { apply sub_avoids; [discriminate | |apply sub_word2; discriminate].
    intros t. apply word2_apart; kept_literal. }
  assert (B5 : avoids (word [3648; 3648]%N) s5) by (apply sub_word2; discriminate).
  rewrite (remove_page_numbers_no_digit s5) by (apply kept_char_no_digit; exact H5).
  rewrite (remove_headers_footers_no_digit s5) by (apply kept_char_no_digit; exact H5).
  change (Py.lit " ") with [32%N]. change (Py.lit "...") with [46; 46; 46]%N.
  change (Py.lit "---") with [45; 45; 45]%N.
  change (Pat false [plus (one_of [32; 9]%N)] false) with (run_pattern (one_of [32; 9]%N) 1).
  change (Pat false [at_least 4 (only 46%N)] false) with (run_pattern (only 46%N) 4).
  change (Pat false [at_least 3 (only 45%N)] false) with (run_pattern (only 45%N) 3).
  set (s6 := sub (run_pattern (one_of [32; 9]%N) 1) [32%N] s5).
  assert (H6 : Forall kept_char s6) by (apply sub_Forall; [kept_literal | exact H5]).
  assert (T6 : Forall (fun c => c <> 9%N) s6).
  { pose proof (Subst_run_all (one_of [32; 9]%N) [32%N] true s5 _ (sub_Subst _ _ s5)) as Hall.
    fold s6 in Hall. revert Hall. apply List.Forall_impl. intros c Hc ->.
    specialize (Hc eq_refl). apply list_elem_of_singleton in Hc. discriminate. }
  assert (A6 : avoids (word [3661; 3634]%N) s6).
  { apply sub_avoids; [discriminate | | exact A5]. intros t. apply word2_apart; kept_literal. }
  assert (B6 : avoids (word [3648; 3648]%N) s6).
  { apply sub_avoids; [discriminate | | exact B5]. intros t. apply word2_apart; kept_literal. }
  assert (C6 : avoids (run_of (one_of [32; 9]%N) 2) s6).
  { apply (sub_run_bounded (one_of [32; 9]%N) 1 [32%N] s5); [lia | kept_literal]. }
  rewrite (sub_needs (only Py.LF) _ _ s6);
    [| find_required | apply (kept_char_not Py.LF); [auto | exact H6]].
  set (s7 := sub (run_pattern (only 46%N) 4) [46; 46; 46]%N s6).
  set (s8 := sub (run_pattern (only 45%N) 3) [45; 45; 45]%N s7).
  assert (H7 : Forall kept_char s7) by (apply sub_Forall; [kept_literal | exact H6]).
  assert (H8 : Forall kept_char s8) by (apply sub_Forall; [kept_literal | exact H7]).
  assert (T8 : Forall (fun c => c <> 9%N) s8).
  { do 2 (apply sub_Forall; [kept_literal|]). exact T6. }
  assert (A8 : avoids (word [3661; 3634]%N) s8).
  { do 2 (apply sub_avoids; [discriminate | intros t; apply word2_apart; kept_literal |]).
    exact A6. }
  assert (B8 : avoids (word [3648; 3648]%N) s8).
  { do 2 (apply sub_avoids; [discriminate | intros t; apply word2_apart; kept_literal |]).
    exact B6. }
  assert (C8 : avoids (run_of (one_of [32; 9]%N) 2) s8).
  { do 2 (apply sub_avoids; [discriminate | intros t; apply run_apart; kept_literal |]).
    exact C6. }
  assert (D7 : avoids (run_of (only 46%N) 4) s7).
  { apply (sub_run_bounded (only 46%N) 4 [46; 46; 46]%N s6); [lia | kept_literal]. }
  assert (D8 : avoids (run_of (only 46%N) 4) s8).
  { apply sub_avoids; [discriminate | intros t; apply run_apart; kept_literal | exact D7]. }
  assert (E8 : avoids (run_of (only 45%N) 4) s8).
  { apply (sub_run_bounded (only 45%N) 3 [45; 45; 45]%N s7); [lia | kept_literal]. }
  split; [apply Forall_and_intro; assumption|]. auto 10.
Qed.


Lemma plain_kept (y : Py.str) : Forall plain_char y -> Forall kept_char y.
Proof. apply List.Forall_impl. intros c [H _]. exact H. Qed.

Lemma sub_run_fixed (p : N -> bool) (l : nat) (repl s : Py.str) :
  (1 <= l)%nat ->
  (forall a b, s = (a ++ b)%list -> (l <= run_len p b)%nat -> take (run_len p b) b = repl) ->
  sub (run_pattern p l) repl s = s.
Proof. intros Hl. exact (Subst_run_fixed p l repl Hl true s _ (sub_Subst _ _ s)). Qed.

(** A run of [n] times the character [c]. *)
Lemma run_of_only (c : N) (n : nat) (t : Py.str) :
  Forall (fun x => only c x = true) t -> length t = n -> t = repeat c n.
Proof.
  revert n. induction t as [|x t IH]; intros n Hall Hlen; simpl in Hlen; subst n.
  - reflexivity.
  - apply Forall_cons_1 in Hall as [Hx Hall]. apply N.eqb_eq in Hx. subst x.
    simpl. f_equal. apply IH; [exact Hall | reflexivity].
Qed.

(** On a tidy line no substitution of [clean] changes anything. *)
Lemma before_strip_fixed (y : Py.str) : tidy y -> before_strip y = y.
Proof.
  intros (Hplain & A & B & C & D & E).
  pose proof (plain_kept y Hplain) as Hkept.
  unfold before_strip.
  assert (Hrm : remove_special_chars y = y).
  { unfold remove_special_chars, patterns_to_remove. cbn [fold_left].
    rewrite (sub_needs (N.eqb 0) _ _ y);
      [| find_required | apply kept_char_not; [auto | exact Hkept]].
    rewrite (sub_needs (N.eqb 12) _ _ y);
      [| find_required | apply kept_char_not; [auto | exact Hkept]].
    rewrite (sub_needs (N.eqb 13) _ _ y);
      [| find_required | apply kept_char_not; [auto | exact Hkept]].
    reflexivity. }
  assert (Hocr : fix_common_ocr_errors y = y).
  { unfold fix_common_ocr_errors, ocr_fixes. cbn [fold_left fst snd].
    rewrite (sub_word2_fixed _ _ _ y A). apply (sub_word2_fixed _ _ _ y B). }
  rewrite Hrm, Hocr.
  rewrite (remove_page_numbers_no_digit y) by (apply kept_char_no_digit; exact Hkept).
  rewrite (remove_headers_footers_no_digit y) by (apply kept_char_no_digit; exact Hkept).
  unfold patterns_to_replace. cbn [fold_left fst snd].
  change (Py.lit " ") with [32%N]. change (Py.lit "...") with [46; 46; 46]%N.
  change (Py.lit "---") with [45; 45; 45]%N.
  change (Pat false [plus (one_of [32; 9]%N)] false) with (run_pattern (one_of [32; 9]%N) 1).
  change (Pat false [at_least 4 (only 46%N)] false) with (run_pattern (only 46%N) 4).
  change (Pat false [at_least 3 (only 45%N)] false) with (run_pattern (only 45%N) 3).
  rewrite (sub_run_fixed (one_of [32; 9]%N) 1 [32%N] y); [|lia|].
  2:{ intros a b Hab Hle.
      pose proof (avoids_run_bound _ 1 y a b C Hab) as Hup.
      assert (Hrun : run_len (one_of [32; 9]%N) b = 1%nat) by lia.
      rewrite Hrun. destruct b as [|c b]; [discriminate|].
      cbn [run_len] in Hrun. destruct (one_of [32; 9]%N c) eqn:Hc; [|discriminate].
      rewrite Hab in Hplain. apply Forall_app in Hplain as [_ Hb].
      apply Forall_cons_1 in Hb as [[_ Htab] _].
      cbn [take]. f_equal.
      unfold one_of in Hc. simpl in Hc.
      destruct (c =? 32)%N eqn:H32; [apply N.eqb_eq in H32; exact H32|].
      destruct (c =? 9)%N eqn:H9; [apply N.eqb_eq in H9; contradiction | discriminate]. }
  rewrite (sub_needs (only Py.LF) _ _ y);
    [| find_required | apply (kept_char_not Py.LF); [auto | exact Hkept]].
  rewrite (sub_run_fixed (only 46%N) 4 [46; 46; 46]%N y); [|lia|].
  2:{ intros a b Hab Hle. pose proof (avoids_run_bound _ 3 y a b D Hab). lia. }
  apply (sub_run_fixed (only 45%N) 3 [45; 45; 45]%N y); [lia|].
  intros a b Hab Hle. pose proof (avoids_run_bound _ 3 y a b E Hab) as Hup.
  assert (Hrun : run_len (only 45%N) b = 3%nat) by lia. rewrite Hrun.
  destruct (run_len_take (only 45%N) 3 b ltac:(lia)) as [Hall Hlen].
  exact (run_of_only 45 3 _ Hall Hlen).
Qed.

Lemma strip_tidy (y : Py.str) : tidy y -> tidy (Py.strip y).
Proof.
  intros (Hplain & A & B & C & D & E).
  repeat split; try (apply strip_avoids; assumption). apply strip_Forall. exact Hplain.
Qed.

Lemma tidy_one_line (y : Py.str) : tidy y -> Forall (fun c => c <> Py.LF) y.
Proof.
  intros [Hplain _]. revert Hplain. apply List.Forall_impl.
  intros c [(_ & _ & _ & H & _) _]. exact H.
Qed.

End CleanOneLine.

(** C2, as the claim states it, fails: the line [" 1"] cleans to ["1"],
    and only then is it a page number, which the second pass removes;
    blank lines between two lines of text show the same after the
    strip of the lines. *)
Lemma clean_not_idempotent :
  TextCleaner.clean (Py.lit " 1") = Py.lit "1"
  /\ TextCleaner.clean (TextCleaner.clean (Py.lit " 1")) = []
  /\ TextCleaner.clean (TextCleaner.clean (Py.lit " 1")) <> TextCleaner.clean (Py.lit " 1")
  /\ (let x := [97; 10; 32; 10; 32; 10; 98]%N in
      TextCleaner.clean x = [97; 10; 10; 10; 98]%N
      /\ TextCleaner.clean (TextCleaner.clean x) = [97; 10; 10; 98]%N).
Proof. repeat split; try (vm_compute; reflexivity). vm_compute. discriminate. Qed.

(** On an input of one line that holds no decimal digit, [clean] is
    idempotent. *)
Lemma clean_idempotent_one_line (x : Py.str) :
  one_line_no_digit x ->
  TextCleaner.clean (TextCleaner.clean x) = TextCleaner.clean x.
Proof.
  intros Hx.
  pose proof (before_strip_tidy x Hx) as Htidy.
  rewrite (clean_before_strip x (tidy_one_line _ Htidy)).
  set (y := Py.strip (before_strip x)).
  assert (Hy : tidy y) by (apply strip_tidy; exact Htidy).
  assert (Hfix : before_strip y = y) by (apply before_strip_fixed; exact Hy).
  rewrite (clean_before_strip y); rewrite Hfix; [|apply tidy_one_line; exact Hy].
  apply strip_idem.
Qed.

(** A line with tabs, runs of spaces, dots and dashes and a carriage
    return. *)
Example clean_one_line_example :
  let x := [32; 9; 97; 32; 32; 46; 46; 46; 46; 46; 45; 45; 45; 45; 13; 98; 9]%N in
  TextCleaner.clean x = [97; 32; 46; 46; 46; 45; 45; 45; 98]%N
  /\ TextCleaner.clean (TextCleaner.clean x) = TextCleaner.clean x.
Proof.
  intros x. split; [vm_compute; reflexivity|].
  apply (clean_idempotent_one_line x).
  split; repeat constructor; try discriminate.
Qed.

(** * Further properties *)

(** ** The steps of the cleaner *)

Section CleanerSteps.
Import Re ReSpec TextCleaner.

Lemma Subst_chr_filter (c0 : N) (sol : bool) (s out : Py.str) :
  Subst (Pat false [chr c0] false) [] sol s out ->
  out = List.filter (fun c => negb (c0 =? c)%N) s.
Proof.
  intros HS. induction HS as [sol|sol c s out Hno HS IH|sol m rest out Hne Hm HS IH].
  - reflexivity.
  - simpl. destruct (c0 =? c)%N eqn:Hc.
    + exfalso. apply (Hno 0%nat). rewrite match_chr, Hc. reflexivity.
    + simpl. f_equal. exact IH.
  - destruct m as [|c m]; [congruence|]. simpl in Hm. rewrite match_chr in Hm.
    destruct (c0 =? c)%N eqn:Hc; [|discriminate].
    injection Hm as Hm. destruct m; [|discriminate].
    simpl. rewrite Hc. simpl. exact IH.
Qed.

Lemma filter_filter {A} (f g : A -> bool) (l : list A) :
  List.filter g (List.filter f l) = List.filter (fun a => f a && g a) l.
Proof.
  induction l as [|a l IH]; [reflexivity|]. simpl.
  destruct (f a); simpl; [destruct (g a); simpl; congruence | exact IH].
Qed.

End CleanerSteps.

Lemma remove_special_chars_as_filter (text : Py.str) :
  TextCleaner.remove_special_chars text
  = List.filter (fun c => negb (TextCleaner.one_of [0; 12; 13]%N c)) text.
Proof.
  unfold TextCleaner.remove_special_chars, TextCleaner.patterns_to_remove.
  cbn [fold_left].
  rewrite (Subst_chr_filter 13 true _ _ (sub_Subst _ _ _)).
  rewrite (Subst_chr_filter 12 true _ _ (sub_Subst _ _ _)).
  rewrite (Subst_chr_filter 0 true _ _ (sub_Subst _ _ _)).
  rewrite !filter_filter. apply filter_ext. intros c.
  unfold TextCleaner.one_of. cbn [existsb].
  rewrite (N.eqb_sym 0 c), (N.eqb_sym 12 c), (N.eqb_sym 13 c).
  destruct (c =? 0)%N, (c =? 12)%N, (c =? 13)%N; reflexivity.
Qed.

(** X1: [remove_special_chars] deletes every NUL, form feed and carriage
    return, and nothing else: what is left is the text without these
    three characters, in order; a second pass changes nothing. *)
Theorem remove_special_chars_filter (text : Py.str) :
  TextCleaner.remove_special_chars text
  = List.filter (fun c => negb (TextCleaner.one_of [0; 12; 13]%N c)) text
  /\ TextCleaner.remove_special_chars (TextCleaner.remove_special_chars text)
     = TextCleaner.remove_special_chars text.
Proof.
  split; [apply remove_special_chars_as_filter|].
  rewrite !remove_special_chars_as_filter, filter_filter.
  apply filter_ext. intros c. apply andb_diag.
Qed.

Section CleanerOutput.
Import Re ReSpec TextCleaner.

Ltac chars_ok := repeat constructor; try discriminate; try (vm_compute; reflexivity).

(** X2: [fix_common_ocr_errors] is idempotent: after one pass neither of
    the two misspellings is left, so a second pass changes nothing. *)
Theorem fix_common_ocr_errors_idempotent (text : Py.str) :
  fix_common_ocr_errors (fix_common_ocr_errors text) = fix_common_ocr_errors text
  /\ avoids (word [0xe4d; 0xe32]%N) (fix_common_ocr_errors text)
  /\ avoids (word [0xe40; 0xe40]%N) (fix_common_ocr_errors text).
Proof.
  unfold fix_common_ocr_errors, ocr_fixes. cbn [fold_left fst snd].
  set (s1 := sub (Pat false [chr 3661; chr 3634] false) [3635%N] text).
  set (s2 := sub (Pat false [chr 3648; chr 3648] false) [3649%N] s1).
  assert (A : avoids (word [3661; 3634]%N) s2).
  { apply sub_avoids; [discriminate | |apply sub_word2; discriminate].
    intros t. apply word2_apart. chars_ok. }
  assert (B : avoids (word [3648; 3648]%N) s2) by (apply sub_word2; discriminate).
  split; [|split; assumption].
  rewrite (sub_word2_fixed _ _ _ s2 A). apply (sub_word2_fixed _ _ _ s2 B).
Qed.

(** *** Lengths *)

Lemma Subst_shrinks (pat : pattern) (repl : Py.str) (sol : bool) (s out : Py.str) :
  (forall sol b n, match_here pat sol b = Some (S n) -> (length repl <= S n)%nat) ->
  Subst pat repl sol s out -> (length out <= length s)%nat.
Proof.
  intros Hm HS. induction HS as [sol|sol c s out Hno HS IH|sol m rest out Hne Hmatch HS IH].
  - reflexivity.
  - simpl. lia.
  - rewrite !length_app. destruct m as [|c m]; [congruence|].
    pose proof (Hm sol ((c :: m) ++ rest)%list (length m) Hmatch) as Hle.
    cbn [length]. lia.
Qed.

Lemma sub_erase_shrinks (pat : pattern) (s : Py.str) :
  (length (sub pat [] s) <= length s)%nat.
Proof.
  apply (Subst_shrinks pat [] true s); [|apply sub_Subst]. intros; simpl; lia.
Qed.

Lemma sub_run_shrinks (p : N -> bool) (l : nat) (repl s : Py.str) :
  (length repl <= l)%nat -> (length (sub (run_pattern p l) repl s) <= length s)%nat.
Proof.
  intros Hl. apply (Subst_shrinks (run_pattern p l) repl true s); [|apply sub_Subst].
  intros sol b n. rewrite match_run.
  destruct (l <=? run_len p b)%nat eqn:Hle; [|discriminate].
  apply Nat.leb_le in Hle. intros [= Hn]. lia.
Qed.

Lemma sub_word2_shrinks (a b r : N) (s : Py.str) :
  (length (sub (Pat false [chr a; chr b] false) [r] s) <= length s)%nat.
Proof.
  apply (Subst_shrinks (Pat false [chr a; chr b] false) [r] true s); [|apply sub_Subst].
  intros sol u n. rewrite match_chr2.
  destruct u as [|x [|y u]]; try discriminate.
  destruct ((a =? x) && (b =? y))%N; [|discriminate]. intros [= <-]. simpl. lia.
Qed.

Lemma strip_length (s : Py.str) : (length (Py.strip s) <= length s)%nat.
Proof.
  destruct (strip_factor s) as (a & b & Hs). rewrite Hs at 2.
  rewrite !length_app. lia.
Qed.

Lemma split_lines_not_nil (s : Py.str) : Py.split_lines s <> [].
Proof.
  destruct s as [|c s]; simpl; [discriminate|].
  destruct (c =? Py.LF)%N; [discriminate|]. destruct (Py.split_lines s); discriminate.
Qed.

Lemma join_split_lines (s : Py.str) : Py.join [Py.LF] (Py.split_lines s) = s.
Proof.
  induction s as [|c s IH]; [reflexivity|]. simpl.
  pose proof (split_lines_not_nil s) as Hnn.
  destruct (Py.split_lines s) as [|l ls] eqn:Hsp; [congruence|].
  destruct (c =? Py.LF)%N eqn:Hc.
  - apply N.eqb_eq in Hc. subst c. simpl in *. congruence.
  - destruct ls; simpl in *; congruence.
Qed.

Lemma join_cons2 (sep p q : Py.str) (r : list Py.str) :
  Py.join sep (p :: q :: r) = (p ++ sep ++ Py.join sep (q :: r))%list.
Proof. reflexivity. Qed.

Lemma join_strip_length (ls : list Py.str) :
  (length (Py.join [Py.LF] (map Py.strip ls)) <= length (Py.join [Py.LF] ls))%nat.
Proof.
  induction ls as [|l ls IH]; [reflexivity|].
  pose proof (strip_length l) as Hl.
  destruct ls as [|l' ls]; [exact Hl|].
  change (map Py.strip (l :: l' :: ls))
    with (Py.strip l :: Py.strip l' :: map Py.strip ls).
  rewrite !join_cons2.
  change (Py.strip l' :: map Py.strip ls) with (map Py.strip (l' :: ls)).
  rewrite !length_app. lia.
Qed.

Lemma normalize_whitespace_shrinks (s : Py.str) :
  (length (normalize_whitespace s) <= length s)%nat.
Proof.
  unfold normalize_whitespace, patterns_to_replace. cbn [fold_left fst snd].
  change (Py.lit " ") with [32%N]. change (Py.lit "...") with [46; 46; 46]%N.
  change (Py.lit "---") with [45; 45; 45]%N.
  change (Pat false [plus (one_of [32; 9]%N)] false) with (run_pattern (one_of [32; 9]%N) 1).
  change (Pat false [at_least 3 (only Py.LF)] false) with (run_pattern (only Py.LF) 3).
  change (Pat false [at_least 4 (only 46%N)] false) with (run_pattern (only 46%N) 4).
  change (Pat false [at_least 3 (only 45%N)] false) with (run_pattern (only 45%N) 3).
  etransitivity; [apply join_strip_length|]. rewrite join_split_lines.
  etransitivity; [apply sub_run_shrinks; simpl; lia|].
  etransitivity; [apply sub_run_shrinks; simpl; lia|].
  etransitivity; [apply sub_run_shrinks; simpl; lia|].
  apply sub_run_shrinks. simpl. lia.
Qed.

End CleanerOutput.

(** X3: cleaning never makes a text longer, whatever the flags. *)
Theorem clean_never_longer (text : Py.str) (remove_page_numbers fix_ocr : bool) :
  (length (TextCleaner.clean_with text remove_page_numbers fix_ocr) <= length text)%nat.
Proof.
  destruct text as [|c text]; [reflexivity|].
  unfold TextCleaner.clean_with.
  set (s0 := c :: text).
  set (s1 := TextCleaner.remove_special_chars s0).
  assert (H1 : (length s1 <= length s0)%nat).
  { unfold s1, TextCleaner.remove_special_chars, TextCleaner.patterns_to_remove.
    cbn [fold_left]. repeat (etransitivity; [apply sub_erase_shrinks|]). reflexivity. }
  set (s2 := if fix_ocr then TextCleaner.fix_common_ocr_errors s1 else s1).
  assert (H2 : (length s2 <= length s1)%nat).
  { unfold s2. destruct fix_ocr; [|reflexivity].
    unfold TextCleaner.fix_common_ocr_errors, TextCleaner.ocr_fixes.
    cbn [fold_left fst snd].
    etransitivity; [apply sub_word2_shrinks|]. apply sub_word2_shrinks. }
  set (s3 := if remove_page_numbers
             then TextCleaner.remove_headers_footers (TextCleaner.remove_page_numbers s2)
             else s2).
  assert (H3 : (length s3 <= length s2)%nat).
  { unfold s3. destruct remove_page_numbers; [|reflexivity].
    unfold TextCleaner.remove_headers_footers, TextCleaner.footer_patterns,
      TextCleaner.remove_page_numbers, TextCleaner.page_patterns.
    cbn [fold_left]. repeat (etransitivity; [apply sub_erase_shrinks|]). reflexivity. }
  pose proof (normalize_whitespace_shrinks s3) as H4.
  pose proof (strip_length (TextCleaner.normalize_whitespace s3)) as H5.
  lia.
Qed.

(** *** The characters of the output *)

Section CleanerChars.
Import Re ReSpec TextCleaner.

Ltac chars_ok := repeat constructor; try discriminate; try (vm_compute; reflexivity).

Lemma join_Forall (Q : N -> Prop) (sep : Py.str) (ls : list Py.str) :
  Forall Q sep -> Forall (Forall Q) ls -> Forall Q (Py.join sep ls).
Proof.
  intros Hsep. induction ls as [|l ls IH]; intros Hls; [constructor|].
  apply Forall_cons_1 in Hls as [Hl Hls].
  destruct ls as [|l' ls]; [exact Hl|]. rewrite join_cons2.
  apply Forall_app. split; [exact Hl|]. apply Forall_app. split; [exact Hsep | exact (IH Hls)].
Qed.

Lemma join_Forall_inv (Q : N -> Prop) (sep : Py.str) (ls : list Py.str) :
  Forall Q (Py.join sep ls) -> Forall (Forall Q) ls.
Proof.
  induction ls as [|l ls IH]; intros H; [constructor|].
  destruct ls as [|l' ls]; [repeat constructor; exact H|]. rewrite join_cons2 in H.
  apply Forall_app in H as [Hl H]. apply Forall_app in H as [_ H].
  constructor; [exact Hl | exact (IH H)].
Qed.

Lemma strip_lines_Forall (Q : N -> Prop) (s : Py.str) :
  Q Py.LF -> Forall Q s -> Forall Q (Py.join [Py.LF] (map Py.strip (Py.split_lines s))).
Proof.
  intros Hlf Hs. apply join_Forall; [repeat constructor; exact Hlf|].
  rewrite <- (join_split_lines s) in Hs. apply join_Forall_inv in Hs.
  induction Hs as [|l ls Hl Hls IH]; simpl; constructor; [apply strip_Forall; exact Hl | exact IH].
Qed.

Lemma normalize_whitespace_Forall (Q : N -> Prop) (s : Py.str) :
  Q Py.LF -> Q 32%N -> Q 46%N -> Q 45%N -> Forall Q s ->
  Forall Q (normalize_whitespace s).
Proof.
  intros Hlf Hsp Hdot Hdash Hs.
  unfold normalize_whitespace, patterns_to_replace. cbn [fold_left fst snd].
  apply strip_lines_Forall; [exact Hlf|].
  repeat (apply sub_Forall; [repeat constructor; assumption|]). exact Hs.
Qed.

Lemma normalize_whitespace_no_tab (s : Py.str) :
  Forall (fun c => c <> 9%N) (normalize_whitespace s).
Proof.
  unfold normalize_whitespace, patterns_to_replace. cbn [fold_left fst snd].
  apply strip_lines_Forall; [discriminate|].
  do 3 (apply sub_Forall; [chars_ok|]).
  change (Py.lit " ") with [32%N].
  change (Pat false [plus (one_of [32; 9]%N)] false) with (run_pattern (one_of [32; 9]%N) 1).
  pose proof (Subst_run_all (one_of [32; 9]%N) [32%N] true s _ (sub_Subst _ _ s)) as Hall.
  revert Hall. apply List.Forall_impl. intros c Hc ->.
  specialize (Hc eq_refl). apply list_elem_of_singleton in Hc. discriminate.
Qed.

Lemma before_normalize_Forall (Q : N -> Prop) (s : Py.str) (rp ocr : bool) :
  Q 3635%N -> Q 3649%N -> Forall Q s ->
  Forall Q (let s2 := if ocr then fix_common_ocr_errors s else s in
            if rp then remove_headers_footers (remove_page_numbers s2) else s2).
Proof.
  intros H1 H2 Hs. cbv zeta.
  assert (Hocr : Forall Q (if ocr then fix_common_ocr_errors s else s)).
  { destruct ocr; [|exact Hs]. unfold fix_common_ocr_errors, ocr_fixes.
    cbn [fold_left fst snd].
    repeat (apply sub_Forall; [repeat constructor; assumption|]). exact Hs. }
  destruct rp; [|exact Hocr].
  unfold remove_headers_footers, footer_patterns, remove_page_numbers, page_patterns.
  cbn [fold_left]. repeat (apply sub_Forall; [constructor|]). exact Hocr.
Qed.

Lemma clean_with_chars (text : Py.str) (rp ocr : bool) :
  Forall (fun c => ~ never_in_clean c) (clean_with text rp ocr).
Proof.
  destruct text as [|c0 text]; [constructor|].
  unfold clean_with. set (s0 := c0 :: text). apply strip_Forall.
  set (s1 := remove_special_chars s0).
  assert (H1 : Forall (fun c => c <> 0%N /\ c <> 12%N /\ c <> 13%N) s1).
  { unfold s1. rewrite remove_special_chars_as_filter.
    apply List.Forall_forall. intros c Hc. apply filter_In in Hc as [_ Hc].
    apply negb_true_iff in Hc. unfold one_of in Hc. cbn [existsb] in Hc.
    repeat split; intros ->; discriminate Hc. }
  apply before_normalize_Forall with (rp := rp) (ocr := ocr) in H1;
    [|repeat split; discriminate..].
  cbv zeta in H1.
  set (s3 := if rp then _ else _) in *.
  pose proof H1 as H4.
  apply normalize_whitespace_Forall in H4; [|repeat split; discriminate..].
  pose proof (normalize_whitespace_no_tab s3) as H5.
  rewrite List.Forall_forall in H4, H5. apply List.Forall_forall.
  intros c Hc [-> | [-> | [-> | ->]]];
    solve [ destruct (H4 _ Hc) as (Ha & Hb & Hd); congruence | exact (H5 _ Hc eq_refl) ].
Qed.

Lemma clean_with_stripped (text : Py.str) (rp ocr : bool) :
  Py.strip (clean_with text rp ocr) = clean_with text rp ocr.
Proof. destruct text; [reflexivity|]. unfold clean_with. apply strip_idem. Qed.

End CleanerChars.

(** X4: whatever the flags, the output of [clean] holds no NUL, form
    feed, carriage return or tab, and is stripped: stripping it again
    changes nothing and it does not start with whitespace. *)
Theorem clean_output_plain (text : Py.str) (remove_page_numbers fix_ocr : bool) :
  let out := TextCleaner.clean_with text remove_page_numbers fix_ocr in
  Forall (fun c => c <> 0%N /\ c <> 12%N /\ c <> 13%N /\ c <> 9%N) out
  /\ Py.strip out = out
  /\ match out with
     | c :: _ => Py.isspace c = false
     | [] => True
     end.
Proof.
  intros out. split; [|split].
  - pose proof (clean_with_chars text remove_page_numbers fix_ocr) as H.
    fold out in H. revert H. apply List.Forall_impl. intros c Hc.
    unfold never_in_clean in Hc. repeat split; intros ->; apply Hc; auto.
  - apply clean_with_stripped.
  - pose proof (clean_with_stripped text remove_page_numbers fix_ocr) as H. fold out in H.
    rewrite <- H. unfold Py.strip.
    pose proof (lstrip_head out) as Hh. destruct (Py.lstrip out) as [|x u]; [exact I|].
    rewrite (rstrip_cons_nonspace x u Hh). exact Hh.
Qed.

(** *** Blank input *)

Section CleanerBlank.
Import Re ReSpec TextCleaner.

Ltac needs_class :=
  unfold requires; simpl;
  repeat first
    [ apply Exists_cons_hd; split; [simpl; lia | simpl; intros ? Hc; exact Hc]
    | apply Exists_cons_tl ].

Lemma isspace_enum (c : N) : Py.isspace c = true -> In c whitespace_chars.
Proof.
  unfold Py.isspace, whitespace_chars. intros H.
  repeat rewrite ?orb_true_iff, ?andb_true_iff, ?N.leb_le, ?N.eqb_eq in H.
  cbn [In]. lia.
Qed.

Lemma isspace_excludes (f : N -> bool) :
  forallb (fun c => negb (f c)) whitespace_chars = true ->
  forall c, Py.isspace c = true -> f c = false.
Proof.
  intros Hall c Hc. rewrite forallb_forall in Hall.
  apply negb_true_iff. apply Hall. apply isspace_enum. exact Hc.
Qed.

Lemma blank_lacks (f : N -> bool) (s : Py.str) :
  forallb (fun c => negb (f c)) whitespace_chars = true ->
  Forall (fun c => Py.isspace c = true) s -> Forall (fun c => f c = false) s.
Proof.
  intros Hall. apply List.Forall_impl. intros c. apply isspace_excludes. exact Hall.
Qed.

Lemma lstrip_blank (s : Py.str) :
  Forall (fun c => Py.isspace c = true) s -> Py.lstrip s = [].
Proof.
  induction 1 as [|c s Hc Hs IH]; [reflexivity|]. simpl. rewrite Hc. exact IH.
Qed.

Lemma strip_blank (s : Py.str) :
  Forall (fun c => Py.isspace c = true) s -> Py.strip s = [].
Proof. intros Hs. unfold Py.strip. rewrite (lstrip_blank s Hs). reflexivity. Qed.

Lemma clean_with_blank (text : Py.str) (rp ocr : bool) :
  Forall (fun c => Py.isspace c = true) text -> clean_with text rp ocr = [].
Proof.
  intros Hs. destruct text as [|c0 text]; [reflexivity|].
  unfold clean_with. set (s0 := c0 :: text) in *. apply strip_blank.
  assert (H1 : Forall (fun c => Py.isspace c = true) (remove_special_chars s0)).
  { unfold remove_special_chars, patterns_to_remove. cbn [fold_left].
    repeat (apply sub_Forall; [constructor|]). exact Hs. }
  set (s1 := remove_special_chars s0) in *.
  assert (H2 : (if ocr then fix_common_ocr_errors s1 else s1) = s1).
  { destruct ocr; [|reflexivity].
    unfold fix_common_ocr_errors, ocr_fixes. cbn [fold_left fst snd].
    rewrite (sub_needs (N.eqb 0xe4d) _ _ s1)
      by (first [apply blank_lacks; [vm_compute; reflexivity | exact H1] | needs_class]).
    rewrite (sub_needs (N.eqb 0xe40) _ _ s1)
      by (first [apply blank_lacks; [vm_compute; reflexivity | exact H1] | needs_class]).
    reflexivity. }
  cbv zeta. rewrite H2.
  assert (Hd : Forall (fun c => Py.isdecimal c = false) s1).
  { apply blank_lacks; [vm_compute; reflexivity | exact H1]. }
  assert (H3 : (if rp then remove_headers_footers (remove_page_numbers s1) else s1) = s1).
  { destruct rp; [|reflexivity].
    rewrite (remove_page_numbers_no_digit s1 Hd). exact (remove_headers_footers_no_digit s1 Hd). }
  rewrite H3. unfold normalize_whitespace, patterns_to_replace. cbn [fold_left fst snd].
  apply strip_lines_Forall; [reflexivity|].
  set (s4 := sub (Pat false [plus (one_of [32; 9]%N)] false) (Py.lit " ") s1).
  assert (H4 : Forall (fun c => Py.isspace c = true) s4).
  { apply sub_Forall; [repeat constructor | exact H1]. }
  set (s5 := sub (Pat false [at_least 3 (only Py.LF)] false) [Py.LF; Py.LF] s4).
  assert (H5 : Forall (fun c => Py.isspace c = true) s5).
  { apply sub_Forall; [repeat constructor | exact H4]. }
  rewrite (sub_needs (N.eqb 46) _ _ s5)
    by (first [apply blank_lacks; [vm_compute; reflexivity | exact H5] | needs_class]).
  rewrite (sub_needs (N.eqb 45) _ _ s5)
    by (first [apply blank_lacks; [vm_compute; reflexivity | exact H5] | needs_class]).
  exact H5.
Qed.

End CleanerBlank.

(** X5: a text made of whitespace only is cleaned to the empty string,
    whatever the flags. *)
Theorem clean_blank_is_empty (text : Py.str) (remove_page_numbers fix_ocr : bool) :
  Forall (fun c => Py.isspace c = true) text ->
  TextCleaner.clean_with text remove_page_numbers fix_ocr = [].
Proof. apply clean_with_blank. Qed.

Lemma clean_blank_is_empty_witness :
  Forall (fun c => Py.isspace c = true) [32; 10; 9; 13; 160; 10; 10; 10; 12288]%N
  /\ TextCleaner.clean_with [32; 10; 9; 13; 160; 10; 10; 10; 12288]%N true true = [].
Proof.
  assert (H : Forall (fun c => Py.isspace c = true) [32; 10; 9; 13; 160; 10; 10; 10; 12288]%N)
    by (repeat constructor).
  split; [exact H | exact (clean_blank_is_empty _ true true H)].
Defined.

(** ** ingestion/text_cleaner.py: statistics *)

Section Stats.
Import PyStr.

Lemma split_scan_bound (s : Py.str) :
  match split_scan s with
  | ([], ws) => (2 * length ws <= length s)%nat
  | (_ :: _, ws) => (2 * length ws + 1 <= length s)%nat
  end.
Proof.
  induction s as [|c s IH]; [simpl; lia|].
  cbn [split_scan]. destruct (split_scan s) as [w ws].
  destruct (Py.isspace c); destruct w; cbn [length] in *; lia.
Qed.

Lemma split_length (s : Py.str) : (2 * length (split s) <= length s + 1)%nat.
Proof.
  unfold split. pose proof (split_scan_bound s) as H.
  destruct (split_scan s) as [[|x w] ws]; cbn [length]; lia.
Qed.

Lemma split_scan_blank (s : Py.str) :
  split_scan s = ([], []) <-> Forall (fun c => Py.isspace c = true) s.
Proof.
  induction s as [|c s IH]; [split; [constructor | reflexivity]|].
  cbn [split_scan]. destruct (split_scan s) as [w ws].
  destruct (Py.isspace c) eqn:Hc.
  - split.
    + intros H. constructor; [exact Hc|]. apply IH.
      destruct w; [congruence | discriminate].
    + intros H. apply Forall_cons_1 in H as [_ H]. apply IH in H.
      injection H as -> ->. reflexivity.
  - split; [discriminate|]. intros H. apply Forall_cons_1 in H as [H _]. congruence.
Qed.

Lemma split_nil (s : Py.str) :
  split s = [] <-> Forall (fun c => Py.isspace c = true) s.
Proof.
  rewrite <- split_scan_blank. unfold split.
  destruct (split_scan s) as [[|x w] ws]; split; intros H;
    try discriminate; congruence.
Qed.

Lemma count_split_lines (s : Py.str) :
  (count Py.LF s + 1 = len (Py.split_lines s))%Z.
Proof.
  unfold len. induction s as [|c s IH]; [reflexivity|].
  cbn [count Py.split_lines]. destruct (c =? Py.LF)%N.
  - cbn [length]. lia.
  - pose proof (split_lines_not_nil s) as Hnn.
    destruct (Py.split_lines s); [congruence|]. cbn [length] in *. lia.
Qed.

Lemma count_length (c : N) (s : Py.str) : (0 <= count c s <= len s)%Z.
Proof.
  unfold len. induction s as [|x s IH]; [simpl; lia|].
  cbn [count length]. destruct (x =? c)%N; lia.
Qed.

Lemma count_pair_count (c : N) (s : Py.str) :
  (0 <= count_pair c s /\ 2 * count_pair c s <= count c s)%Z.
Proof.
  remember (length s) as n eqn:Hn. revert s Hn.
  induction n as [n IH] using lt_wf_ind. intros s Hn.
  destruct s as [|x [|y s]]; [simpl; lia | simpl; destruct (x =? c)%N; lia |].
  change (count_pair c (x :: y :: s))
    with (if ((x =? c) && (y =? c))%N then (1 + count_pair c s)%Z else count_pair c (y :: s)).
  pose proof (IH (length s) ltac:(subst n; simpl; lia) s eq_refl) as H1.
  pose proof (IH (length (y :: s)) ltac:(subst n; simpl; lia) (y :: s) eq_refl) as H2.
  cbn [count] in *.
  destruct (x =? c)%N, (y =? c)%N; cbn [andb]; lia.
Qed.

End Stats.

(** X6: the statistics of a text. The empty text has all four counts 0.
    For any other text the line count is the number of lines that
    [normalize_whitespace] splits the text into, at least one and at
    most one more than the characters; paragraphs are counted from one
    and twice their number is at most the line count plus one. Twice the
    word count is at most the character count plus one, and the word
    count is 0 exactly for a text of whitespace only. *)
Theorem get_text_stats_counts (text : Py.str) :
  let st := TextStats.get_text_stats text in
  TextStats.char_count st = len text
  /\ (0 <= TextStats.word_count st /\ 2 * TextStats.word_count st <= len text + 1)%Z
  /\ (TextStats.word_count st = 0%Z <-> Forall (fun c => Py.isspace c = true) text)
  /\ match text with
     | [] => TextStats.line_count st = 0%Z /\ TextStats.paragraph_count st = 0%Z
     | _ :: _ =>
         TextStats.line_count st = len (Py.split_lines text)
         /\ (1 <= TextStats.line_count st <= len text + 1)%Z
         /\ (1 <= TextStats.paragraph_count st)%Z
         /\ (2 * TextStats.paragraph_count st <= TextStats.line_count st + 1)%Z
     end.
Proof.
  destruct text as [|c text].
  - cbn. unfold len. cbn [length].
    repeat split; intros; first [reflexivity | lia | constructor].
  - cbv zeta.
    change (TextStats.get_text_stats (c :: text))
      with (TextStats.mk (len (c :: text)) (len (PyStr.split (c :: text)))
              (PyStr.count Py.LF (c :: text) + 1) (PyStr.count_pair Py.LF (c :: text) + 1)).
    set (s := c :: text).
    cbn [TextStats.char_count TextStats.word_count TextStats.line_count
         TextStats.paragraph_count].
    pose proof (split_length s) as Hw.
    pose proof (split_nil s) as Hz.
    pose proof (count_split_lines s) as Hl.
    pose proof (count_length Py.LF s) as Hc.
    pose proof (count_pair_count Py.LF s) as Hp.
    unfold len in *.
    repeat split; try lia.
    + intros H0. apply Hz. destruct (PyStr.split s); [reflexivity | cbn [length] in H0; lia].
    + intros Hb. apply Hz in Hb. rewrite Hb. reflexivity.
Qed.

(** ** ingestion/file_loader.py *)

Section LoaderChunks.

Lemma key_source_index : Py.lit "source" <> Py.lit "chunk_index".
Proof. vm_compute. discriminate. Qed.

Lemma key_source_page : Py.lit "source" <> Py.lit "page".
Proof. vm_compute. discriminate. Qed.

Lemma key_index_page : Py.lit "chunk_index" <> Py.lit "page".
Proof. vm_compute. discriminate. Qed.

(** The metadata of one chunk after the body of the loop. *)
Lemma add_metadata_from_cons (i : Z) (chunk : Document) (rest : list Document)
      (source_name : Py.str) :
  exists md,
    FileLoader.add_metadata_from i (chunk :: rest) source_name
    = mkDocument (page_content chunk) md
        :: FileLoader.add_metadata_from (i + 1) rest source_name
    /\ md !! Py.lit "source" = Some (VStr source_name)
    /\ md !! Py.lit "chunk_index" = Some (VInt i)
    /\ md !! Py.lit "page" = Some (default (VInt 1) (metadata chunk !! Py.lit "page"))
    /\ forall k, k ∉ stamped_keys -> md !! k = metadata chunk !! k.
Proof.
  pose proof key_source_index as H1. pose proof key_source_page as H2.
  pose proof key_index_page as H3.
  cbn [FileLoader.add_metadata_from]. cbv zeta.
  set (md := <[Py.lit "chunk_index":=VInt i]> (<[Py.lit "source":=VStr source_name]> (metadata chunk))).
  assert (Hp : md !! Py.lit "page" = metadata chunk !! Py.lit "page").
  { unfold md. rewrite !lookup_insert_ne by congruence. reflexivity. }
  assert (Hs : md !! Py.lit "source" = Some (VStr source_name)).
  { unfold md. rewrite lookup_insert_ne by congruence. apply lookup_insert_eq. }
  assert (Hi : md !! Py.lit "chunk_index" = Some (VInt i)).
  { unfold md. apply lookup_insert_eq. }
  assert (Hk0 : forall k, k ∉ stamped_keys -> md !! k = metadata chunk !! k).
  { intros k Hk. unfold stamped_keys in Hk.
    rewrite !not_elem_of_cons in Hk. destruct Hk as (Ha & Hb & Hc & _).
    unfold md. rewrite !lookup_insert_ne by congruence. reflexivity. }
  destruct (md !! Py.lit "page") as [p|] eqn:Hpage.
  - exists md. rewrite <- Hp. repeat split; try assumption.
  - eexists. split; [reflexivity|]. rewrite <- Hp.
    repeat split.
    + rewrite lookup_insert_ne by congruence. exact Hs.
    + rewrite lookup_insert_ne by congruence. exact Hi.
    + apply lookup_insert_eq.
    + intros k Hk. pose proof Hk as Hk'. unfold stamped_keys in Hk'.
      rewrite !not_elem_of_cons in Hk'. destruct Hk' as (_ & _ & Hc & _).
      rewrite lookup_insert_ne by congruence. exact (Hk0 k Hk).
Qed.

Lemma add_metadata_from_length (i : Z) (chunks : list Document) (source_name : Py.str) :
  length (FileLoader.add_metadata_from i chunks source_name) = length chunks.
Proof.
  revert i. induction chunks as [|c cs IH]; intros i; [reflexivity|].
  destruct (add_metadata_from_cons i c cs source_name) as (md & -> & _).
  cbn [length]. rewrite IH. reflexivity.
Qed.

Lemma add_metadata_from_lookup (j : Z) (chunks : list Document) (source_name : Py.str)
      (i : nat) (chunk : Document) :
  chunks !! i = Some chunk ->
  exists d,
    FileLoader.add_metadata_from j chunks source_name !! i = Some d
    /\ page_content d = page_content chunk
    /\ metadata d !! Py.lit "source" = Some (VStr source_name)
    /\ metadata d !! Py.lit "chunk_index" = Some (VInt (j + Z.of_nat i))
    /\ metadata d !! Py.lit "page"
       = Some (default (VInt 1) (metadata chunk !! Py.lit "page"))
    /\ forall k, k ∉ stamped_keys -> metadata d !! k = metadata chunk !! k.
Proof.
  revert j i. induction chunks as [|c cs IH]; intros j i Hi; [discriminate|].
  destruct (add_metadata_from_cons j c cs source_name) as (md & -> & Hs & Hx & Hp & Hk).
  destruct i as [|i].
  - injection Hi as ->. exists (mkDocument (page_content chunk) md).
    replace (j + Z.of_nat 0)%Z with j by lia. repeat split; assumption.
  - destruct (IH (j + 1)%Z i Hi) as (d & Hd & Hrest).
    exists d. split; [exact Hd|].
    replace (j + Z.of_nat (S i))%Z with (j + 1 + Z.of_nat i)%Z by lia. exact Hrest.
Qed.

Lemma add_metadata_from_indexes (j : nat) (chunks : list Document) (source_name : Py.str) :
  map chunk_index_of (FileLoader.add_metadata_from (Z.of_nat j) chunks source_name)
  = map (fun i => Some (VInt (Z.of_nat i))) (seq j (length chunks)).
Proof.
  revert j. induction chunks as [|c cs IH]; intros j; [reflexivity|].
  destruct (add_metadata_from_cons (Z.of_nat j) c cs source_name) as (md & -> & _ & Hx & _).
  cbn [map length seq]. f_equal; [exact Hx|].
  replace (Z.of_nat j + 1)%Z with (Z.of_nat (S j)) by lia. apply IH.
Qed.

Lemma add_metadata_from_stamped (j : Z) (chunks : list Document) (source_name : Py.str) :
  Forall (stamped source_name) (FileLoader.add_metadata_from j chunks source_name).
Proof.
  revert j. induction chunks as [|c cs IH]; intros j; [constructor|].
  destruct (add_metadata_from_cons j c cs source_name) as (md & -> & Hs & _ & Hp & _).
  constructor; [|apply IH]. split; [exact Hs|]. cbn [metadata]. rewrite Hp. eauto.
Qed.

Lemma clean_chunks_metadata (chunks : list Document) :
  sublist (map metadata (FileLoader.clean_chunks chunks)) (map metadata chunks).
Proof.
  induction chunks as [|c cs IH]; [constructor|].
  cbn [FileLoader.clean_chunks map]. cbv zeta.
  destruct (Py.strip (TextCleaner.clean (page_content c))).
  - apply sublist_cons. exact IH.
  - cbn [map metadata]. apply sublist_skip. exact IH.
Qed.

Lemma sublist_map {A B} (f : A -> B) (l k : list A) :
  sublist l k -> sublist (map f l) (map f k).
Proof. induction 1; cbn [map]; [constructor | apply sublist_skip | apply sublist_cons]; assumption. Qed.

Lemma clean_chunks_indexes (chunks : list Document) :
  sublist (map chunk_index_of (FileLoader.clean_chunks chunks)) (map chunk_index_of chunks).
Proof.
  pose proof (sublist_map (fun md : gmap Py.str pyval => md !! Py.lit "chunk_index") _ _
                (clean_chunks_metadata chunks)) as H.
  rewrite !map_map in H. exact H.
Qed.

Lemma clean_chunks_stamped (name : Py.str) (chunks : list Document) :
  Forall (stamped name) chunks -> Forall (stamped name) (FileLoader.clean_chunks chunks).
Proof.
  induction 1 as [|c cs Hc Hcs IH]; [constructor|].
  cbn [FileLoader.clean_chunks]. cbv zeta.
  destruct (Py.strip (TextCleaner.clean (page_content c))); [exact IH|].
  constructor; [exact Hc | exact IH].
Qed.

Lemma clean_chunks_length (chunks : list Document) :
  (length (FileLoader.clean_chunks chunks) <= length chunks)%nat.
Proof.
  induction chunks as [|c cs IH]; [reflexivity|].
  cbn [FileLoader.clean_chunks]. cbv zeta.
  destruct (Py.strip (TextCleaner.clean (page_content c))); cbn [length]; lia.
Qed.

End LoaderChunks.

(** X7: [add_metadata] keeps the number, the order and the text of the
    chunks. The chunk at position [i] gets the file name as its source
    and [i] as its chunk index; its page is kept when it has one and is
    1 otherwise; no other key of its metadata changes. (Each chunk has a
    metadata dict of its own, as the splitter makes them.) *)
Theorem add_metadata_stamps (chunks : list Document) (source_name : Py.str)
        (i : nat) (chunk : Document) :
  chunks !! i = Some chunk ->
  length (FileLoader.add_metadata chunks source_name) = length chunks
  /\ exists d,
       FileLoader.add_metadata chunks source_name !! i = Some d
       /\ page_content d = page_content chunk
       /\ metadata d !! Py.lit "source" = Some (VStr source_name)
       /\ metadata d !! Py.lit "chunk_index" = Some (VInt (Z.of_nat i))
       /\ metadata d !! Py.lit "page"
          = Some (default (VInt 1) (metadata chunk !! Py.lit "page"))
       /\ forall k, k ∉ stamped_keys -> metadata d !! k = metadata chunk !! k.
Proof.
  intros Hi. split; [apply add_metadata_from_length|].
  exact (add_metadata_from_lookup 0 chunks source_name i chunk Hi).
Qed.

Lemma add_metadata_stamps_witness :
  length (FileLoader.add_metadata ExFiles.pages (Py.lit "notes.txt")) = 3%nat
  /\ exists d,
       FileLoader.add_metadata ExFiles.pages (Py.lit "notes.txt") !! 2%nat = Some d
       /\ page_content d = Py.lit "third"
       /\ metadata d !! Py.lit "source" = Some (VStr (Py.lit "notes.txt"))
       /\ metadata d !! Py.lit "chunk_index" = Some (VInt 2)
       /\ metadata d !! Py.lit "page" = Some (VInt 7).
Proof.
  destruct (add_metadata_stamps ExFiles.pages (Py.lit "notes.txt") 2
              (mkDocument (Py.lit "third") (<[ Py.lit "page" := VInt 7 ]> ∅)) eq_refl)
    as (Hlen & d & Hd & Hc & Hs & Hx & Hp & _).
  split; [exact Hlen|]. exists d. repeat split; assumption.
Defined.

Section LoaderSteps.
Context {E : Type} `{!FileSystem E}.

(** What [load_and_split] gives when it returns: the loader and the
    splitter were called, in this order, both answered, and the chunks
    that the splitter returned went through [add_metadata] and, when
    asked, [clean_chunks]. *)
Lemma load_and_split_returns (file_path : Py.str) (clean : bool) (w w' : World E)
      (chunks : list Document) :
  FileLoader.load_and_split file_path clean w = (Ok chunks, w') ->
  exists loader pages raw e1 e2,
    loader_load loader file_path (env w) = (Ok pages, e1)
    /\ splitter_split_documents pages e1 = (Ok raw, e2)
    /\ w' = mkWorld e2 (trace w ++ [EvLoad loader file_path; EvSplit pages])
    /\ chunks = (let stamped := FileLoader.add_metadata raw (path_name file_path) in
                 if clean then FileLoader.clean_chunks stamped else stamped).
Proof.
  unfold FileLoader.load_and_split, bind at 1.
  assert (Hload : exists loader,
            FileLoader.load_document file_path
            = call (EvLoad loader file_path) (loader_load loader file_path)
            \/ exists msg, FileLoader.load_document file_path = raise msg).
  { unfold FileLoader.load_document.
    repeat (case_bool_decide; [eexists; left; reflexivity|]).
    exists TextLoader. right. eexists. reflexivity. }
  destruct Hload as [loader [-> | [msg ->]]]; [|discriminate].
  unfold call at 1.
  destruct (loader_load loader file_path (env w)) as [[pages|e] e1] eqn:Hl; [|discriminate].
  unfold bind at 1, FileLoader.split_documents, call at 1. cbn [env trace].
  destruct (splitter_split_documents pages e1) as [[raw|e] e2] eqn:Hsp; [|discriminate].
  unfold ret. intros H. injection H as <- <-.
  exists loader, pages, raw, e1, e2. rewrite <- app_assoc.
  split; [exact Hl|]. split; [exact Hsp|]. split; reflexivity.
Qed.

Lemma process_file_rejects (file_path : Py.str) (w : World E) :
  FileLoader.is_supported file_path = false \/ path_exists file_path (env w) = false ->
  FileLoader.process_file file_path w
  = (Ok (FileLoader.mkProcessResult false
           (Some (if FileLoader.is_supported file_path
                  then (Py.lit "ไม่พบไฟล์: " ++ file_path)%list
                  else Py.lit "ไม่รองรับไฟล์ประเภทนี้"))
           None None None []), w).
Proof.
  intros H. unfold FileLoader.process_file, try_except.
  destruct (FileLoader.is_supported file_path); [|reflexivity].
  destruct H as [H | H]; [discriminate|].
  unfold bind at 1, FileLoader.save_upload. rewrite H. reflexivity.
Qed.

Lemma process_file_succeeds (file_path : Py.str) (w w' : World E)
      (r : FileLoader.ProcessResult) :
  FileLoader.process_file file_path w = (Ok r, w') ->
  FileLoader.pr_success r = true ->
  let target := data_dir_join (path_name file_path) in
  FileLoader.is_supported file_path = true
  /\ path_exists file_path (env w) = true
  /\ (exists loader pages raw e1 e2 e3,
        shutil_copy2 file_path target (env w) = (Ok tt, e1)
        /\ loader_load loader target e1 = (Ok pages, e2)
        /\ splitter_split_documents pages e2 = (Ok raw, e3)
        /\ w' = mkWorld e3 (trace w ++ [EvCopy file_path target; EvLoad loader target;
                                        EvSplit pages])
        /\ FileLoader.pr_chunks r
           = FileLoader.clean_chunks (FileLoader.add_metadata raw (path_name target)))
  /\ FileLoader.pr_file_name r = Some (path_name target)
  /\ FileLoader.pr_saved_path r = Some target
  /\ FileLoader.pr_num_chunks r = Some (len (FileLoader.pr_chunks r))
  /\ FileLoader.pr_error r = None.
Proof.
  intros Hrun Hok target. revert Hrun.
  unfold FileLoader.process_file, try_except.
  destruct (FileLoader.is_supported file_path).
  2:{ unfold ret. intros H. injection H as <- <-. discriminate Hok. }
  unfold bind at 1, FileLoader.save_upload.
  destruct (path_exists file_path (env w)).
  2:{ unfold raise, ret. intros H. injection H as <- <-. discriminate Hok. }
  unfold bind at 1, call at 1. fold target.
  destruct (shutil_copy2 file_path target (env w)) as [[[]|e] e1] eqn:Hcopy.
  2:{ unfold ret. intros H. injection H as <- <-. discriminate Hok. }
  unfold ret at 1. unfold bind at 1.
  destruct (FileLoader.load_and_split target true _) as [[chunks|e] w1] eqn:Hls.
  2:{ unfold ret. intros H. injection H as <- <-. discriminate Hok. }
  unfold ret. intros H. injection H as <- <-.
  apply load_and_split_returns in Hls as (loader & pages & raw & e2 & e3 & Hl & Hsp & -> & ->).
  cbn [env trace] in *.
  cbn [FileLoader.pr_chunks FileLoader.pr_file_name FileLoader.pr_saved_path
       FileLoader.pr_num_chunks FileLoader.pr_error].
  split; [reflexivity|]. split; [reflexivity|].
  split; [|repeat split].
  exists loader, pages, raw, e1, e2, e3. rewrite <- app_assoc.
  repeat split; assumption.
Qed.

End LoaderSteps.

(** X8: the chunks that [load_and_split] returns all carry the name of
    the file as their source and a page. Their chunk indexes are those
    of the splitter's chunks, in order: all of [0 .. n-1] without
    cleaning, and with cleaning the ones that are left after the blank
    chunks were dropped (so they may have gaps). *)
Theorem load_and_split_chunk_indexes {E : Type} `{!FileSystem E}
        (file_path : Py.str) (clean : bool) (w : World E) (chunks : list Document) :
  returns (FileLoader.load_and_split file_path clean) w chunks ->
  Forall (stamped (path_name file_path)) chunks
  /\ exists n : nat,
       (length chunks <= n)%nat
       /\ sublist (map chunk_index_of chunks) (indexes n)
       /\ (clean = false -> map chunk_index_of chunks = indexes n).
Proof.
  unfold returns. intros Hret.
  destruct (FileLoader.load_and_split file_path clean w) as [res w'] eqn:Hrun.
  cbn [fst] in Hret. subst res.
  apply load_and_split_returns in Hrun as (loader & pages & raw & e1 & e2 & _ & _ & _ & ->).
  cbv zeta. unfold FileLoader.add_metadata.
  pose proof (add_metadata_from_stamped 0 raw (path_name file_path)) as Hst.
  pose proof (add_metadata_from_indexes 0 raw (path_name file_path)) as Hix.
  pose proof (add_metadata_from_length 0 raw (path_name file_path)) as Hlen.
  change (Z.of_nat 0) with 0%Z in Hix. fold (indexes (length raw)) in Hix.
  destruct clean.
  - split; [apply clean_chunks_stamped; exact Hst|].
    exists (length raw). split; [|split; [|discriminate]].
    + rewrite <- Hlen. apply clean_chunks_length.
    + rewrite <- Hix. apply clean_chunks_indexes.
  - split; [exact Hst|]. exists (length raw). rewrite Hlen, Hix.
    split; [lia|]. split; [reflexivity | intros _; reflexivity].
Qed.

Lemma load_and_split_chunk_indexes_witness :
  let chunks :=
    FileLoader.clean_chunks (FileLoader.add_metadata ExFiles.pages (Py.lit "notes.txt")) in
  returns (FileLoader.load_and_split ExFiles.notes true) ExFiles.disk chunks
  /\ Forall (stamped (Py.lit "notes.txt")) chunks
  /\ exists n : nat,
       (length chunks <= n)%nat
       /\ sublist (map chunk_index_of chunks) (indexes n)
       /\ (true = false -> map chunk_index_of chunks = indexes n).
Proof.
  intros chunks.
  assert (Hret : returns (FileLoader.load_and_split ExFiles.notes true) ExFiles.disk chunks)
    by (vm_compute; reflexivity).
  split; [exact Hret|].
  exact (load_and_split_chunk_indexes ExFiles.notes true ExFiles.disk chunks Hret).
Defined.

(** X9: a file with an extension that is not supported, or a file that
    does not exist, is reported as a failure with the message for it,
    without any call to the file system, the loader or the splitter:
    nothing is copied and the world is as before. *)
Theorem process_file_rejected {E : Type} `{!FileSystem E}
        (file_path : Py.str) (w : World E) :
  FileLoader.is_supported file_path = false \/ path_exists file_path (env w) = false ->
  FileLoader.process_file file_path w
  = (Ok (FileLoader.mkProcessResult false
           (Some (if FileLoader.is_supported file_path
                  then (Py.lit "ไม่พบไฟล์: " ++ file_path)%list
                  else Py.lit "ไม่รองรับไฟล์ประเภทนี้"))
           None None None []), w).
Proof. apply process_file_rejects. Qed.

Lemma process_file_rejected_witness :
  FileLoader.process_file (Py.lit "in/notes.exe") ExFiles.disk
  = (Ok (FileLoader.mkProcessResult false (Some (Py.lit "ไม่รองรับไฟล์ประเภทนี้"))
           None None None []), ExFiles.disk)
  /\ FileLoader.process_file (Py.lit "in/other.txt") ExFiles.disk
     = (Ok (FileLoader.mkProcessResult false (Some (Py.lit "ไม่พบไฟล์: in/other.txt"))
              None None None []), ExFiles.disk).
Proof.
  assert (H1 : FileLoader.is_supported (Py.lit "in/notes.exe") = false)
    by (vm_compute; reflexivity).
  assert (H2 : path_exists (Py.lit "in/other.txt") (env ExFiles.disk) = false)
    by (vm_compute; reflexivity).
  split.
  - rewrite (process_file_rejected (Py.lit "in/notes.exe") ExFiles.disk (or_introl H1)).
    rewrite H1. reflexivity.
  - rewrite (process_file_rejected (Py.lit "in/other.txt") ExFiles.disk (or_intror H2)).
    vm_compute. reflexivity.
Defined.

(** X10: when [process_file] reports success, the file was supported and
    existed, and exactly three calls were made and answered: the copy to
    the data directory, the load of the copy (not of the original) and
    the split of the loaded pages. The result names the copy, its chunks
    are the chunks that the splitter returned, stamped and cleaned, and
    [num_chunks] is their number. *)
Theorem process_file_success_steps {E : Type} `{!FileSystem E}
        (file_path : Py.str) (w w' : World E) (r : FileLoader.ProcessResult) :
  FileLoader.process_file file_path w = (Ok r, w') ->
  FileLoader.pr_success r = true ->
  let target := data_dir_join (path_name file_path) in
  FileLoader.is_supported file_path = true
  /\ path_exists file_path (env w) = true
  /\ (exists loader pages raw e1 e2 e3,
        shutil_copy2 file_path target (env w) = (Ok tt, e1)
        /\ loader_load loader target e1 = (Ok pages, e2)
        /\ splitter_split_documents pages e2 = (Ok raw, e3)
        /\ w' = mkWorld e3 (trace w ++ [EvCopy file_path target; EvLoad loader target;
                                        EvSplit pages])
        /\ FileLoader.pr_chunks r
           = FileLoader.clean_chunks (FileLoader.add_metadata raw (path_name target)))
  /\ FileLoader.pr_file_name r = Some (path_name target)
  /\ FileLoader.pr_saved_path r = Some target
  /\ FileLoader.pr_num_chunks r = Some (len (FileLoader.pr_chunks r))
  /\ FileLoader.pr_error r = None.
Proof. apply process_file_succeeds. Qed.

Lemma process_file_success_steps_witness :
  exists r w',
    FileLoader.process_file ExFiles.notes ExFiles.disk = (Ok r, w')
    /\ FileLoader.pr_success r = true
    /\ FileLoader.pr_saved_path r = Some (Py.lit "storage/data/notes.txt")
    /\ FileLoader.pr_num_chunks r = Some 2%Z
    /\ trace w' = [EvCopy ExFiles.notes (Py.lit "storage/data/notes.txt");
                   EvLoad TextLoader (Py.lit "storage/data/notes.txt");
                   EvSplit ExFiles.pages]
    /\ FileLoader.pr_chunks r
       = FileLoader.clean_chunks (FileLoader.add_metadata ExFiles.pages (Py.lit "notes.txt")).
Proof.
  destruct (FileLoader.process_file ExFiles.notes ExFiles.disk) as [[r|e] w'] eqn:Hrun;
    [|vm_compute in Hrun; discriminate Hrun].
  assert (Hok : FileLoader.pr_success r = true).
  { vm_compute in Hrun. injection Hrun as <- _. reflexivity. }
  destruct (process_file_success_steps ExFiles.notes ExFiles.disk w' r Hrun Hok)
    as (_ & _ & (loader & pages & raw & e1 & e2 & e3 & Hcopy & Hload & Hsplit & Hw & Hchunks)
        & _ & Hpath & Hnum & _).
  assert (Htrace : trace w' = [EvCopy ExFiles.notes (Py.lit "storage/data/notes.txt");
                               EvLoad TextLoader (Py.lit "storage/data/notes.txt");
                               EvSplit ExFiles.pages]).
  { vm_compute in Hrun. injection Hrun as _ <-. reflexivity. }
  assert (Hpages : pages = ExFiles.pages).
  { rewrite Hw in Htrace. cbn [trace] in Htrace.
    apply (f_equal (fun l => nth 2 l (EvSplit []))) in Htrace.
    cbn [nth app ExFiles.disk Sim.start trace] in Htrace. congruence. }
  assert (Hraw : raw = pages).
  { cbn [splitter_split_documents Sim.file_system] in Hsplit. congruence. }
  exists r, w'. split; [reflexivity|]. split; [exact Hok|]. split; [exact Hpath|].
  split.
  { rewrite Hnum, Hchunks, Hraw, Hpages. vm_compute. reflexivity. }
  split; [exact Htrace|].
  rewrite Hchunks, Hraw, Hpages. reflexivity.
Defined.

(** ** app/engine.py: the whole chat flow *)

Section ChatFlow.
Context {E : Type} `{!VectorStore E} `{!ChatModel E} `{!FileSystem E}
        `{!PromptTemplates}.

Lemma similarity_search_events (q : Py.str) (k : option Z) (w : World E) :
  exists ds w',
    VectorDBManager.similarity_search q k w = (Ok ds, w')
    /\ trace w' = (trace w ++ [EvCount; EvSimilaritySearch q (or_int k NUM_RELEVANT_DOCS)])%list.
Proof.
  unfold VectorDBManager.similarity_search, bind.
  destruct (get_document_count_total w) as [n ->].
  unfold try_except, call, ret. cbn [env trace].
  destruct (db_similarity_search _ _ _) as [[ds|e] e']; cbn [trace];
    eexists _, _; (split; [reflexivity|]); cbn [trace]; rewrite <- app_assoc; reflexivity.
Qed.

Lemma has_documents_events (retriever : LegalRetriever.t) (w : World E) :
  exists b w',
    LegalRetriever.has_documents retriever w = (Ok b, w')
    /\ trace w' = (trace w ++ [EvCount])%list.
Proof.
  unfold LegalRetriever.has_documents, bind.
  destruct (get_document_count_total w) as [n ->]. unfold ret. eauto.
Qed.

(** One turn of the retry loop. *)
Lemma retry_loop_step (attempt : Z) (rest : list Z) (max_retries : Z) (prompt : Py.str)
      (inputs : list (Py.str * Py.str)) (w : World E) :
  LegalAIEngine.retry_loop (attempt :: rest) max_retries prompt inputs w
  = match chain_invoke prompt inputs (env w) with
    | (Ok response, e') =>
        (Ok (Some response), mkWorld e' (trace w ++ [EvInvoke prompt inputs]))
    | (Raise msg, e') =>
        if (attempt <? max_retries - 1)%Z
        then LegalAIEngine.retry_loop rest max_retries prompt inputs
               (mkWorld (time_sleep 3 e')
                        ((trace w ++ [EvInvoke prompt inputs]) ++ [EvSleep 3]))
        else (Raise msg, mkWorld e' (trace w ++ [EvInvoke prompt inputs]))
    end.
Proof.
  cbn [LegalAIEngine.retry_loop].
  unfold try_except at 1, bind at 1, LegalAIEngine.invoke, call at 1.
  destruct (chain_invoke prompt inputs (env w)) as [[response|msg] e']; [reflexivity|].
  destruct (attempt <? max_retries - 1)%Z; reflexivity.
Qed.

(** The model answers at the first, second or third attempt. *)
Lemma retry_loop_answers (j : nat) (prompt response : Py.str)
      (inputs : list (Py.str * Py.str)) (w : World E) (e' : E) :
  (j <= 2)%nat ->
  answers_after j prompt inputs (env w) = Some (response, e') ->
  LegalAIEngine.retry_loop (LegalAIEngine.range LegalAIEngine.MAX_RETRIES)
    LegalAIEngine.MAX_RETRIES prompt inputs w
  = (Ok (Some response), mkWorld e' (trace w ++ attempts j prompt inputs)).
Proof.
  intros Hj Hans.
  change (LegalAIEngine.range LegalAIEngine.MAX_RETRIES) with [0; 1; 2]%Z.
  unfold LegalAIEngine.MAX_RETRIES.
  destruct j as [|[|[|j]]]; [| | |lia]; cbn [answers_after attempts] in *.
  - rewrite retry_loop_step.
    destruct (chain_invoke prompt inputs (env w)) as [[r0|m0] e0]; [|discriminate].
    injection Hans as -> ->. reflexivity.
  - rewrite retry_loop_step.
    destruct (chain_invoke prompt inputs (env w)) as [[r0|m0] e0]; [discriminate|].
    change (0 <? 3 - 1)%Z with true. cbv iota.
    rewrite retry_loop_step. cbn [env trace].
    destruct (chain_invoke prompt inputs (time_sleep 3 e0)) as [[r1|m1] e1]; [|discriminate].
    injection Hans as -> ->. rewrite <- !app_assoc. reflexivity.
  - rewrite retry_loop_step.
    destruct (chain_invoke prompt inputs (env w)) as [[r0|m0] e0]; [discriminate|].
    change (0 <? 3 - 1)%Z with true. cbv iota.
    rewrite retry_loop_step. cbn [env trace].
    destruct (chain_invoke prompt inputs (time_sleep 3 e0)) as [[r1|m1] e1]; [discriminate|].
    change (1 <? 3 - 1)%Z with true. cbv iota.
    rewrite retry_loop_step. cbn [env trace].
    destruct (chain_invoke prompt inputs (time_sleep 3 e1)) as [[r2|m2] e2]; [|discriminate].
    injection Hans as -> ->. rewrite <- !app_assoc. reflexivity.
Qed.

(** The loop ends in one of two ways: the model answered at attempt
    [j + 1 <= 3], or it failed three times and the last failure leaves
    the loop. It never ends without a response. *)
Lemma retry_loop_outcome (prompt : Py.str) (inputs : list (Py.str * Py.str)) (w : World E) :
  (exists j response e',
      (j <= 2)%nat
      /\ answers_after j prompt inputs (env w) = Some (response, e')
      /\ LegalAIEngine.retry_loop (LegalAIEngine.range LegalAIEngine.MAX_RETRIES)
           LegalAIEngine.MAX_RETRIES prompt inputs w
         = (Ok (Some response), mkWorld e' (trace w ++ attempts j prompt inputs)))
  \/ (exists msg e',
        LegalAIEngine.retry_loop (LegalAIEngine.range LegalAIEngine.MAX_RETRIES)
          LegalAIEngine.MAX_RETRIES prompt inputs w
        = (Raise msg, mkWorld e' (trace w ++ attempts 2 prompt inputs))).
Proof.
  destruct (chain_invoke prompt inputs (env w)) as [[r0|m0] e0] eqn:H0.
  { left. exists 0%nat, r0, e0. split; [lia|].
    assert (Ha : answers_after 0 prompt inputs (env w) = Some (r0, e0))
      by (cbn [answers_after]; rewrite H0; reflexivity).
    split; [exact Ha | exact (retry_loop_answers 0 _ _ _ w e0 ltac:(lia) Ha)]. }
  destruct (chain_invoke prompt inputs (time_sleep 3 e0)) as [[r1|m1] e1] eqn:H1.
  { left. exists 1%nat, r1, e1. split; [lia|].
    assert (Ha : answers_after 1 prompt inputs (env w) = Some (r1, e1))
      by (cbn [answers_after]; rewrite H0, H1; reflexivity).
    split; [exact Ha | exact (retry_loop_answers 1 _ _ _ w e1 ltac:(lia) Ha)]. }
  destruct (chain_invoke prompt inputs (time_sleep 3 e1)) as [[r2|m2] e2] eqn:H2.
  { left. exists 2%nat, r2, e2. split; [lia|].
    assert (Ha : answers_after 2 prompt inputs (env w) = Some (r2, e2))
      by (cbn [answers_after]; rewrite H0, H1, H2; reflexivity).
    split; [exact Ha | exact (retry_loop_answers 2 _ _ _ w e2 ltac:(lia) Ha)]. }
  right. exists m2, e2.
  change (LegalAIEngine.range LegalAIEngine.MAX_RETRIES) with [0; 1; 2]%Z.
  unfold LegalAIEngine.MAX_RETRIES.
  rewrite retry_loop_step, H0. change (0 <? 3 - 1)%Z with true. cbv iota.
  rewrite retry_loop_step. cbn [env trace]. rewrite H1.
  change (1 <? 3 - 1)%Z with true. cbv iota.
  rewrite retry_loop_step. cbn [env trace]. rewrite H2.
  change (2 <? 3 - 1)%Z with false. cbv iota.
  cbn [attempts]. rewrite <- !app_assoc. reflexivity.
Qed.

Lemma attempts_shape (j : nat) (prompt : Py.str) (inputs : list (Py.str * Py.str)) :
  forallb asks_only (attempts j prompt inputs) = true
  /\ length (List.filter is_invoke (attempts j prompt inputs)) = S j
  /\ length (List.filter is_sleep (attempts j prompt inputs)) = j
  /\ forall t i, In (EvInvoke t i) (attempts j prompt inputs) -> t = prompt /\ i = inputs.
Proof.
  induction j as [|j (IH1 & IH2 & IH3 & IH4)]; cbn [attempts].
  - split; [reflexivity|]. split; [reflexivity|]. split; [reflexivity|].
    intros t0 i0 [Heq | []]. injection Heq as <- <-. split; reflexivity.
  - cbn [forallb List.filter asks_only is_invoke is_sleep andb length].
    split; [exact IH1|]. split; [congruence|]. split; [congruence|].
    intros t0 i0 [Heq | [Heq | Hin]];
      [injection Heq as <- <-; split; reflexivity | discriminate | exact (IH4 t0 i0 Hin)].
Qed.

End ChatFlow.

Section ChatCases.
Context {E : Type} `{!VectorStore E} `{!ChatModel E} `{!FileSystem E}
        `{!PromptTemplates}.

Variable retriever : LegalRetriever.t.
Variables question prompt_type : Py.str.
Variable w : World E.

(** The chunks were found: what [chat] does from there on. *)
Lemma chat_with_chunks (w1 w2 : World E) (doc : Document) (docs : list Document) :
  LegalRetriever.has_documents retriever w = (Ok true, w1) ->
  LegalRetriever.retrieve retriever question (Some NUM_RELEVANT_DOCS) w1
  = (Ok (doc :: docs), w2) ->
  let found := doc :: docs in
  let inputs := LegalAIEngine.chat_inputs (LegalRetriever.format_context found) question in
  LegalAIEngine.chat retriever question prompt_type w
  = try_except
      (let! prompt_template := lift (get_prompt_template prompt_type) in
       let! prompt := lift (from_template prompt_template) in
       let! response :=
         LegalAIEngine.retry_loop (LegalAIEngine.range LegalAIEngine.MAX_RETRIES)
           LegalAIEngine.MAX_RETRIES prompt inputs in
       match response with
       | None => raise (Py.lit "object of type 'NoneType' has no len()")
       | Some response =>
           let! final_response := lift (format_response_with_disclaimer response) in
           ret (LegalAIEngine.mkChatResult true final_response
                  (LegalAIEngine.chat_sources found) (Some true)
                  (Some (len (LegalAIEngine.chat_sources found))) None)
       end)%py
      (fun e => ret (LegalAIEngine.mkChatResult false (LegalAIEngine.ERROR_PREFIX ++ e)%list
                       [] None None (Some e)))
      w2.
Proof.
  intros Hhas Hret found inputs.
  unfold LegalAIEngine.chat, try_except.
  erewrite bind_Ok by exact Hhas. change (negb true) with false. cbv iota.
  erewrite bind_Ok by exact Hret. reflexivity.
Qed.

End ChatCases.

Section ChatTheorems.
Context {E : Type} `{!VectorStore E} `{!ChatModel E} `{!FileSystem E}
        `{!PromptTemplates}.

Ltac in_cases H :=
  cbn [In attempts app] in H;
  repeat (destruct H as [H | H]); try discriminate H; try contradiction.

Ltac invoked_with Hfound :=
  let t := fresh "t" in
  let i := fresh "i" in
  let Hin := fresh "Hin" in
  intros t i Hin; in_cases Hin; injection Hin as _ <-;
  eexists _, _; (split; [exact Hfound | reflexivity]).

Ltac calls_ok :=
  cbn [forallb asks_only andb List.filter is_invoke is_sleep length existsb orb app attempts];
  split; [reflexivity|]; split; [lia|]; split; [lia|].

Ltac failed_result :=
  cbn [LegalAIEngine.success LegalAIEngine.has_context LegalAIEngine.sources
       LegalAIEngine.num_sources LegalAIEngine.error];
  split; [intros Hs; discriminate Hs | intros _; split; reflexivity].

Ltac good_result Hfound :=
  cbn [LegalAIEngine.success LegalAIEngine.has_context LegalAIEngine.sources
       LegalAIEngine.num_sources LegalAIEngine.error];
  split; [intros _ | intros Hs; discriminate Hs];
  split; [reflexivity|];
  split; [eexists _, _; split; [exact Hfound | reflexivity]|];
  split; [unfold LegalAIEngine.chat_sources; cbn [map]; discriminate|];
  split; [reflexivity|]; split; reflexivity.

Lemma chat_outcome (retriever : LegalRetriever.t) (question prompt_type : Py.str)
      (w : World E) :
  exists r w' evs,
    LegalAIEngine.chat retriever question prompt_type w = (Ok r, w')
    /\ trace w' = (trace w ++ evs)%list
    /\ forallb asks_only evs = true
    /\ (length (List.filter is_invoke evs) <= 3)%nat
    /\ (length (List.filter is_sleep evs) <= 2)%nat
    /\ (forall t i, In (EvInvoke t i) evs ->
          exists doc docs,
            chat_retrieved retriever question w (doc :: docs)
            /\ i = LegalAIEngine.chat_inputs (LegalRetriever.format_context (doc :: docs))
                     question)
    /\ (LegalAIEngine.success r = true ->
          LegalAIEngine.has_context r = Some true
          /\ (exists doc docs,
                chat_retrieved retriever question w (doc :: docs)
                /\ LegalAIEngine.sources r = LegalAIEngine.chat_sources (doc :: docs))
          /\ LegalAIEngine.sources r <> []
          /\ LegalAIEngine.num_sources r = Some (len (LegalAIEngine.sources r))
          /\ LegalAIEngine.error r = None
          /\ existsb is_invoke evs = true)
    /\ (LegalAIEngine.success r = false ->
          LegalAIEngine.sources r = [] /\ LegalAIEngine.num_sources r = None).
Proof.
  destruct (has_documents_events retriever w) as (b & w1 & Hhas & Htr1).
  destruct b.
  2:{ eexists _, w1, [EvCount]. split.
      { unfold LegalAIEngine.chat. erewrite try_except_Ok; [reflexivity|].
        erewrite bind_Ok by exact Hhas. reflexivity. }
      split; [exact Htr1|]. calls_ok.
      split; [intros t i Hin; in_cases Hin | failed_result]. }
  destruct (similarity_search_events question
              (Some (or_int (Some NUM_RELEVANT_DOCS) (LegalRetriever.default_k retriever))) w1)
    as (ds & w2 & Hret & Htr2).
  change (VectorDBManager.similarity_search question
            (Some (or_int (Some NUM_RELEVANT_DOCS) (LegalRetriever.default_k retriever))) w1)
    with (LegalRetriever.retrieve retriever question (Some NUM_RELEVANT_DOCS) w1) in Hret.
  set (k := or_int _ NUM_RELEVANT_DOCS) in Htr2.
  assert (Htr : trace w2 = (trace w ++ [EvCount; EvCount; EvSimilaritySearch question k])%list).
  { rewrite Htr2, Htr1, <- app_assoc. reflexivity. }
  destruct ds as [|doc docs].
  { destruct (LOW_RELEVANCE_PROMPT_format question) as [msg|err] eqn:Hfmt.
    - eexists _, w2, _. split.
      { unfold LegalAIEngine.chat. erewrite try_except_Ok; [reflexivity|].
        erewrite bind_Ok by exact Hhas. change (negb true) with false. cbv iota.
        erewrite bind_Ok by exact Hret. cbv iota.
        erewrite bind_Ok by (unfold lift; rewrite Hfmt; reflexivity). reflexivity. }
      split; [exact Htr|]. calls_ok.
      split; [intros t i Hin; in_cases Hin | failed_result].
    - eexists _, w2, _. split.
      { unfold LegalAIEngine.chat. erewrite try_except_Raise; [reflexivity|].
        erewrite bind_Ok by exact Hhas. change (negb true) with false. cbv iota.
        erewrite bind_Ok by exact Hret. cbv iota.
        erewrite bind_Raise by (unfold lift; rewrite Hfmt; reflexivity). reflexivity. }
      split; [exact Htr|]. calls_ok.
      split; [intros t i Hin; in_cases Hin | failed_result]. }
  rewrite (chat_with_chunks retriever question prompt_type w w1 w2 doc docs Hhas Hret).
  cbv zeta.
  assert (Hfound : chat_retrieved retriever question w (doc :: docs)).
  { exists w1, w2. split; [exact Hhas | exact Hret]. }
  set (inputs := LegalAIEngine.chat_inputs _ question).
  destruct (get_prompt_template prompt_type) as [template|err] eqn:Htpl.
  2:{ eexists _, w2, _. split.
      { erewrite try_except_Raise; [reflexivity|].
        erewrite bind_Raise by (unfold lift; reflexivity). reflexivity. }
      split; [exact Htr|]. calls_ok.
      split; [intros t i Hin; in_cases Hin | failed_result]. }
  destruct (from_template template) as [prompt|err] eqn:Hprompt.
  2:{ eexists _, w2, _. split.
      { erewrite try_except_Raise; [reflexivity|].
        erewrite bind_Ok by (unfold lift; reflexivity).
        erewrite bind_Raise by (unfold lift; rewrite Hprompt; reflexivity). reflexivity. }
      split; [exact Htr|]. calls_ok.
      split; [intros t i Hin; in_cases Hin | failed_result]. }
  destruct (retry_loop_outcome prompt inputs w2)
    as [(j & response & e' & Hj & _ & Hloop) | (msg & e' & Hloop)].
  - destruct (format_response_with_disclaimer response) as [final|err] eqn:Hfin.
    + eexists _, _, ([EvCount; EvCount; EvSimilaritySearch question k]
                       ++ attempts j prompt inputs)%list.
      split.
      { erewrite try_except_Ok; [reflexivity|].
        erewrite bind_Ok by (unfold lift; reflexivity).
        erewrite bind_Ok by (unfold lift; rewrite Hprompt; reflexivity).
        erewrite bind_Ok by exact Hloop. cbv iota.
        erewrite bind_Ok by (unfold lift; rewrite Hfin; reflexivity). reflexivity. }
      split; [cbn [trace]; rewrite Htr, <- app_assoc; reflexivity|].
      destruct j as [|[|[|j]]]; [| | |lia]; calls_ok;
        (split; [invoked_with Hfound | good_result Hfound]).
    + eexists _, _, ([EvCount; EvCount; EvSimilaritySearch question k]
                       ++ attempts j prompt inputs)%list.
      split.
      { erewrite try_except_Raise; [reflexivity|].
        erewrite bind_Ok by (unfold lift; reflexivity).
        erewrite bind_Ok by (unfold lift; rewrite Hprompt; reflexivity).
        erewrite bind_Ok by exact Hloop. cbv iota.
        erewrite bind_Raise by (unfold lift; rewrite Hfin; reflexivity). reflexivity. }
      split; [cbn [trace]; rewrite Htr, <- app_assoc; reflexivity|].
      destruct j as [|[|[|j]]]; [| | |lia]; calls_ok;
        (split; [invoked_with Hfound | failed_result]).
  - eexists _, _, ([EvCount; EvCount; EvSimilaritySearch question k]
                     ++ attempts 2 prompt inputs)%list.
    split.
    { erewrite try_except_Raise; [reflexivity|].
      erewrite bind_Ok by (unfold lift; reflexivity).
      erewrite bind_Ok by (unfold lift; rewrite Hprompt; reflexivity).
      erewrite bind_Raise by exact Hloop. reflexivity. }
    split; [cbn [trace]; rewrite Htr, <- app_assoc; reflexivity|].
    calls_ok.
    split; [invoked_with Hfound | failed_result].
Qed.

End ChatTheorems.

(** X11: [chat] never raises, whatever the index, the templates and the
    model do. It only reads the index and talks to the model: at most
    three invocations and two pauses, and every invocation carries the
    formatted context of the chunks that the search for the question
    returned, of which there is at least one. A successful result has
    context, the sources of these retrieved chunks and no error, and
    comes from an invocation; a result that is not successful lists no
    sources. *)
Theorem chat_never_raises_and_asks_with_context
    {E : Type} `{!VectorStore E} `{!ChatModel E} `{!FileSystem E} `{!PromptTemplates}
    (retriever : LegalRetriever.t) (question prompt_type : Py.str) (w : World E) :
  exists r w' evs,
    LegalAIEngine.chat retriever question prompt_type w = (Ok r, w')
    /\ trace w' = (trace w ++ evs)%list
    /\ forallb asks_only evs = true
    /\ (length (List.filter is_invoke evs) <= 3)%nat
    /\ (length (List.filter is_sleep evs) <= 2)%nat
    /\ (forall t i, In (EvInvoke t i) evs ->
          exists doc docs,
            chat_retrieved retriever question w (doc :: docs)
            /\ i = LegalAIEngine.chat_inputs (LegalRetriever.format_context (doc :: docs))
                     question)
    /\ (LegalAIEngine.success r = true ->
          LegalAIEngine.has_context r = Some true
          /\ (exists doc docs,
                chat_retrieved retriever question w (doc :: docs)
                /\ LegalAIEngine.sources r = LegalAIEngine.chat_sources (doc :: docs))
          /\ LegalAIEngine.sources r <> []
          /\ LegalAIEngine.num_sources r = Some (len (LegalAIEngine.sources r))
          /\ LegalAIEngine.error r = None
          /\ existsb is_invoke evs = true)
    /\ (LegalAIEngine.success r = false ->
          LegalAIEngine.sources r = [] /\ LegalAIEngine.num_sources r = None).
Proof. apply chat_outcome. Qed.

(** X12: when chunks were retrieved and the model answers at the first,
    the second or the third attempt, [chat] succeeds: the answer is the
    response with the disclaimer, there is one source entry per
    retrieved chunk, in order, and the calls are the failed attempts,
    each followed by a pause of three seconds, and the one that
    answered. *)
Theorem chat_answers_after_retries
    {E : Type} `{!VectorStore E} `{!ChatModel E} `{!FileSystem E} `{!PromptTemplates}
    (retriever : LegalRetriever.t) (question prompt_type template prompt : Py.str)
    (response final : Py.str) (j : nat)
    (w w1 w2 : World E) (e' : E) (doc : Document) (docs : list Document) :
  LegalRetriever.has_documents retriever w = (Ok true, w1) ->
  LegalRetriever.retrieve retriever question (Some NUM_RELEVANT_DOCS) w1
    = (Ok (doc :: docs), w2) ->
  get_prompt_template prompt_type = Ok template ->
  from_template template = Ok prompt ->
  let inputs :=
    LegalAIEngine.chat_inputs (LegalRetriever.format_context (doc :: docs)) question in
  (j <= 2)%nat ->
  answers_after j prompt inputs (env w2) = Some (response, e') ->
  format_response_with_disclaimer response = Ok final ->
  LegalAIEngine.chat retriever question prompt_type w
  = (Ok (LegalAIEngine.mkChatResult true final
           (map (fun d => LegalAIEngine.mkSourceRef
                            (LegalRetriever.meta_get d "source" "unknown")
                            (LegalRetriever.meta_get d "page" "?")) (doc :: docs))
           (Some true) (Some (len (doc :: docs))) None),
     mkWorld e' (trace w2 ++ attempts j prompt inputs)).
Proof.
  intros Hhas Hret Htpl Hprompt inputs Hj Hans Hfin.
  rewrite (chat_with_chunks retriever question prompt_type w w1 w2 doc docs Hhas Hret).
  cbv zeta. fold inputs.
  erewrite try_except_Ok; [reflexivity|].
  erewrite bind_Ok by (unfold lift; rewrite Htpl; reflexivity).
  erewrite bind_Ok by (unfold lift; rewrite Hprompt; reflexivity).
  erewrite bind_Ok by exact (retry_loop_answers j prompt response inputs w2 e' Hj Hans).
  cbv iota.
  erewrite bind_Ok by (unfold lift; rewrite Hfin; reflexivity).
  unfold ret, LegalAIEngine.chat_sources, len. rewrite length_map. reflexivity.
Qed.

Lemma chat_answers_after_retries_witness :
  exists (e' : Sim.t) (w2 : World Sim.t),
    LegalAIEngine.chat LegalRetriever.new Ex.query (Py.lit "qa") ExChat.first_attempt_fails
    = (Ok (LegalAIEngine.mkChatResult true (Py.lit "answer (disclaimer)")
             [LegalAIEngine.mkSourceRef (VStr (Py.lit "a.pdf")) (VInt 1);
              LegalAIEngine.mkSourceRef (VStr (Py.lit "b.pdf")) (VInt 2)]
             (Some true) (Some 2) None),
       mkWorld e'
         (trace w2
            ++ attempts 1 (Py.lit "{context} {question}")
                 (LegalAIEngine.chat_inputs
                    (LegalRetriever.format_context [Ex.alpha; Ex.beta]) Ex.query))).
Proof.
  eexists _, _.
  refine (chat_answers_after_retries (E := Sim.t) LegalRetriever.new Ex.query (Py.lit "qa")
            (Py.lit "{context} {question}") (Py.lit "{context} {question}")
            (Py.lit "answer") (Py.lit "answer (disclaimer)") 1
            ExChat.first_attempt_fails
            (snd (LegalRetriever.has_documents LegalRetriever.new ExChat.first_attempt_fails))
            (snd (LegalRetriever.retrieve LegalRetriever.new Ex.query (Some 4)
                    (snd (LegalRetriever.has_documents LegalRetriever.new
                            ExChat.first_attempt_fails))))
            _ Ex.alpha [Ex.beta] _ _ _ _ _ _ _).
  - vm_compute. reflexivity.
  - vm_compute. reflexivity.
  - reflexivity.
  - reflexivity.
  - lia.
  - vm_compute. reflexivity.
  - reflexivity.
Defined.

(** X13: when the count of the index fails, [chat] gives the same
    result as on an empty index: the fixed no-context message, no search
    and no invocation of the model. *)
Theorem chat_count_failure_is_no_context
    {E : Type} `{!VectorStore E} `{!ChatModel E} `{!FileSystem E} `{!PromptTemplates}
    (retriever : LegalRetriever.t) (question prompt_type msg : Py.str) (w : World E) :
  fst (collection_count (env w)) = Raise msg ->
  LegalAIEngine.chat retriever question prompt_type w
  = (Ok (LegalAIEngine.mkChatResult false NO_CONTEXT_PROMPT [] (Some false) None None),
     mkWorld (snd (collection_count (env w))) (trace w ++ [EvCount])).
Proof.
  intros Hfail.
  unfold LegalAIEngine.chat, try_except, bind, LegalRetriever.has_documents, bind,
    VectorDBManager.get_document_count, try_except, call, ret.
  destruct (collection_count (env w)) as [r e'].
  cbn [fst] in Hfail. subst r. reflexivity.
Qed.

Lemma chat_count_failure_is_no_context_witness :
  Sim.docs (env Ex.down) <> []
  /\ fst (LegalAIEngine.chat LegalRetriever.new Ex.query (Py.lit "qa") Ex.down)
     = Ok (LegalAIEngine.mkChatResult false (Py.lit "no documents") [] (Some false) None None).
Proof.
  split; [discriminate|].
  assert (Hdown : fst (collection_count (env Ex.down)) = Raise (Py.lit "backend down"))
    by (vm_compute; reflexivity).
  rewrite (chat_count_failure_is_no_context (E := Sim.t) LegalRetriever.new Ex.query
             (Py.lit "qa") (Py.lit "backend down") Ex.down Hdown).
  reflexivity.
Defined.

(** X14: when the index holds chunks but the search returns none, as it
    also does when the search itself fails, [chat] answers with the
    low-relevance message for the question and does not invoke the
    model. *)
Theorem chat_low_relevance
    {E : Type} `{!VectorStore E} `{!ChatModel E} `{!FileSystem E} `{!PromptTemplates}
    (retriever : LegalRetriever.t) (question prompt_type msg : Py.str) (w w1 : World E) :
  LegalRetriever.has_documents retriever w = (Ok true, w1) ->
  (fst (db_similarity_search question NUM_RELEVANT_DOCS
          (env (snd (VectorDBManager.get_document_count w1)))) = Ok []
   \/ exists e, fst (db_similarity_search question NUM_RELEVANT_DOCS
                       (env (snd (VectorDBManager.get_document_count w1)))) = Raise e) ->
  LOW_RELEVANCE_PROMPT_format question = Ok msg ->
  exists w',
    LegalAIEngine.chat retriever question prompt_type w
    = (Ok (LegalAIEngine.mkChatResult false msg [] (Some false) None None), w')
    /\ trace w' = (trace w1 ++ [EvCount; EvSimilaritySearch question NUM_RELEVANT_DOCS])%list.
Proof.
  intros Hhas Hsearch Hfmt.
  assert (Hret : exists w',
             LegalRetriever.retrieve retriever question (Some NUM_RELEVANT_DOCS) w1
             = (Ok [], w')
             /\ trace w' = (trace w1 ++ [EvCount; EvSimilaritySearch question
                                                    NUM_RELEVANT_DOCS])%list).
  { unfold LegalRetriever.retrieve, VectorDBManager.similarity_search.
    change (or_int (Some (or_int (Some NUM_RELEVANT_DOCS) (LegalRetriever.default_k retriever)))
              NUM_RELEVANT_DOCS) with NUM_RELEVANT_DOCS.
    destruct (get_document_count_total w1) as [n Hn]. rewrite Hn in Hsearch.
    erewrite bind_Ok by exact Hn.
    unfold try_except, call, ret. cbn [env trace snd] in *.
    destruct (db_similarity_search question NUM_RELEVANT_DOCS _) as [r e'].
    cbn [fst] in Hsearch. destruct Hsearch as [-> | [e ->]];
      eexists; (split; [reflexivity|]); cbn [trace]; rewrite <- app_assoc; reflexivity. }
  destruct Hret as (w' & Hret & Htr). exists w'. split; [|exact Htr].
  unfold LegalAIEngine.chat. erewrite try_except_Ok; [reflexivity|].
  erewrite bind_Ok by exact Hhas. change (negb true) with false. cbv iota.
  erewrite bind_Ok by exact Hret. cbv iota.
  erewrite bind_Ok by (unfold lift; rewrite Hfmt; reflexivity). reflexivity.
Qed.

Lemma chat_low_relevance_witness :
  exists w',
    LegalAIEngine.chat LegalRetriever.new Ex.query (Py.lit "qa") ExChat.search_fails
    = (Ok (LegalAIEngine.mkChatResult false (Py.lit "nothing relevant for: q") []
             (Some false) None None), w')
    /\ trace w' = [EvCount; EvCount; EvSimilaritySearch Ex.query 4].
Proof.
  refine (chat_low_relevance (E := Sim.t) LegalRetriever.new Ex.query (Py.lit "qa")
            (Py.lit "nothing relevant for: q") ExChat.search_fails
            (snd (LegalRetriever.has_documents LegalRetriever.new ExChat.search_fails))
            _ _ _).
  - vm_compute. reflexivity.
  - right. exists (Py.lit "timeout"). vm_compute. reflexivity.
  - reflexivity.
Defined.

(** ** app/engine.py: ingestion *)

Section IngestFlow.
Context {E : Type} `{!VectorStore E} `{!ChatModel E} `{!FileSystem E}
        `{!PromptTemplates}.

Lemma process_file_total (file_path : Py.str) (w : World E) :
  exists p w1, FileLoader.process_file file_path w = (Ok p, w1).
Proof.
  destruct (process_file_chunks file_path w) as (p & w1 & _ & Hp & _). eauto.
Qed.

(** [add_documents] returns the number of chunks it was given, or 0 when
    the index refused them. *)
Lemma add_documents_result (documents : list Document) (w : World E) :
  exists n w',
    VectorDBManager.add_documents documents w = (Ok n, w')
    /\ (n = len documents
        \/ n = 0 /\ exists e, fst (db_add_documents documents (env w)) = Raise e).
Proof.
  destruct documents as [|d ds]; [eexists 0, w; split; [reflexivity | left; reflexivity]|].
  unfold VectorDBManager.add_documents, try_except, bind at 1, call.
  destruct (db_add_documents (d :: ds) (env w)) as [[[]|e] e']; cbn [fst].
  - unfold bind. set (w1 := mkWorld _ _).
    destruct (get_document_count_total w1) as [n ->]. unfold ret.
    eexists _, _. split; [reflexivity | left; reflexivity].
  - unfold ret. eexists _, _. split; [reflexivity | right; eauto].
Qed.

Lemma ingest_file_cases (file_path : Py.str) (w : World E) :
  exists p w1,
    FileLoader.process_file file_path w = (Ok p, w1)
    /\ if FileLoader.pr_success p then
         exists n total w2 w',
           VectorDBManager.add_documents (FileLoader.pr_chunks p) w1 = (Ok n, w2)
           /\ VectorDBManager.get_document_count w2 = (Ok total, w')
           /\ LegalAIEngine.ingest_file file_path w
              = (Ok (let file_name := default [] (FileLoader.pr_file_name p) in
                     LegalAIEngine.IngestDone
                       (Py.lit "✅ ประมวลผลสำเร็จ: " ++ file_name)%list file_name n total),
                 w')
       else LegalAIEngine.ingest_file file_path w
            = (Ok (LegalAIEngine.IngestNotProcessed p), w1).
Proof.
  destruct (process_file_total file_path w) as (p & w1 & Hp).
  exists p, w1. split; [exact Hp|].
  unfold LegalAIEngine.ingest_file.
  destruct (FileLoader.pr_success p) eqn:Hs.
  - destruct (add_documents_total (FileLoader.pr_chunks p) w1) as (n & w2 & Hadd).
    destruct (get_document_count_total w2) as [total Hcount].
    eexists n, total, w2, _. split; [exact Hadd|]. split; [exact Hcount|].
    erewrite try_except_Ok; [reflexivity|].
    erewrite bind_Ok by exact Hp. rewrite Hs.
    erewrite bind_Ok by exact Hadd.
    erewrite bind_Ok by exact Hcount. reflexivity.
  - erewrite try_except_Ok; [reflexivity|].
    erewrite bind_Ok by exact Hp. rewrite Hs. reflexivity.
Qed.

Lemma ingest_file_shape (file_path : Py.str) (w : World E) :
  exists r w', LegalAIEngine.ingest_file file_path w = (Ok r, w') /\ ingest_shape r.
Proof.
  destruct (ingest_file_cases file_path w) as (p & w1 & Hp & Hcase).
  destruct (FileLoader.pr_success p) eqn:Hs.
  - destruct Hcase as (n & total & w2 & w' & Hadd & _ & Hrun).
    eexists _, _. split; [exact Hrun|]. cbn [ingest_shape].
    destruct (add_documents_result (FileLoader.pr_chunks p) w1) as (n' & w2' & Hadd' & Hn).
    rewrite Hadd in Hadd'. injection Hadd' as <- _.
    destruct Hn as [-> | [-> _]]; unfold len; lia.
  - eexists _, _. split; [exact Hcase | exact Hs].
Qed.

Lemma ingest_loop_spec (file_paths : list Py.str) (acc : list LegalAIEngine.IngestResult)
      (total : Z) (w : World E) :
  exists rs w',
    LegalAIEngineBatch.ingest_loop file_paths acc total w
    = (Ok ((acc ++ rs)%list,
           total + sum_Z (map LegalAIEngineBatch.num_chunks_of
                            (List.filter LegalAIEngine.ingest_success rs))), w')
    /\ length rs = length file_paths
    /\ Forall ingest_shape rs.
Proof.
  revert acc total w. induction file_paths as [|f fs IH]; intros acc total w.
  - exists [], w. cbn. rewrite app_nil_r, Z.add_0_r. repeat split. constructor.
  - cbn [LegalAIEngineBatch.ingest_loop].
    destruct (ingest_file_shape f w) as (r & w1 & Hr & Hshape).
    erewrite bind_Ok by exact Hr. cbv zeta.
    destruct (IH (acc ++ [r])%list
                 (if LegalAIEngine.ingest_success r
                  then total + LegalAIEngineBatch.num_chunks_of r else total) w1)
      as (rs & w' & -> & Hlen & Hall).
    exists (r :: rs), w'. rewrite <- app_assoc. cbn [app length List.filter].
    split; [|split; [congruence | constructor; assumption]].
    do 3 f_equal.
    destruct (LegalAIEngine.ingest_success r); [|reflexivity].
    unfold sum_Z. cbn [map fold_right]. lia.
Qed.

Lemma sum_chunks_nonneg (rs : list LegalAIEngine.IngestResult) :
  Forall ingest_shape rs ->
  0 <= sum_Z (map LegalAIEngineBatch.num_chunks_of
                (List.filter LegalAIEngine.ingest_success rs)).
Proof.
  induction 1 as [|r rs Hr Hrs IH]; [cbn; lia|].
  cbn [List.filter]. destruct r as [p | m f n t | m e]; cbn [LegalAIEngine.ingest_success].
  - cbn [ingest_shape] in Hr. rewrite Hr. exact IH.
  - cbn [map sum_Z fold_right LegalAIEngineBatch.num_chunks_of].
    cbn [ingest_shape] in Hr. unfold sum_Z in IH. lia.
  - exact IH.
Qed.

End IngestFlow.

(** X15: [ingest_file] never raises and never builds its own error
    result. When [process_file] fails, its result is returned as it is
    and the index is not called. Otherwise the result is a success that
    names the stored copy of the file, and its [num_chunks] is the number
    of cleaned chunks or, when the index refused them, 0. *)
Theorem ingest_file_outcomes
    {E : Type} `{!VectorStore E} `{!ChatModel E} `{!FileSystem E} `{!PromptTemplates}
    (file_path : Py.str) (w : World E) :
  exists p w1 r w',
    FileLoader.process_file file_path w = (Ok p, w1)
    /\ LegalAIEngine.ingest_file file_path w = (Ok r, w')
    /\ LegalAIEngine.ingest_success r = FileLoader.pr_success p
    /\ match r with
       | LegalAIEngine.IngestNotProcessed p' =>
           p' = p /\ FileLoader.pr_success p = false /\ w' = w1
       | LegalAIEngine.IngestDone message file_name n _ =>
           FileLoader.pr_success p = true
           /\ file_name = default [] (FileLoader.pr_file_name p)
           /\ message = (Py.lit "✅ ประมวลผลสำเร็จ: " ++ file_name)%list
           /\ (n = len (FileLoader.pr_chunks p)
               \/ n = 0 /\ exists e,
                    fst (db_add_documents (FileLoader.pr_chunks p) (env w1)) = Raise e)
       | LegalAIEngine.IngestError _ _ => False
       end.
Proof.
  destruct (ingest_file_cases file_path w) as (p & w1 & Hp & Hcase).
  exists p, w1. destruct (FileLoader.pr_success p) eqn:Hs.
  - destruct Hcase as (n & total & w2 & w' & Hadd & _ & Hrun).
    eexists _, w'. split; [exact Hp|]. split; [exact Hrun|]. cbv zeta.
    split; [reflexivity|]. repeat split.
    destruct (add_documents_result (FileLoader.pr_chunks p) w1) as (n' & w2' & Hadd' & Hn).
    rewrite Hadd in Hadd'. injection Hadd' as <- _. exact Hn.
  - eexists _, w1. split; [exact Hp|]. split; [exact Hcase|].
    split; [exact Hs|]. repeat split.
Qed.

(** X16: when the file was processed but the index refuses its chunks,
    [ingest_file] still reports success, with [num_chunks] 0. *)
Theorem ingest_file_index_failure_is_success
    {E : Type} `{!VectorStore E} `{!ChatModel E} `{!FileSystem E} `{!PromptTemplates}
    (file_path msg : Py.str) (p : FileLoader.ProcessResult) (w w1 : World E) :
  FileLoader.process_file file_path w = (Ok p, w1) ->
  FileLoader.pr_success p = true ->
  fst (db_add_documents (FileLoader.pr_chunks p) (env w1)) = Raise msg ->
  exists total w',
    LegalAIEngine.ingest_file file_path w
    = (Ok (LegalAIEngine.IngestDone
             (Py.lit "✅ ประมวลผลสำเร็จ: " ++ default [] (FileLoader.pr_file_name p))%list
             (default [] (FileLoader.pr_file_name p)) 0 total), w')
    /\ LegalAIEngine.ingest_success
         (LegalAIEngine.IngestDone
            (Py.lit "✅ ประมวลผลสำเร็จ: " ++ default [] (FileLoader.pr_file_name p))%list
            (default [] (FileLoader.pr_file_name p)) 0 total) = true.
Proof.
  intros Hp Hs Hfail.
  destruct (ingest_file_cases file_path w) as (p' & w1' & Hp' & Hcase).
  rewrite Hp in Hp'. injection Hp' as <- <-. rewrite Hs in Hcase.
  destruct Hcase as (n & total & w2 & w' & Hadd & _ & Hrun).
  pose proof (add_documents_failure (FileLoader.pr_chunks p) w1 (ex_intro _ msg Hfail)) as H0.
  unfold returns in H0. rewrite Hadd in H0. injection H0 as ->.
  exists total, w'. split; [exact Hrun | reflexivity].
Qed.

Lemma ingest_file_index_failure_is_success_witness :
  exists total w',
    LegalAIEngine.ingest_file ExFiles.notes index_down
    = (Ok (LegalAIEngine.IngestDone (Py.lit "✅ ประมวลผลสำเร็จ: notes.txt")
             (Py.lit "notes.txt") 0 total), w').
Proof.
  destruct (FileLoader.process_file ExFiles.notes index_down) as [[p|e] w1] eqn:Hrun;
    [|vm_compute in Hrun; discriminate Hrun].
  assert (Hok : FileLoader.pr_success p = true).
  { vm_compute in Hrun. injection Hrun as <- _. reflexivity. }
  assert (Hname : FileLoader.pr_file_name p = Some (Py.lit "notes.txt")).
  { vm_compute in Hrun. injection Hrun as <- _. vm_compute. reflexivity. }
  assert (Hfail : fst (db_add_documents (FileLoader.pr_chunks p) (env w1))
                  = Raise (Py.lit "backend down")).
  { vm_compute in Hrun. injection Hrun as <- <-. vm_compute. reflexivity. }
  destruct (ingest_file_index_failure_is_success (E := Sim.t) ExFiles.notes
              (Py.lit "backend down") p index_down w1 Hrun Hok Hfail)
    as (total & w' & Hres & _).
  rewrite Hname in Hres. exists total, w'. exact Hres.
Defined.

(** X17: [ingest_multiple_files] never raises. It returns one result per
    path, none of them an error result of [ingest_file]; it reports
    success exactly when one file succeeded; [total_chunks] is the sum of
    [num_chunks] over the successful results and is not negative; the
    message counts the successful files against the paths given. *)
Theorem ingest_multiple_files_totals
    {E : Type} `{!VectorStore E} `{!ChatModel E} `{!FileSystem E} `{!PromptTemplates}
    (file_paths : list Py.str) (w : World E) :
  exists r w',
    LegalAIEngineBatch.ingest_multiple_files file_paths w = (Ok r, w')
    /\ length (LegalAIEngineBatch.results r) = length file_paths
    /\ Forall ingest_shape (LegalAIEngineBatch.results r)
    /\ (LegalAIEngineBatch.success r = true
        <-> Exists (fun x => LegalAIEngine.ingest_success x = true)
              (LegalAIEngineBatch.results r))
    /\ LegalAIEngineBatch.total_chunks r
       = sum_Z (map LegalAIEngineBatch.num_chunks_of
                  (List.filter LegalAIEngine.ingest_success (LegalAIEngineBatch.results r)))
    /\ 0 <= LegalAIEngineBatch.total_chunks r
    /\ LegalAIEngineBatch.message r
       = (Py.lit "✅ ประมวลผลสำเร็จ "
            ++ Py.str_of_Z (len (List.filter LegalAIEngine.ingest_success
                                   (LegalAIEngineBatch.results r)))
            ++ Py.lit "/" ++ Py.str_of_Z (len file_paths) ++ Py.lit " ไฟล์")%list.
Proof.
  destruct (ingest_loop_spec file_paths [] 0 w) as (rs & w' & Hloop & Hlen & Hall).
  unfold LegalAIEngineBatch.ingest_multiple_files.
  eexists _, w'. split.
  { erewrite bind_Ok by exact Hloop. reflexivity. }
  cbn [fst snd app LegalAIEngineBatch.results LegalAIEngineBatch.success
       LegalAIEngineBatch.total_chunks LegalAIEngineBatch.message].
  split; [exact Hlen|]. split; [exact Hall|].
  split; [|split; [lia|split; [|reflexivity]]].
  - rewrite Z.ltb_lt. unfold len. rewrite List.Exists_exists. split.
    + intros Hpos. destruct (List.filter LegalAIEngine.ingest_success rs) as [|x xs] eqn:Hf;
        [cbn in Hpos; lia|].
      assert (Hin : In x (List.filter LegalAIEngine.ingest_success rs))
        by (rewrite Hf; left; reflexivity).
      apply filter_In in Hin. exists x. exact Hin.
    + intros (x & Hin & Hx).
      assert (Hin' : In x (List.filter LegalAIEngine.ingest_success rs))
        by (apply filter_In; split; assumption).
      destruct (List.filter LegalAIEngine.ingest_success rs); [destruct Hin'|cbn [length]; lia].
  - pose proof (sum_chunks_nonneg rs Hall). lia.
Qed.

(** ** app/engine.py: summaries and deletion *)

Section SummaryFlow.
Context {E : Type} `{!VectorStore E} `{!ChatModel E} `{!FileSystem E}
        `{!PromptTemplates}.

Lemma list_to_set_length (vs : list pyval) :
  (length (elements (list_to_set vs : gset pyval)) <= length vs)%nat.
Proof.
  induction vs as [|v vs IH]; [rewrite list_to_set_nil, elements_empty; reflexivity|].
  rewrite list_to_set_cons. cbn [length].
  change (length (elements ?X)) with (size X) in *.
  rewrite size_union_alt, size_singleton.
  assert (Hsub : (list_to_set vs : gset pyval) ∖ {[v]} ⊆ list_to_set vs)
    by (apply subseteq_difference_l; reflexivity).
  apply subseteq_size in Hsub. lia.
Qed.

Lemma source_set_bounds (doc : Document) (docs : list Document) :
  elements (LegalAIEngine.source_set (doc :: docs)) <> []
  /\ len (elements (LegalAIEngine.source_set (doc :: docs))) <= len (doc :: docs).
Proof.
  split.
  - intros Hnil. apply elements_empty_inv in Hnil.
    unfold LegalAIEngine.source_set in Hnil. cbn [map] in Hnil.
    rewrite list_to_set_cons in Hnil. set_solver.
  - unfold LegalAIEngine.source_set, len.
    pose proof (list_to_set_length
                  (map (fun d => LegalRetriever.meta_get d "source" "unknown") (doc :: docs)))
      as Hbound.
    rewrite length_map in Hbound. lia.
Qed.

Ltac summary_calls :=
  cbn [forallb asks_only andb List.filter is_invoke is_sleep length existsb orb
       LegalAIEngine.sm_success LegalAIEngine.sm_error LegalAIEngine.num_chunks_used
       LegalAIEngine.sm_sources];
  split; [reflexivity|]; split; [lia|]; split; [reflexivity|].

Lemma summarize_outcome (retriever : LegalRetriever.t) (source_name : option Py.str)
      (w : World E) :
  exists r w' evs,
    LegalAIEngine.summarize retriever source_name w = (Ok r, w')
    /\ trace w' = (trace w ++ evs)%list
    /\ forallb asks_only evs = true
    /\ (length (List.filter is_invoke evs) <= 1)%nat
    /\ List.filter is_sleep evs = []
    /\ (forall t i, In (EvInvoke t i) evs ->
          exists doc docs,
            summary_retrieved retriever source_name w (doc :: docs)
            /\ i = LegalAIEngine.summary_inputs
                     (LegalRetriever.format_context (doc :: docs)))
    /\ (LegalAIEngine.sm_success r = true ->
          existsb is_invoke evs = true
          /\ LegalAIEngine.sm_error r = None
          /\ exists doc docs srcs,
               summary_retrieved retriever source_name w (doc :: docs)
               /\ LegalAIEngine.num_chunks_used r = Some (len (doc :: docs))
               /\ LegalAIEngine.sm_sources r = Some srcs
               /\ srcs = elements (LegalAIEngine.source_set (doc :: docs))
               /\ srcs <> [] /\ NoDup srcs /\ len srcs <= len (doc :: docs))
    /\ (existsb is_invoke evs = false ->
          LegalAIEngine.sm_success r = false
          /\ (LegalAIEngine.sm_error r = None ->
              r = LegalAIEngine.mkSummaryResult false (Py.lit "⚠️ ไม่พบเอกสารที่จะสรุป")
                    (Some []) None None)).
Proof.
  set (query := LegalAIEngine.summary_query source_name).
  destruct (similarity_search_events query
              (Some (or_int (Some 10) (LegalRetriever.default_k retriever))) w)
    as (ds & w1 & Hret & Htr).
  change (VectorDBManager.similarity_search query
            (Some (or_int (Some 10) (LegalRetriever.default_k retriever))) w)
    with (LegalRetriever.retrieve retriever query (Some 10) w) in Hret.
  set (k := or_int _ NUM_RELEVANT_DOCS) in Htr.
  unfold LegalAIEngine.summarize. fold query.
  destruct ds as [|doc docs].
  { eexists _, w1, _. split.
    { erewrite try_except_Ok; [reflexivity|].
      erewrite bind_Ok by exact Hret. reflexivity. }
    split; [exact Htr|]. summary_calls.
    split; [intros t i [Hin | [Hin | []]]; discriminate|].
    split; [intros Hs; discriminate Hs|].
    intros _. split; [reflexivity | intros _; reflexivity]. }
  assert (Hfound : summary_retrieved retriever source_name w (doc :: docs)).
  { exists w1. exact Hret. }
  set (inputs := LegalAIEngine.summary_inputs (LegalRetriever.format_context (doc :: docs))).
  destruct (from_template LEGAL_SUMMARY_PROMPT) as [prompt|err] eqn:Hprompt.
  2:{ eexists _, w1, _. split.
      { erewrite try_except_Raise; [reflexivity|].
        erewrite bind_Ok by exact Hret. cbv iota zeta.
        erewrite bind_Raise by (unfold lift; first [rewrite Hprompt; reflexivity | reflexivity]). reflexivity. }
      split; [exact Htr|]. summary_calls.
      split; [intros t i [Hin | [Hin | []]]; discriminate|].
      split; [intros Hs; discriminate Hs|].
      intros _. split; [reflexivity | intros Hs; discriminate Hs]. }
  destruct (source_set_bounds doc docs) as [Hne Hle].
  destruct (chain_invoke prompt inputs (env w1)) as [[text|msg] e2] eqn:Hinv.
  - eexists _, _, [EvCount; EvSimilaritySearch query k; EvInvoke prompt inputs]. split.
    { erewrite try_except_Ok; [reflexivity|].
      erewrite bind_Ok by exact Hret. cbv iota zeta.
      erewrite bind_Ok by (unfold lift; first [rewrite Hprompt; reflexivity | reflexivity]).
      erewrite bind_Ok.
      2:{ unfold LegalAIEngine.invoke, call. fold inputs. rewrite Hinv. reflexivity. }
      reflexivity. }
    split; [cbn [trace]; rewrite Htr, <- app_assoc; reflexivity|].
    summary_calls.
    split; [|split; [|intros Hs; discriminate Hs]].
    + intros t i [Hin | [Hin | [Hin | []]]]; try discriminate.
      injection Hin as _ <-. eexists _, _. split; [exact Hfound | reflexivity].
    + intros _. split; [reflexivity|]. split; [reflexivity|].
      eexists _, _, _. split; [exact Hfound|]. split; [reflexivity|].
      split; [reflexivity|]. split; [reflexivity|].
      split; [exact Hne|]. split; [apply NoDup_elements | exact Hle].
  - eexists _, _, [EvCount; EvSimilaritySearch query k; EvInvoke prompt inputs]. split.
    { erewrite try_except_Raise; [reflexivity|].
      erewrite bind_Ok by exact Hret. cbv iota zeta.
      erewrite bind_Ok by (unfold lift; first [rewrite Hprompt; reflexivity | reflexivity]).
      erewrite bind_Raise.
      2:{ unfold LegalAIEngine.invoke, call. fold inputs. rewrite Hinv. reflexivity. }
      reflexivity. }
    split; [cbn [trace]; rewrite Htr, <- app_assoc; reflexivity|].
    summary_calls.
    split; [|split; [intros Hs; discriminate Hs | intros Hs; discriminate Hs]].
    intros t i [Hin | [Hin | [Hin | []]]]; try discriminate.
    injection Hin as _ <-. eexists _, _. split; [exact Hfound | reflexivity].
Qed.

Lemma delete_source_failure (source_name : Py.str) (w : World E) :
  (exists e, fst (collection_get_where_source source_name (env w)) = Raise e)
  \/ (exists ids e' e, collection_get_where_source source_name (env w) = (Ok ids, e')
                       /\ fst (collection_delete ids e') = Raise e) ->
  returns (LegalAIEngine.delete_source source_name) w
    (false, (Py.lit "⚠️ ไม่พบ " ++ source_name)%list).
Proof.
  intros Hfail. apply delete_by_source_failure in Hfail. unfold returns in *.
  destruct (VectorDBManager.delete_by_source source_name w) as [res w'] eqn:Hdel.
  cbn [fst] in Hfail. subst res.
  unfold LegalAIEngine.delete_source.
  erewrite try_except_Ok; [reflexivity|].
  erewrite bind_Ok by exact Hdel. reflexivity.
Qed.

End SummaryFlow.

(** X18: [summarize] never raises. It reads the index and invokes the
    model at most once, never pauses, and only invokes with the
    formatted context of the chunks that its search returned, of which
    there is at least one. A successful summary comes from an
    invocation; it counts these retrieved chunks and lists their
    sources, at least one, each once, and no more sources than chunks.
    When the model was not invoked the result is not successful: it is
    the fixed message for no chunks, with an empty source list, unless
    it carries an error. *)
Theorem summarize_never_raises_and_asks_once
    {E : Type} `{!VectorStore E} `{!ChatModel E} `{!FileSystem E} `{!PromptTemplates}
    (retriever : LegalRetriever.t) (source_name : option Py.str) (w : World E) :
  exists r w' evs,
    LegalAIEngine.summarize retriever source_name w = (Ok r, w')
    /\ trace w' = (trace w ++ evs)%list
    /\ forallb asks_only evs = true
    /\ (length (List.filter is_invoke evs) <= 1)%nat
    /\ List.filter is_sleep evs = []
    /\ (forall t i, In (EvInvoke t i) evs ->
          exists doc docs,
            summary_retrieved retriever source_name w (doc :: docs)
            /\ i = LegalAIEngine.summary_inputs
                     (LegalRetriever.format_context (doc :: docs)))
    /\ (LegalAIEngine.sm_success r = true ->
          existsb is_invoke evs = true
          /\ LegalAIEngine.sm_error r = None
          /\ exists doc docs srcs,
               summary_retrieved retriever source_name w (doc :: docs)
               /\ LegalAIEngine.num_chunks_used r = Some (len (doc :: docs))
               /\ LegalAIEngine.sm_sources r = Some srcs
               /\ srcs = elements (LegalAIEngine.source_set (doc :: docs))
               /\ srcs <> [] /\ NoDup srcs /\ len srcs <= len (doc :: docs))
    /\ (existsb is_invoke evs = false ->
          LegalAIEngine.sm_success r = false
          /\ (LegalAIEngine.sm_error r = None ->
              r = LegalAIEngine.mkSummaryResult false (Py.lit "⚠️ ไม่พบเอกสารที่จะสรุป")
                    (Some []) None None)).
Proof. apply summarize_outcome. Qed.

(** X19: when the lookup of the chunks of a source fails, or their
    deletion does, [delete_source] does not report an error: it answers
    that the source was not found. *)
Theorem delete_source_failure_is_not_found
    {E : Type} `{!VectorStore E} `{!ChatModel E} `{!FileSystem E} `{!PromptTemplates}
    (source_name : Py.str) (w : World E) :
  (exists e, fst (collection_get_where_source source_name (env w)) = Raise e)
  \/ (exists ids e' e, collection_get_where_source source_name (env w) = (Ok ids, e')
                       /\ fst (collection_delete ids e') = Raise e) ->
  returns (LegalAIEngine.delete_source source_name) w
    (false, (Py.lit "⚠️ ไม่พบ " ++ source_name)%list).
Proof. apply delete_source_failure. Qed.

Lemma delete_source_failure_is_not_found_witness :
  Sim.has_source (Py.lit "a.pdf") (0%N, Ex.alpha) = true
  /\ returns (LegalAIEngine.delete_source (Py.lit "a.pdf")) Ex.down
       (false, Py.lit "⚠️ ไม่พบ a.pdf").
Proof.
  split; [vm_compute; reflexivity|].
  apply (delete_source_failure_is_not_found (E := Sim.t) (Py.lit "a.pdf") Ex.down).
  left. exists (Py.lit "backend down"). reflexivity.
Defined.

(** ** A second pass of the cleaner *)

Section SearchFacts.
Import Re ReSpec.

Lemma shorter_not_longer (st : pattern * Py.str) : shorter st -> not_longer st.
Proof. intros H sol b n Hm. specialize (H sol b n Hm). lia. Qed.

Lemma Subst_unchanged (pat : pattern) (repl : Py.str) (sol : bool) (s out : Py.str) :
  Subst pat repl sol s out -> search_from pat sol s = false -> out = s.
Proof.
  induction 1 as [sol|sol c s out Hno HS IH|sol m rest out Hne Hmatch HS IH]; intros Hsearch.
  - reflexivity.
  - cbn [search_from] in Hsearch.
    destruct (match_here pat sol (c :: s)) as [[|n]|]; try discriminate;
      f_equal; apply IH; exact Hsearch.
  - destruct m as [|c m]; [congruence|].
    change ((c :: m) ++ rest)%list with (c :: m ++ rest)%list in *.
    cbn [search_from] in Hsearch. rewrite Hmatch in Hsearch. discriminate Hsearch.
Qed.

Lemma Subst_strict (pat : pattern) (repl : Py.str) (sol : bool) (s out : Py.str) :
  shorter (pat, repl) ->
  Subst pat repl sol s out -> search_from pat sol s = true ->
  (length out < length s)%nat.
Proof.
  intros Hshort HS.
  induction HS as [sol|sol c s out Hno HS IH|sol m rest out Hne Hmatch HS IH]; intros Hsearch.
  - discriminate Hsearch.
  - cbn [search_from] in Hsearch.
    destruct (match_here pat sol (c :: s)) as [[|n]|] eqn:Hm.
    + specialize (IH Hsearch). cbn [length]. lia.
    + exfalso. exact (Hno n eq_refl).
    + specialize (IH Hsearch). cbn [length]. lia.
  - pose proof (Subst_shrinks pat repl _ rest out
                  (shorter_not_longer (pat, repl) Hshort) HS) as Hle.
    destruct m as [|c m]; [congruence|].
    pose proof (Hshort sol ((c :: m) ++ rest)%list (length m) Hmatch) as Hr.
    cbn [fst snd] in Hr. rewrite !length_app. cbn [length]. lia.
Qed.

Lemma sub_unchanged (pat : pattern) (repl s : Py.str) :
  search pat s = false -> sub pat repl s = s.
Proof. intros H. exact (Subst_unchanged pat repl true s _ (sub_Subst pat repl s) H). Qed.

Lemma sub_strict (pat : pattern) (repl s : Py.str) :
  shorter (pat, repl) -> search pat s = true ->
  (length (sub pat repl s) < length s)%nat.
Proof.
  intros Hshort H.
  exact (Subst_strict pat repl true s _ Hshort (sub_Subst pat repl s) H).
Qed.

Lemma sub_not_longer (pat : pattern) (repl s : Py.str) :
  not_longer (pat, repl) -> (length (sub pat repl s) <= length s)%nat.
Proof. intros H. exact (Subst_shrinks pat repl true s _ H (sub_Subst pat repl s)). Qed.

(** For a pattern whose matches are longer than the replacement, the
    substitution leaves the text as it is exactly when nothing
    matches. *)
Lemma sub_fixed_iff (pat : pattern) (repl s : Py.str) :
  shorter (pat, repl) -> (sub pat repl s = s <-> search pat s = false).
Proof.
  intros Hshort. split; [|apply sub_unchanged].
  intros Hfix. destruct (search pat s) eqn:Hs; [|reflexivity].
  pose proof (sub_strict pat repl s Hshort Hs) as Hlt. rewrite Hfix in Hlt. lia.
Qed.

Lemma sub_fixed_search (pat : pattern) (repl s : Py.str) :
  shorter (pat, repl) -> sub pat repl s = s -> search pat s = false.
Proof. intros Hshort. apply sub_fixed_iff. exact Hshort. Qed.

(** ** A list of substitutions, applied in order *)

Lemma apply_all_length (steps : list (pattern * Py.str)) (s : Py.str) :
  Forall not_longer steps -> (length (apply_all steps s) <= length s)%nat.
Proof.
  intros Hall. revert s. induction Hall as [|[pat repl] steps Hst Hall IH]; intros s.
  - reflexivity.
  - cbn [apply_all fold_left fst snd]. etransitivity; [apply IH|].
    apply sub_not_longer. exact Hst.
Qed.

Lemma apply_all_unchanged (steps : list (pattern * Py.str)) (s : Py.str) :
  Forall (fun st => sub (fst st) (snd st) s = s) steps -> apply_all steps s = s.
Proof.
  induction 1 as [|st steps Hst Hall IH]; [reflexivity|].
  cbn [apply_all fold_left]. rewrite Hst. exact IH.
Qed.

(** When each substitution either has matches longer than its
    replacement or does nothing on [s], a pass that does not shorten [s]
    changes nothing at any step. *)
Lemma apply_all_same_length (steps : list (pattern * Py.str)) (s : Py.str) :
  Forall (fun st => not_longer st /\ (shorter st \/ sub (fst st) (snd st) s = s)) steps ->
  (length s <= length (apply_all steps s))%nat ->
  Forall (fun st => sub (fst st) (snd st) s = s) steps.
Proof.
  induction 1 as [|[pat repl] steps [Hnl Hst] Hall IH]; intros Hlen; [constructor|].
  cbn [apply_all fold_left fst snd] in *.
  assert (Hrest : Forall not_longer steps).
  { revert Hall. apply List.Forall_impl. intros st [H _]. exact H. }
  assert (Hfix : sub pat repl s = s).
  { destruct Hst as [Hshort | Hid]; [|exact Hid].
    destruct (search pat s) eqn:Hs; [|apply sub_unchanged; exact Hs].
    pose proof (sub_strict pat repl s Hshort Hs) as Hlt.
    pose proof (apply_all_length steps (sub pat repl s) Hrest) as Hle.
    unfold apply_all in Hle. lia. }
  constructor; [exact Hfix|]. apply IH. rewrite Hfix in Hlen. exact Hlen.
Qed.

End SearchFacts.

(** ** Lines *)

Section Lines.

Lemma split_lines_no_lf (s : Py.str) :
  Forall (Forall (fun c => c <> Py.LF)) (Py.split_lines s).
Proof.
  induction s as [|c s IH]; [repeat constructor|].
  cbn [Py.split_lines]. destruct (c =? Py.LF)%N eqn:Hc.
  - constructor; [constructor | exact IH].
  - apply N.eqb_neq in Hc. destruct (Py.split_lines s) as [|l ls].
    + repeat constructor. exact Hc.
    + apply Forall_cons_1 in IH as [Hl Hls].
      constructor; [constructor; assumption | exact Hls].
Qed.

Lemma split_lines_app_lf (l t : Py.str) :
  Forall (fun c => c <> Py.LF) l ->
  Py.split_lines (l ++ Py.LF :: t) = l :: Py.split_lines t.
Proof.
  induction 1 as [|c l Hc Hl IH]; [reflexivity|].
  cbn [app Py.split_lines]. apply N.eqb_neq in Hc. rewrite Hc, IH. reflexivity.
Qed.

Lemma split_join (ls : list Py.str) :
  ls <> [] -> Forall (Forall (fun c => c <> Py.LF)) ls ->
  Py.split_lines (Py.join [Py.LF] ls) = ls.
Proof.
  intros Hne Hall. induction Hall as [|l ls Hl Hls IH]; [congruence|].
  destruct ls as [|l' ls]; [apply split_lines_one; exact Hl|].
  rewrite join_cons2. cbn [app]. rewrite (split_lines_app_lf _ _ Hl).
  f_equal. apply IH. discriminate.
Qed.

Lemma join_snoc (sep x : Py.str) (ls : list Py.str) :
  ls <> [] -> Py.join sep (ls ++ [x]) = (Py.join sep ls ++ sep ++ x)%list.
Proof.
  induction ls as [|l ls IH]; [congruence|]. intros _.
  destruct ls as [|l' ls]; [reflexivity|].
  change ((l :: l' :: ls) ++ [x])%list with (l :: l' :: (ls ++ [x]))%list.
  rewrite !join_cons2.
  change (l' :: (ls ++ [x]))%list with ((l' :: ls) ++ [x])%list.
  rewrite IH by discriminate. rewrite <- !app_assoc. reflexivity.
Qed.

Lemma rev_join (ls : list Py.str) :
  rev (Py.join [Py.LF] ls) = Py.join [Py.LF] (rev (map (@rev N) ls)).
Proof.
  induction ls as [|l ls IH]; [reflexivity|].
  destruct ls as [|l' ls]; [reflexivity|].
  rewrite join_cons2. cbn [map rev] in *.
  rewrite join_snoc.
  2:{ intros Hnil. apply (f_equal (@length _)) in Hnil.
      rewrite length_app in Hnil. cbn [length] in Hnil. lia. }
  rewrite <- IH. rewrite rev_app_distr. cbn [app rev]. rewrite <- !app_assoc. reflexivity.
Qed.

Lemma split_lines_rev (s : Py.str) :
  Py.split_lines (rev s) = rev (map (@rev N) (Py.split_lines s)).
Proof.
  rewrite <- (join_split_lines s) at 1. rewrite rev_join.
  apply split_join.
  - pose proof (split_lines_not_nil s) as Hne. intros Hnil.
    apply (f_equal (@length _)) in Hnil. rewrite length_rev, length_map in Hnil.
    destruct (Py.split_lines s); [congruence | discriminate].
  - apply Forall_rev. apply List.Forall_map.
    pose proof (split_lines_no_lf s) as Hall. revert Hall.
    apply List.Forall_impl. intros l Hl. apply Forall_rev. exact Hl.
Qed.

Lemma lstrip_length (s : Py.str) : (length (Py.lstrip s) <= length s)%nat.
Proof. destruct (lstrip_suffix s) as [a Ha]. rewrite Ha at 2. rewrite length_app. lia. Qed.

Lemma trimmed_rev (l : Py.str) : trimmed l -> trimmed (rev l).
Proof.
  intros [Hl Hr]. unfold trimmed, Py.rstrip in *. rewrite rev_involutive, Hl.
  split; [|reflexivity].
  apply (f_equal (@rev N)) in Hr. rewrite rev_involutive in Hr. exact Hr.
Qed.

Lemma strip_trimmed (l : Py.str) : trimmed (Py.strip l).
Proof.
  split; [|apply rstrip_idem].
  unfold Py.strip. pose proof (lstrip_head l) as Hhead.
  destruct (Py.lstrip l) as [|x u]; [reflexivity|].
  rewrite (rstrip_cons_nonspace x u Hhead). cbn [Py.lstrip]. rewrite Hhead. reflexivity.
Qed.

Lemma trimmed_strip (l : Py.str) : trimmed l -> Py.strip l = l.
Proof. intros [Hl Hr]. unfold Py.strip. rewrite Hl. exact Hr. Qed.

Lemma lines_trimmed_lstrip (s : Py.str) :
  Forall trimmed (Py.split_lines s) -> Forall trimmed (Py.split_lines (Py.lstrip s)).
Proof.
  induction s as [|c s IH]; intros Hall; [exact Hall|].
  cbn [Py.lstrip]. destruct (Py.isspace c) eqn:Hsp; [|exact Hall].
  apply IH. cbn [Py.split_lines] in Hall.
  destruct (c =? Py.LF)%N; [exact (Forall_inv_tail Hall)|].
  pose proof (split_lines_not_nil s) as Hne.
  destruct (Py.split_lines s) as [|l ls]; [congruence|].
  apply Forall_cons_1 in Hall as [[Hl _] _]. exfalso.
  cbn [Py.lstrip] in Hl. rewrite Hsp in Hl.
  pose proof (lstrip_length l) as Hlen. rewrite Hl in Hlen. cbn [length] in Hlen. lia.
Qed.

Lemma lines_trimmed_rev (s : Py.str) :
  Forall trimmed (Py.split_lines s) -> Forall trimmed (Py.split_lines (rev s)).
Proof.
  intros Hall. rewrite split_lines_rev. apply Forall_rev. apply List.Forall_map.
  revert Hall. apply List.Forall_impl. exact trimmed_rev.
Qed.

Lemma lines_trimmed_strip (s : Py.str) :
  Forall trimmed (Py.split_lines s) -> Forall trimmed (Py.split_lines (Py.strip s)).
Proof.
  intros Hall. unfold Py.strip, Py.rstrip.
  apply lines_trimmed_rev, lines_trimmed_lstrip, lines_trimmed_rev, lines_trimmed_lstrip.
  exact Hall.
Qed.

(** The lines of a text whose lines were stripped are trimmed. *)
Lemma strip_lines_trimmed (s : Py.str) :
  Forall trimmed (Py.split_lines (Py.join [Py.LF] (map Py.strip (Py.split_lines s)))).
Proof.
  rewrite split_join.
  - apply List.Forall_map. apply List.Forall_forall. intros l _. apply strip_trimmed.
  - pose proof (split_lines_not_nil s). destruct (Py.split_lines s); [congruence | discriminate].
  - apply List.Forall_map. pose proof (split_lines_no_lf s) as Hall. revert Hall.
    apply List.Forall_impl. intros l Hl. apply strip_Forall. exact Hl.
Qed.

(** Stripping trimmed lines changes nothing. *)
Lemma strip_lines_fixed (y : Py.str) :
  Forall trimmed (Py.split_lines y) ->
  Py.join [Py.LF] (map Py.strip (Py.split_lines y)) = y.
Proof.
  intros Hall. rewrite <- (join_split_lines y) at 2. f_equal.
  rewrite <- (map_id (Py.split_lines y)) at 2. apply map_ext_in.
  intros l Hl. rewrite List.Forall_forall in Hall. apply trimmed_strip, Hall, Hl.
Qed.

End Lines.

(** ** Runs of a class do not cross a newline *)

Section AvoidLines.
Import Re ReSpec.

Variable F : Py.str -> Prop.
Hypothesis F_line : forall t, F t -> t <> [] /\ Forall (fun c => c <> Py.LF) t.

Lemma prefix_before_lf (t u v : Py.str) :
  Forall (fun c => c <> Py.LF) t -> t `prefix_of` (u ++ Py.LF :: v) -> t `prefix_of` u.
Proof.
  revert t. induction u as [|c u IH]; intros t Ht Hpre.
  - destruct t as [|x t]; [apply prefix_nil|].
    cbn [app] in Hpre. apply prefix_cons_inv_1 in Hpre. subst x.
    apply Forall_cons_1 in Ht as [Hx _]. congruence.
  - destruct t as [|x t]; [apply prefix_nil|].
    cbn [app] in Hpre. pose proof (prefix_cons_inv_1 _ _ _ _ Hpre) as ->.
    apply prefix_cons_inv_2 in Hpre. apply prefix_cons.
    apply IH; [exact (Forall_inv_tail Ht) | exact Hpre].
Qed.

Lemma avoids_nil : avoids F [].
Proof.
  split; [|exact I]. intros t Hpre Ht. apply prefix_nil_inv in Hpre. subst t.
  destruct (F_line [] Ht) as [Hne _]. congruence.
Qed.

Lemma avoids_app_lf (a b : Py.str) :
  avoids F a -> avoids F b -> avoids F (a ++ Py.LF :: b).
Proof.
  intros Ha Hb. induction a as [|c a IH].
  - split; [|exact Hb]. intros t Hpre Ht. destruct (F_line t Ht) as [Hne Hlf].
    destruct t as [|x t]; [congruence|].
    cbn [app] in Hpre. apply prefix_cons_inv_1 in Hpre. subst x.
    apply Forall_cons_1 in Hlf as [Hx _]. congruence.
  - split; [|apply IH; exact (avoids_tail _ _ _ Ha)].
    intros t Hpre Ht. destruct (F_line t Ht) as [_ Hlf].
    apply (avoids_here F (c :: a) t Ha); [|exact Ht].
    exact (prefix_before_lf t (c :: a) b Hlf Hpre).
Qed.

Lemma join_avoids (ls : list Py.str) :
  Forall (avoids F) ls -> avoids F (Py.join [Py.LF] ls).
Proof.
  induction 1 as [|l ls Hl Hls IH]; [apply avoids_nil|].
  destruct ls as [|l' ls]; [exact Hl|].
  rewrite join_cons2. cbn [app]. apply avoids_app_lf; [exact Hl | exact IH].
Qed.

Lemma avoids_join (ls : list Py.str) :
  ls <> [] -> avoids F (Py.join [Py.LF] ls) -> Forall (avoids F) ls.
Proof.
  induction ls as [|l ls IH]; [congruence|]. intros _ Hav.
  destruct ls as [|l' ls]; [repeat constructor; exact Hav|].
  rewrite join_cons2 in Hav. cbn [app] in Hav.
  constructor; [exact (avoids_app_l _ _ _ Hav)|].
  apply IH; [discriminate|].
  apply avoids_app_r in Hav. exact (avoids_tail _ _ _ Hav).
Qed.

(** Stripping the lines keeps the text free of the words of [F]. *)
Lemma strip_lines_avoids (s : Py.str) :
  avoids F s -> avoids F (Py.join [Py.LF] (map Py.strip (Py.split_lines s))).
Proof.
  intros Hav. apply join_avoids. apply List.Forall_map.
  rewrite <- (join_split_lines s) in Hav.
  apply avoids_join in Hav; [|apply split_lines_not_nil].
  revert Hav. apply List.Forall_impl. intros l. apply strip_avoids.
Qed.

End AvoidLines.

Lemma run_of_line (p : N -> bool) (n : nat) (t : Py.str) :
  p Py.LF = false -> ReSpec.run_of p (S n) t -> t <> [] /\ Forall (fun c => c <> Py.LF) t.
Proof.
  intros Hp [Hlen Hall]. split; [intros ->; discriminate|].
  revert Hall. apply List.Forall_impl. intros c Hc ->. congruence.
Qed.

(** ** The output of [clean] *)

Section Cleaned.
Import Re ReSpec TextCleaner.

Lemma replace_patterns_runs :
  patterns_to_replace
  = [ (run_pattern (one_of [32; 9]%N) 1, [32%N]);
      (run_pattern (only Py.LF) 3, [Py.LF; Py.LF]);
      (run_pattern (only 46%N) 4, [46; 46; 46]%N);
      (run_pattern (only 45%N) 3, [45; 45; 45]%N) ].
Proof. reflexivity. Qed.

(** The text that the substitutions of [normalize_whitespace] give has
    single blanks and at most three dots and three dashes in a row. *)
Lemma replaced_runs (s : Py.str) :
  let out := fold_left (fun t pr => sub (fst pr) (snd pr) t) patterns_to_replace s in
  avoids (run_of (one_of [32; 9]%N) 2) out /\ avoids (run_of (only 46%N) 4) out /\ avoids (run_of (only 45%N) 4) out.
Proof.
  rewrite replace_patterns_runs. cbn [fold_left fst snd].
  set (s1 := sub (run_pattern (one_of [32; 9]%N) 1) [32%N] s).
  set (s2 := sub (run_pattern (only Py.LF) 3) [Py.LF; Py.LF] s1).
  set (s3 := sub (run_pattern (only 46%N) 4) [46; 46; 46]%N s2).
  set (s4 := sub (run_pattern (only 45%N) 3) [45; 45; 45]%N s3).
  assert (B1 : avoids (run_of (one_of [32; 9]%N) 2) s1).
  { apply (sub_run_bounded (one_of [32; 9]%N) 1 [32%N] s); [lia | repeat constructor]. }
  assert (B4 : avoids (run_of (one_of [32; 9]%N) 2) s4).
  { do 3 (apply sub_avoids;
          [discriminate | intros t; apply run_apart; repeat constructor |]).
    exact B1. }
  assert (D3 : avoids (run_of (only 46%N) 4) s3).
  { apply (sub_run_bounded (only 46%N) 4 [46; 46; 46]%N s2); [lia | repeat constructor]. }
  assert (D4 : avoids (run_of (only 46%N) 4) s4).
  { apply sub_avoids; [discriminate | intros t; apply run_apart; repeat constructor | exact D3]. }
  assert (E4 : avoids (run_of (only 45%N) 4) s4).
  { apply (sub_run_bounded (only 45%N) 3 [45; 45; 45]%N s3); [lia | repeat constructor]. }
  cbv zeta. auto.
Qed.

Lemma trimmed_nil : trimmed [].
Proof. split; reflexivity. Qed.

Lemma clean_with_cleaned (x : Py.str) (rp ocr : bool) : cleaned (clean_with x rp ocr).
Proof.
  split; [apply clean_with_chars|].
  destruct x as [|c0 x].
  { cbn [clean_with].
    repeat split; try (apply avoids_nil; intros t; apply run_of_line; reflexivity).
    repeat constructor. }
  unfold clean_with. set (s0 := c0 :: x).
  set (s5 := if rp then _ else _).
  unfold normalize_whitespace.
  destruct (replaced_runs s5) as (B & D & E).
  set (s8 := fold_left _ patterns_to_replace s5) in *.
  split; [|split; [|split; [|split]]].
  - apply strip_avoids, strip_lines_avoids; [|exact B].
    intros t. apply run_of_line. reflexivity.
  - apply strip_avoids, strip_lines_avoids; [|exact D].
    intros t. apply run_of_line. reflexivity.
  - apply strip_avoids, strip_lines_avoids; [|exact E].
    intros t. apply run_of_line. reflexivity.
  - apply lines_trimmed_strip, strip_lines_trimmed.
  - apply strip_idem.
Qed.

Ltac needs_char :=
  unfold requires; simpl;
  repeat first
    [ apply Exists_cons_hd; split; [simpl; lia | simpl; intros ? Hc; exact Hc]
    | apply Exists_cons_tl ].

(** On a text of this shape the substitutions that remove the control
    characters and collapse blanks, dots and dashes change nothing. *)
Lemma cleaned_fixed (y : Py.str) :
  cleaned y ->
  Forall (fun st => sub (fst st) (snd st) y = y)
    (map (fun pat => (pat, [])) patterns_to_remove
       ++ [ (run_pattern (one_of [32; 9]%N) 1, [32%N]);
            (run_pattern (only 46%N) 4, [46; 46; 46]%N);
            (run_pattern (only 45%N) 3, [45; 45; 45]%N) ])%list.
Proof.
  intros (Hchars & B & D & E & _ & _).
  assert (Hnot : forall c0, never_in_clean c0 -> Forall (fun c => (c0 =? c)%N = false) y).
  { intros c0 Hc0. revert Hchars. apply List.Forall_impl. intros c Hc.
    apply N.eqb_neq. intros ->. exact (Hc Hc0). }
  cbn [map app patterns_to_remove]. repeat constructor; cbn [fst snd].
  - apply (sub_needs (N.eqb 0)); [needs_char | apply Hnot; left; reflexivity].
  - apply (sub_needs (N.eqb 12)); [needs_char | apply Hnot; right; left; reflexivity].
  - apply (sub_needs (N.eqb 13)); [needs_char | apply Hnot; right; right; left; reflexivity].
  - apply (sub_run_fixed (one_of [32; 9]%N) 1 [32%N] y); [lia|].
    intros a b Hab Hle.
    pose proof (avoids_run_bound _ 1 y a b B Hab) as Hup.
    assert (Hrun : run_len (one_of [32; 9]%N) b = 1%nat) by lia.
    rewrite Hrun. destruct b as [|c b]; [discriminate|].
    cbn [run_len] in Hrun. destruct ((one_of [32; 9]%N) c) eqn:Hc; [|discriminate].
    rewrite Hab in Hchars. apply Forall_app in Hchars as [_ Hb].
    apply Forall_cons_1 in Hb as [Htab _].
    cbn [take]. f_equal.
    unfold one_of in Hc. cbn [existsb] in Hc.
    destruct (c =? 32)%N eqn:H32; [apply N.eqb_eq in H32; exact H32|].
    destruct (c =? 9)%N eqn:H9; [|discriminate].
    apply N.eqb_eq in H9. exfalso. apply Htab. unfold never_in_clean. auto.
  - apply (sub_run_fixed (only 46%N) 4 [46; 46; 46]%N y); [lia|].
    intros a b Hab Hle. pose proof (avoids_run_bound _ 3 y a b D Hab). lia.
  - apply (sub_run_fixed (only 45%N) 3 [45; 45; 45]%N y); [lia|].
    intros a b Hab Hle. pose proof (avoids_run_bound _ 3 y a b E Hab) as Hup.
    assert (Hrun : run_len (only 45%N) b = 3%nat) by lia. rewrite Hrun.
    destruct (run_len_take (only 45%N) 3 b ltac:(lia)) as [Hall Hlen].
    exact (run_of_only 45 3 _ Hall Hlen).
Qed.

End Cleaned.

Section SecondPass.
Import Re ReSpec TextCleaner.

Lemma shorter_erase (pat : pattern) : shorter (pat, []).
Proof. intros sol b n _. cbn [snd length]. lia. Qed.

Lemma shorter_word2 (a b r : N) : shorter (Pat false [chr a; chr b] false, [r]).
Proof.
  intros sol u n. cbn [fst snd]. rewrite match_chr2.
  destruct u as [|x [|y u]]; try discriminate.
  destruct ((a =? x) && (b =? y))%N; [|discriminate]. intros [= <-]. cbn [length]. lia.
Qed.

Lemma shorter_run (p : N -> bool) (l : nat) (repl : Py.str) :
  (length repl < l)%nat -> shorter (run_pattern p l, repl).
Proof.
  intros Hl sol b n. cbn [fst snd]. rewrite match_run.
  destruct (l <=? run_len p b)%nat eqn:Hle; [|discriminate].
  apply Nat.leb_le in Hle. intros [= Hn]. lia.
Qed.

Lemma not_longer_run (p : N -> bool) (l : nat) (repl : Py.str) :
  (length repl <= l)%nat -> not_longer (run_pattern p l, repl).
Proof.
  intros Hl sol b n. cbn [fst snd]. rewrite match_run.
  destruct (l <=? run_len p b)%nat eqn:Hle; [|discriminate].
  apply Nat.leb_le in Hle. intros [= Hn]. lia.
Qed.

Lemma substitutions_list :
  substitutions
  = [ (Pat false [chr 0] false, []); (Pat false [chr 12] false, []);
      (Pat false [chr 13] false, []);
      (Pat false [chr 0xe4d; chr 0xe32] false, [0xe33%N]);
      (Pat false [chr 0xe40; chr 0xe40] false, [0xe41%N]);
      (nth 0 page_patterns (Pat false [] false), []);
      (nth 1 page_patterns (Pat false [] false), []);
      (nth 2 page_patterns (Pat false [] false), []);
      (nth 0 footer_patterns (Pat false [] false), []);
      (nth 1 footer_patterns (Pat false [] false), []);
      (run_pattern (one_of [32; 9]%N) 1, [32%N]);
      (run_pattern (only Py.LF) 3, [Py.LF; Py.LF]);
      (run_pattern (only 46%N) 4, [46; 46; 46]%N);
      (run_pattern (only 45%N) 3, [45; 45; 45]%N) ].
Proof. reflexivity. Qed.

Lemma leftover_list :
  leftover_patterns
  = [ Pat false [chr 0xe4d; chr 0xe32] false;
      Pat false [chr 0xe40; chr 0xe40] false;
      nth 0 page_patterns (Pat false [] false);
      nth 1 page_patterns (Pat false [] false);
      nth 2 page_patterns (Pat false [] false);
      nth 0 footer_patterns (Pat false [] false);
      nth 1 footer_patterns (Pat false [] false);
      run_pattern (only Py.LF) 3 ].
Proof. reflexivity. Qed.

Lemma clean_substitutions (c : N) (y : Py.str) :
  clean (c :: y)
  = Py.strip (Py.join [Py.LF]
                (map Py.strip (Py.split_lines (apply_all substitutions (c :: y))))).
Proof. reflexivity. Qed.

Lemma substitutions_steps (y : Py.str) :
  cleaned y ->
  Forall (fun st => not_longer st /\ (shorter st \/ sub (fst st) (snd st) y = y))
    substitutions.
Proof.
  intros Hy. pose proof (cleaned_fixed y Hy) as Hfixed.
  cbn [map app patterns_to_remove] in Hfixed.
  apply Forall_cons_1 in Hfixed as [_ Hfixed].
  apply Forall_cons_1 in Hfixed as [_ Hfixed].
  apply Forall_cons_1 in Hfixed as [_ Hfixed].
  apply Forall_cons_1 in Hfixed as [Hblank Hfixed].
  apply Forall_cons_1 in Hfixed as [_ Hfixed].
  apply Forall_cons_1 in Hfixed as [Hdash _].
  rewrite substitutions_list.
  repeat (apply List.Forall_cons);
    try (split; [apply shorter_not_longer|left]; apply shorter_erase);
    try (split; [apply shorter_not_longer|left]; apply shorter_word2);
    try (split; [apply shorter_not_longer|left]; apply shorter_run; cbn [length]; lia).
  - split; [apply not_longer_run; cbn [length]; lia | right; exact Hblank].
  - split; [apply not_longer_run; cbn [length]; lia | right; exact Hdash].
  - constructor.
Qed.

Lemma settled_steps (y : Py.str) :
  settled y <->
  Forall (fun st => sub (fst st) (snd st) y = y)
    [ (Pat false [chr 0xe4d; chr 0xe32] false, [0xe33%N]);
      (Pat false [chr 0xe40; chr 0xe40] false, [0xe41%N]);
      (nth 0 page_patterns (Pat false [] false), []);
      (nth 1 page_patterns (Pat false [] false), []);
      (nth 2 page_patterns (Pat false [] false), []);
      (nth 0 footer_patterns (Pat false [] false), []);
      (nth 1 footer_patterns (Pat false [] false), []);
      (run_pattern (only Py.LF) 3, [Py.LF; Py.LF]) ].
Proof.
  unfold settled. rewrite leftover_list.
  split; intros H; repeat (apply Forall_cons_1 in H as [? H]);
    repeat (apply List.Forall_cons); try constructor; cbn [fst snd] in *.
  all: try (apply sub_unchanged; assumption).
  all: eapply sub_fixed_search; [|eassumption].
  all: first [ apply shorter_erase | apply shorter_word2
             | apply shorter_run; cbn [length]; lia ].
Qed.

(** On a text of the shape of a cleaned text, a pass of [clean] that does
    not shorten the text finds none of the leftover patterns. *)
Lemma cleaned_same_length_settled (y : Py.str) :
  cleaned y -> (length y <= length (clean y))%nat -> settled y.
Proof.
  intros Hy Hlen. destruct y as [|c y].
  { unfold settled. rewrite leftover_list. repeat constructor. }
  set (s := c :: y) in *.
  rewrite settled_steps. unfold s in Hlen at 2. rewrite clean_substitutions in Hlen. fold s in Hlen.
  assert (Hlen' : (length s <= length (apply_all substitutions s))%nat).
  { etransitivity; [exact Hlen|]. etransitivity; [apply strip_length|].
    etransitivity; [apply join_strip_length|]. rewrite join_split_lines. reflexivity. }
  pose proof (apply_all_same_length substitutions s (substitutions_steps s Hy) Hlen') as Hall.
  rewrite substitutions_list in Hall.
  repeat (apply Forall_cons_1 in Hall as [? Hall]).
  repeat (apply List.Forall_cons); try assumption; try constructor.
Qed.

(** A settled text of that shape is a fixed point of [clean]. *)
Lemma cleaned_settled_fixed (y : Py.str) :
  cleaned y -> settled y -> clean y = y.
Proof.
  intros Hy Hs. destruct y as [|c y]; [reflexivity|].
  set (s := c :: y) in *.
  pose proof (cleaned_fixed s Hy) as Hfixed.
  cbn [map app patterns_to_remove] in Hfixed.
  pose proof Hy as (_ & _ & _ & _ & Hlines & Hstrip).
  rewrite settled_steps in Hs. unfold s at 1. rewrite clean_substitutions. fold s.
  rewrite (apply_all_unchanged substitutions s).
  - rewrite (strip_lines_fixed s Hlines). exact Hstrip.
  - rewrite substitutions_list.
    repeat (apply Forall_cons_1 in Hs as [? Hs]).
    repeat (apply Forall_cons_1 in Hfixed as [? Hfixed]).
    repeat (apply List.Forall_cons); try assumption; try constructor.
Qed.

End SecondPass.

(** The texts of two probes, one with digits inside a line and one of
    two lines, are fixed points of [clean]. *)
Example clean_fixed_examples :
  TextCleaner.clean (Py.lit "Section 12 applies.") = Py.lit "Section 12 applies."
  /\ TextCleaner.clean [102; 105; 114; 115; 116; 10; 115; 101; 99; 111; 110; 100]%N
     = [102; 105; 114; 115; 116; 10; 115; 101; 99; 111; 110; 100]%N.
Proof. split; vm_compute; reflexivity. Qed.

(** C2 (amended): a second pass of [clean] changes nothing exactly when
    the cleaned text is settled: it has no match left for the two
    misspelt pairs, for the three page-number patterns, for the two
    footer patterns and for a run of three or more newlines. The other
    substitutions and the strips never have anything left to do. When
    the cleaned text is not settled, the second pass makes it strictly
    shorter. *)
Theorem clean_idempotent_iff_settled (x : Py.str) :
  (TextCleaner.clean (TextCleaner.clean x) = TextCleaner.clean x
   <-> settled (TextCleaner.clean x))
  /\ (~ settled (TextCleaner.clean x) ->
      (length (TextCleaner.clean (TextCleaner.clean x)) < length (TextCleaner.clean x))%nat).
Proof.
  pose proof (clean_with_cleaned x true true) as Hy.
  fold (TextCleaner.clean x) in Hy. set (y := TextCleaner.clean x) in *.
  split; [split|].
  - intros Hfix. apply (cleaned_same_length_settled y Hy). rewrite Hfix. reflexivity.
  - apply cleaned_settled_fixed. exact Hy.
  - intros Hns.
    destruct (le_lt_dec (length y) (length (TextCleaner.clean y))) as [Hle | Hlt];
      [|exact Hlt].
    exfalso. apply Hns. exact (cleaned_same_length_settled y Hy Hle).
Qed.
